(** * DexScreener MCP server: cache, rate limiting, retry and tool dispatch

    A shallow embedding of [dexscreener_mcp/client.py], [dexscreener_mcp/types.py]
    and [dexscreener_mcp/server.py].

    - Python values that travel as tool arguments and provider payloads are
      JSON values ([json]); a [Dict] is a Python dict with string keys.
    - Exceptions are the constructors of [exn]; a coroutine is a computation
      in the monad [M], which threads the client object and the outside world
      (clock, provider answers, requests issued) and may raise.
    - Time is counted in microseconds, the resolution of [datetime].
    - Strings are byte strings; iterating and joining them is Python's for
      ASCII text.  Messages of built-in exceptions follow CPython 3.11; the
      message of a JSON decoding error is the decoder's, whatever it is.
    - A provider payload is whatever JSON value [response.json()] decodes:
      an object, but also a list, a number, a string or [null], which Python
      reads as [None].
    - The libraries the code calls (httpx, tenacity, asyncio_throttle,
      pydantic) are modelled by what they do at the call sites; what pydantic
      accepts is left open ([Externals]). *)

From Stdlib Require Import ZArith Ascii String List Bool Lia.
From stdpp Require Import base option gmap strings list pretty.

#[local] Set Warnings "-register-all".
#[local] Open Scope string_scope.
#[local] Open Scope Z_scope.

(** ** Python values *)

Inductive json : Type :=
| JNull                                   (* None *)
| JBool (b : bool)
| JInt (n : Z)
| JFloat (repr : string)                  (* a float, held as its [repr] *)
| JStr (s : string)
| JList (items : list json)
| JDict (fields : list (string * json)).

(** [Dict]: a dict with string keys, in insertion order, keys distinct. *)
Definition Dict : Type := list (string * json).

(** [d.get(k)] as an option; the first binding of a key is the binding. *)
Fixpoint dict_get (k : string) (d : Dict) : option json :=
  match d with
  | [] => None
  | (k', v) :: d' => if String.eqb k k' then Some v else dict_get k d'
  end.

(** [d.get(k)] and [d.get(k, default)] *)
Definition dict_get_default (k : string) (default : json) (d : Dict) : json :=
  match dict_get k d with
  | Some v => v
  | None => default
  end.

(** [bool(v)], the test behind [if not v] *)
Definition py_truthy (v : json) : bool :=
  match v with
  | JNull => false
  | JBool b => b
  | JInt n => negb (n =? 0)
  | JFloat r => negb (String.eqb r "0.0" || String.eqb r "-0.0")
  | JStr s => negb (String.eqb s EmptyString)
  | JList l => match l with [] => false | _ :: _ => true end
  | JDict d => match d with [] => false | _ :: _ => true end
  end.

(** [type(v).__name__] *)
Definition py_type_name (v : json) : string :=
  match v with
  | JNull => "NoneType"
  | JBool _ => "bool"
  | JInt _ => "int"
  | JFloat _ => "float"
  | JStr _ => "str"
  | JList _ => "list"
  | JDict _ => "dict"
  end.

(** ** Exceptions *)

Inductive exn : Type :=
| KeyError (key : string)
| ValueError (msg : string)
| TypeError (msg : string)
| AttributeError (msg : string)
| HTTPStatusError (status_code : Z) (text : string)      (* httpx *)
| RequestError (msg : string)                            (* httpx *)
| ValidationError (msg : string)                         (* pydantic *)
| RetryError (last : exn)                                (* tenacity *)
| DexScreenerAPIError (message : string) (status_code : option Z)
| JSONDecodeError (msg : string) (lineno colno pos : Z)  (* json, a ValueError *)
| UnicodeDecodeError (encoding : string) (what : string) (* a ValueError *)
| RecursionError (what : string)
| OverflowError (msg : string)
| OSError (errno : Z) (strerror : string).

(** [str(e)] *)
Fixpoint exn_str (e : exn) : string :=
  match e with
  | KeyError key => "'" +:+ key +:+ "'"
  | ValueError msg => msg
  | TypeError msg => msg
  | AttributeError msg => msg
  | HTTPStatusError _ text => text
  | RequestError msg => msg
  | ValidationError msg => msg
  | RetryError last => "RetryError[" +:+ exn_str last +:+ "]"
  | DexScreenerAPIError message _ => message
  | JSONDecodeError msg lineno colno pos =>
      msg +:+ ": line " +:+ pretty lineno +:+ " column " +:+ pretty colno
      +:+ " (char " +:+ pretty pos +:+ ")"
  | UnicodeDecodeError encoding what => "'" +:+ encoding +:+ "' codec can't decode " +:+ what
  | RecursionError what => "maximum recursion depth exceeded" +:+ what
  | OverflowError msg => msg
  | OSError errno strerror => "[Errno " +:+ pretty errno +:+ "] " +:+ strerror
  end.

(** ** types.py *)

Module types.

(** A Python float, held as its [repr]. *)
Definition float : Type := string.

Record TokenInfo : Type := {
  address : string;
  name : string;
  symbol : string;
  decimals : option Z;
  logo_uri : option string }.

Record PairInfo : Type := {
  chain_id : string;
  dex_id : string;
  url : string;
  pair_address : string;
  base_token : TokenInfo;
  quote_token : TokenInfo;
  price_native : option string;
  price_usd : option string;
  txns : option (list (string * list (string * Z)));
  volume : option (list (string * float));
  price_change : option (list (string * float));
  liquidity : option (list (string * float));
  fdv : option float;
  market_cap : option float;
  pair_created_at : option Z }.

Record SearchResult : Type := { SearchResult_pairs : list PairInfo }.
Record TokenResponse : Type := { TokenResponse_pairs : list PairInfo }.
Record PairResponse : Type := { pair : option PairInfo }.
Record TrendingResponse : Type := { TrendingResponse_pairs : list PairInfo }.

Record RateLimitInfo : Type := {
  requests_remaining : Z;
  reset_time : Z;
  limit : Z }.

End types.

(** What constructing a model can end in besides the model.  What pydantic
    refuses it reports as [ValidationError] with a message.  An exception of
    a validator that is not a [ValueError], a [TypeError] or an
    [AssertionError] passes through pydantic as it is: [parse_timestamp] of
    [PairInfo] computes [datetime.fromtimestamp(v / 1000)] on any number, and
    for a number out of range the division or the conversion raises
    [OverflowError], or the platform's [localtime] fails with [OSError]. *)
Inductive construction_error : Type :=
| invalid (msg : string)
| division_too_large
| timestamp_out_of_range
| localtime_failed (errno : Z) (strerror : string).

Definition construction_exn (err : construction_error) : exn :=
  match err with
  | invalid msg => ValidationError msg
  | division_too_large => OverflowError "integer division result too large for a float"
  | timestamp_out_of_range => OverflowError "timestamp out of range for platform time_t"
  | localtime_failed errno strerror => OSError errno strerror
  end.

(** What the code takes from pydantic and from Python's [repr]: constructing
    a model from the keys of a payload either yields the record ([inr]) or
    raises ([inl]). *)
Class Externals : Type := {
  container_repr : json -> string;
  TokenResponse_validate : Dict -> construction_error + types.TokenResponse;
  PairResponse_validate : Dict -> construction_error + types.PairResponse;
  SearchResult_validate : Dict -> construction_error + types.SearchResult;
  TrendingResponse_validate : Dict -> construction_error + types.TrendingResponse;
  PairInfo_validate : Dict -> construction_error + types.PairInfo }.

(** [str(v)], as an f-string renders a value *)
Definition py_str `{Externals} (v : json) : string :=
  match v with
  | JNull => "None"
  | JBool true => "True"
  | JBool false => "False"
  | JInt n => pretty n
  | JFloat r => r
  | JStr s => s
  | JList _ | JDict _ => container_repr v
  end.

(** ** asyncio_throttle.Throttler *)

Module Throttler.

Record t : Type := {
  rate_limit : Z;
  period : Z;
  retry_interval : Z;
  _task_logs : list Z }.

(** [Throttler(rate_limit, period)], [period] in seconds and
    [retry_interval] at its default of 0.01 s *)
Definition init (rate_limit period : Z) : t :=
  {| rate_limit := rate_limit;
     period := period * 1000000;
     retry_interval := 10000;
     _task_logs := [] |}.

Definition set_task_logs (logs : list Z) (self : t) : t :=
  {| rate_limit := rate_limit self;
     period := period self;
     retry_interval := retry_interval self;
     _task_logs := logs |}.

(** [flush]: pop from the left while the oldest log left the window *)
Fixpoint flush_logs (period now : Z) (logs : list Z) : list Z :=
  match logs with
  | [] => []
  | t0 :: rest =>
      if period <? now - t0 then flush_logs period now rest else logs
  end.

Definition flush (now : Z) (self : t) : t :=
  set_task_logs (flush_logs (period self) now (_task_logs self)) self.

(** [acquire]: poll until the window has room, sleeping [retry_interval]
    between polls, then log the call.  [polls] bounds the number of sleeps;
    [None] means still waiting after that many.  The result carries the
    time at which the permit was granted. *)
Fixpoint acquire (polls : nat) (now : Z) (self : t) : option (t * Z) :=
  let self' := flush now self in
  if Z.of_nat (length (_task_logs self')) <? rate_limit self' then
    Some (set_task_logs (_task_logs self' ++ [now]) self', now)
  else
    match polls with
    | O => None
    | S polls' => acquire polls' (now + retry_interval self') self'
    end.

(** Permits left in the window at [now] *)
Definition available (now : Z) (self : t) : Z :=
  rate_limit self - Z.of_nat (length (_task_logs (flush now self))).

End Throttler.

(** ** The client object and the world around it *)

Record DexScreenerClient : Type := {
  rate_limit : Z;
  cache_ttl : Z;
  timeout : Z;
  max_retries : Z;
  throttler : Throttler.t;
  _cache : gmap string json;
  _cache_timestamps : gmap string Z }.

(** What [response.json()] raises for a body that is not JSON: json's
    [JSONDecodeError] with its message and the place of the error, a
    [UnicodeDecodeError] for bytes that are not text in the encoding, or a
    [RecursionError] for a document nested too deep. *)
Inductive decode_error : Type :=
| not_json (msg : string) (lineno colno pos : Z)
| not_text (encoding : string) (what : string)
| too_deep (what : string).

Definition decode_exn (err : decode_error) : exn :=
  match err with
  | not_json msg lineno colno pos => JSONDecodeError msg lineno colno pos
  | not_text encoding what => UnicodeDecodeError encoding what
  | too_deep what => RecursionError what
  end.

(** What one [client.get] meets: a response with its status, its text and
    what [response.json()] makes of its body, the decoded JSON value ([inr])
    or the failure of the decoder ([inl]); or a transport failure.  The
    decoded value is any JSON value: the annotation [Dict] of [_make_request]
    and of the cache is not checked when the code runs. *)
Inductive http_outcome : Type :=
| Responded (status_code : Z) (text : string) (body : decode_error + json)
| Failed (msg : string).

(** The world outside the client: one clock, the answers the provider will
    give, and the GET requests issued so far (url and params). *)
Record World : Type := {
  clock : Z;
  provider : list http_outcome;
  sent : list (string * option Dict) }.

Record State : Type := {
  self_ : DexScreenerClient;
  world : World }.

Definition set_self (c : DexScreenerClient) (st : State) : State :=
  {| self_ := c; world := world st |}.

Definition set_clock (now : Z) (st : State) : State :=
  {| self_ := self_ st;
     world := {| clock := now; provider := provider (world st); sent := sent (world st) |} |}.

Definition set_cache (m : gmap string json) (c : DexScreenerClient) : DexScreenerClient :=
  {| rate_limit := rate_limit c; cache_ttl := cache_ttl c; timeout := timeout c;
     max_retries := max_retries c; throttler := throttler c;
     _cache := m; _cache_timestamps := _cache_timestamps c |}.

Definition set_cache_timestamps (m : gmap string Z) (c : DexScreenerClient) : DexScreenerClient :=
  {| rate_limit := rate_limit c; cache_ttl := cache_ttl c; timeout := timeout c;
     max_retries := max_retries c; throttler := throttler c;
     _cache := _cache c; _cache_timestamps := m |}.

Definition set_throttler (t : Throttler.t) (c : DexScreenerClient) : DexScreenerClient :=
  {| rate_limit := rate_limit c; cache_ttl := cache_ttl c; timeout := timeout c;
     max_retries := max_retries c; throttler := t;
     _cache := _cache c; _cache_timestamps := _cache_timestamps c |}.

(** [DexScreenerClient.__init__] *)
Definition DexScreenerClient_init (rate_limit cache_ttl timeout max_retries : Z)
  : DexScreenerClient :=
  {| rate_limit := rate_limit;
     cache_ttl := cache_ttl;
     timeout := timeout;
     max_retries := max_retries;
     throttler := Throttler.init rate_limit 60;
     _cache := ∅;
     _cache_timestamps := ∅ |}.

(** [DexScreenerClient()] with the default arguments *)
Definition DexScreenerClient_default : DexScreenerClient :=
  DexScreenerClient_init 300 60 30 3.

(** ** Coroutines: state, exceptions, and waiting on the throttler *)

Inductive outcome (A : Type) : Type :=
| Return (a : A)
| Raise (e : exn)
| Blocked.                (* still waiting for a permit when the polls ran out *)
Arguments Return {A} a.
Arguments Raise {A} e.
Arguments Blocked {A}.

(** The first argument bounds the polls of each throttler acquisition. *)
Definition M (A : Type) : Type := nat -> State -> outcome A * State.

Definition ret {A} (a : A) : M A := fun _ st => (Return a, st).

Definition bind {A B} (m : M A) (k : A -> M B) : M B :=
  fun polls st =>
    match m polls st with
    | (Return a, st') => k a polls st'
    | (Raise e, st') => (Raise e, st')
    | (Blocked, st') => (Blocked, st')
    end.

Definition raise {A} (e : exn) : M A := fun _ st => (Raise e, st).

(** [try: body / except ...]: [handler e] is the matching except clause. *)
Definition try_except {A} (body : M A) (handler : exn -> option (M A)) : M A :=
  fun polls st =>
    match body polls st with
    | (Raise e, st') =>
        match handler e with
        | Some h => h polls st'
        | None => (Raise e, st')
        end
    | r => r
    end.

Declare Scope py_scope.
Delimit Scope py_scope with py.
Notation "x <- c ;; k" := (bind c (fun x => k))
  (at level 20, c at level 99, k at level 200, only parsing) : py_scope.
Notation "c ;; k" := (bind c (fun _ => k))
  (at level 100, k at level 200, only parsing, right associativity) : py_scope.
#[local] Open Scope py_scope.

Definition get_self : M DexScreenerClient := fun _ st => (Return (self_ st), st).

(** [datetime.now()] and [time.monotonic()] read one clock *)
Definition datetime_now : M Z := fun _ st => (Return (clock (world st)), st).

(** [await asyncio.sleep(dt)] *)
Definition sleep (dt : Z) : M unit :=
  fun _ st => (Return tt, set_clock (clock (world st) + dt) st).

(** ** The response cache *)

(** [sorted(params.items())]: insertion sort on the keys *)
Fixpoint insert_item (kv : string * json) (l : Dict) : Dict :=
  match l with
  | [] => [kv]
  | kv' :: l' =>
      if String.leb (fst kv) (fst kv') then kv :: l else kv' :: insert_item kv l'
  end.

Definition sorted_items (params : Dict) : Dict :=
  fold_right insert_item [] params.

Definition _get_cache_key `{Externals} (endpoint : string) (params : option Dict) : string :=
  match params with
  | Some (kv :: rest) =>
      let param_str :=
        String.concat "&"
          (map (fun kv => fst kv +:+ "=" +:+ py_str (snd kv)) (sorted_items (kv :: rest))) in
      endpoint +:+ "?" +:+ param_str
  | _ => endpoint
  end.

Definition _is_cache_valid (cache_key : string) : M bool :=
  self <- get_self ;;
  match _cache_timestamps self !! cache_key with
  | None => ret false
  | Some cache_time =>
      now <- datetime_now ;;
      ret (now - cache_time <? cache_ttl self * 1000000)
  end.

(** [self._cache[k] = data] and [self._cache_timestamps[k] = t] *)
Definition cache_setitem (cache_key : string) (data : json) : M unit :=
  fun _ st =>
    (Return tt,
     set_self (set_cache (<[cache_key := data]> (_cache (self_ st))) (self_ st)) st).

Definition cache_timestamps_setitem (cache_key : string) (t : Z) : M unit :=
  fun _ st =>
    (Return tt,
     set_self
       (set_cache_timestamps (<[cache_key := t]> (_cache_timestamps (self_ st))) (self_ st))
       st).

(** [del self._cache[k]] and [del self._cache_timestamps[k]] *)
Definition cache_delitem (cache_key : string) : M unit :=
  fun _ st =>
    match _cache (self_ st) !! cache_key with
    | Some _ =>
        (Return tt, set_self (set_cache (delete cache_key (_cache (self_ st))) (self_ st)) st)
    | None => (Raise (KeyError cache_key), st)
    end.

Definition cache_timestamps_delitem (cache_key : string) : M unit :=
  fun _ st =>
    match _cache_timestamps (self_ st) !! cache_key with
    | Some _ =>
        (Return tt,
         set_self
           (set_cache_timestamps (delete cache_key (_cache_timestamps (self_ st))) (self_ st))
           st)
    | None => (Raise (KeyError cache_key), st)
    end.

(** [_get_cached_data] returns the payload under the key, or [None]: a
    payload that is [None] itself and a miss come back as the same value. *)
Definition _get_cached_data (cache_key : string) : M json :=
  valid <- _is_cache_valid cache_key ;;
  if valid then
    self <- get_self ;;
    match _cache self !! cache_key with
    | Some data => ret data
    | None => raise (KeyError cache_key)
    end
  else
    self <- get_self ;;
    (match _cache self !! cache_key with
     | Some _ => cache_delitem cache_key ;; cache_timestamps_delitem cache_key
     | None => ret tt
     end) ;;
    ret JNull.

Definition _cache_data (cache_key : string) (data : json) : M unit :=
  cache_setitem cache_key data ;;
  now <- datetime_now ;;
  cache_timestamps_setitem cache_key now.

(** ** httpx *)

Record Response : Type := {
  status_code : Z;
  text : string;
  json_body : decode_error + json }.

(** [await self.client.get(url, params=params)]: the request is issued and
    meets the provider's next answer; with no answer left the connection
    fails.  A URL that httpx refuses to send is not modelled. *)
Definition client_get (url : string) (params : option Dict) : M Response :=
  fun _ st =>
    let w := world st in
    let st' := {| self_ := self_ st;
                  world := {| clock := clock w;
                              provider := tail (provider w);
                              sent := sent w ++ [(url, params)] |} |} in
    match provider w with
    | Responded code txt body :: _ =>
        (Return {| status_code := code; text := txt; json_body := body |}, st')
    | Failed msg :: _ => (Raise (RequestError msg), st')
    | [] => (Raise (RequestError "All connection attempts failed"), st')
    end.

(** [response.raise_for_status()]: anything but a 2xx status raises *)
Definition raise_for_status (response : Response) : M unit :=
  if (200 <=? status_code response) && (status_code response <=? 299)
  then ret tt
  else raise (HTTPStatusError (status_code response) (text response)).

(** [response.json()]: the decoded value, or the exception of the decoder *)
Definition response_json (response : Response) : M json :=
  match json_body response with
  | inr data => ret data
  | inl err => raise (decode_exn err)
  end.

(** [async with self.throttler] *)
Definition throttler_enter : M unit :=
  fun polls st =>
    match Throttler.acquire polls (clock (world st)) (throttler (self_ st)) with
    | Some (t', now') =>
        (Return tt, set_clock now' (set_self (set_throttler t' (self_ st)) st))
    | None => (Blocked, st)
    end.

(** ** tenacity *)

Module tenacity.

(** [retry_if_exception_type((httpx.RequestError, httpx.HTTPStatusError))] *)
Definition retry_if_exception_type (e : exn) : bool :=
  match e with
  | RequestError _ | HTTPStatusError _ _ => true
  | _ => false
  end.

(** [wait_exponential(multiplier, min, max)], in seconds, after attempt
    number [attempt_number] *)
Definition wait_exponential (multiplier min max : Z) (attempt_number : nat) : Z :=
  Z.max (Z.max 0 min) (Z.min (multiplier * 2 ^ (Z.of_nat attempt_number - 1)) max).

(** The retry loop.  An attempt that returns is the result.  An attempt
    that raises is looked at by the [retry] predicate: when it does not
    match, the exception is re-raised as it is; when it matches and the
    stop condition holds ([remaining] attempts are [0]), [RetryError] is
    raised; otherwise the loop sleeps [wait] seconds and calls again. *)
Fixpoint attempts {A} (retry : exn -> bool) (wait : nat -> Z) (fn : M A)
    (remaining attempt_number : nat) : M A :=
  fun polls st =>
    match fn polls st with
    | (Raise e, st') =>
        if retry e then
          match remaining with
          | O => (Raise (RetryError e), st')
          | S remaining' =>
              (sleep (wait attempt_number * 1000000) ;;
               attempts retry wait fn remaining' (S attempt_number)) polls st'
          end
        else (Raise e, st')
    | r => r
    end.

(** [@retry(retry=..., stop=stop_after_attempt(n), wait=...)] *)
Definition retry {A} (retry : exn -> bool) (stop_after_attempt : nat)
    (wait : nat -> Z) (fn : M A) : M A :=
  attempts retry wait fn (stop_after_attempt - 1) 1.

End tenacity.

(** ** client.py: the retrying fetcher *)

Definition BASE_URL : string := "https://api.dexscreener.com/latest/dex".

(** [s.lstrip('/')] *)
Fixpoint lstrip_slash (s : string) : string :=
  match s with
  | String "/"%char s' => lstrip_slash s'
  | _ => s
  end.

(** [v is not None] *)
Definition is_not_None (v : json) : bool :=
  match v with
  | JNull => false
  | _ => true
  end.

(** The body of [_make_request], under the decorator *)
Definition _make_request_wrapped `{Externals}
    (endpoint : string) (params : option Dict) : M json :=
  let cache_key := _get_cache_key endpoint params in
  cached_data <- _get_cached_data cache_key ;;
  if is_not_None cached_data then ret cached_data
  else
      throttler_enter ;;
      let url := BASE_URL +:+ "/" +:+ lstrip_slash endpoint in
      try_except
        (response <- client_get url params ;;
         raise_for_status response ;;
         data <- response_json response ;;
         _cache_data cache_key data ;;
         ret data)
        (fun e =>
           match e with
           | HTTPStatusError code txt =>
               let error_msg := "HTTP " +:+ pretty code +:+ ": " +:+ txt in
               Some (raise (DexScreenerAPIError error_msg (Some code)))
           | RequestError msg =>
               let error_msg := "Request failed: " +:+ msg in
               Some (raise (DexScreenerAPIError error_msg None))
           | _ => None
           end).

Definition _make_request `{Externals}
    (endpoint : string) (params : option Dict) : M json :=
  tenacity.retry tenacity.retry_if_exception_type 3
    (tenacity.wait_exponential 1 1 10)
    (_make_request_wrapped endpoint params).

(** ** client.py: the typed operations *)

(** Building a pydantic model from keyword arguments: the record, or the
    exception *)
Definition construct {A} (validated : construction_error + A) : M A :=
  match validated with
  | inr r => ret r
  | inl err => raise (construction_exn err)
  end.

(** A model class of types.py called with [data] unpacked as its keyword
    arguments: [data] has to be a mapping. *)
Definition construct_from {A} (cls : string) (validate : Dict -> construction_error + A)
    (data : json) : M A :=
  match data with
  | JDict d => construct (validate d)
  | _ =>
      raise (TypeError ("dexscreener_mcp.types." +:+ cls
                        +:+ "() argument after ** must be a mapping, not "
                        +:+ py_type_name data))
  end.

(** The clause every operation ends with:
    [except ValidationError as e: raise DexScreenerAPIError(...)] *)
Definition invalid_response_format {A} (e : exn) : option (M A) :=
  match e with
  | ValidationError msg =>
      Some (raise (DexScreenerAPIError ("Invalid response format: " +:+ msg) None))
  | _ => None
  end.

Definition get_token_info `{Externals} (token_address : json) : M types.TokenResponse :=
  try_except
    (data <- _make_request ("tokens/" +:+ py_str token_address) None ;;
     construct_from "TokenResponse" TokenResponse_validate data)
    invalid_response_format.

Definition get_pair_info `{Externals} (chain_id pair_address : json) : M types.PairResponse :=
  try_except
    (data <- _make_request
               ("pairs/" +:+ py_str chain_id +:+ "/" +:+ py_str pair_address) None ;;
     construct_from "PairResponse" PairResponse_validate data)
    invalid_response_format.

Definition search `{Externals} (query limit : json) : M types.SearchResult :=
  let params :=
    match limit with
    | JNull => [("q", query)]
    | _ => [("q", query); ("limit", JStr (py_str limit))]
    end in
  try_except
    (data <- _make_request "search" (Some params) ;;
     construct_from "SearchResult" SearchResult_validate data)
    invalid_response_format.

(** [_make_request(endpoint)] for an [endpoint] that may not be a [str]:
    [get_trending_pairs] hands its argument over as it came.  A list or dict
    is unhashable and fails at the cache lookup.  Any other value that is not
    a string is the key of no cache entry, so the lookup misses, a permit is
    taken, and [endpoint.lstrip] fails.  Neither failure is of a retried
    type. *)
Definition _make_request_endpoint `{Externals} (endpoint : json) : M json :=
  match endpoint with
  | JStr e => _make_request e None
  | JList _ | JDict _ =>
      raise (TypeError ("unhashable type: '" +:+ py_type_name endpoint +:+ "'"))
  | _ =>
      throttler_enter ;;
      raise (AttributeError
               ("'" +:+ py_type_name endpoint +:+ "' object has no attribute 'lstrip'"))
  end.

Definition get_trending_pairs `{Externals} (chain_id : json) : M types.TrendingResponse :=
  let endpoint := if py_truthy chain_id then chain_id else JStr "tokens" in
  try_except
    (data <- _make_request_endpoint endpoint ;;
     construct_from "TrendingResponse" TrendingResponse_validate data)
    invalid_response_format.

(** [v.get(k, default)]: only a dict has the method *)
Definition py_get (v : json) (k : string) (default : json) : M json :=
  match v with
  | JDict d => ret (dict_get_default k default d)
  | _ => raise (AttributeError ("'" +:+ py_type_name v +:+ "' object has no attribute 'get'"))
  end.

(** [iter(v)]: the items a [for] loop sees *)
Definition py_iter (v : json) : exn + list json :=
  match v with
  | JList items => inr items
  | JStr s => inr (map (fun c => JStr (String c EmptyString)) (list_ascii_of_string s))
  | JDict d => inr (map (fun kv => JStr (fst kv)) d)
  | _ => inl (TypeError ("'" +:+ py_type_name v +:+ "' object is not iterable"))
  end.

(** The items of [sep.join(...)] must all be strings. *)
Fixpoint join_items (i : nat) (items : list json) : exn + list string :=
  match items with
  | [] => inr []
  | JStr s :: rest =>
      match join_items (S i) rest with
      | inr ss => inr (s :: ss)
      | inl e => inl e
      end
  | v :: _ =>
      inl (TypeError ("sequence item " +:+ pretty i +:+ ": expected str instance, "
                      +:+ py_type_name v +:+ " found"))
  end.

(** [sep.join(v)] *)
Definition py_join (sep : string) (v : json) : M string :=
  match py_iter v with
  | inl _ => raise (TypeError "can only join an iterable")
  | inr items =>
      match join_items 0 items with
      | inr ss => ret (String.concat sep ss)
      | inl e => raise e
      end
  end.

(** [PairInfo] built from the keys of [pair], which has to be a mapping *)
Definition PairInfo_of `{Externals} (pair : json) : M types.PairInfo :=
  construct_from "PairInfo" PairInfo_validate pair.

(** A list comprehension: the items in order, stopping at the first raise *)
Fixpoint comprehension {A B} (f : A -> M B) (items : list A) : M (list B) :=
  match items with
  | [] => ret []
  | x :: rest =>
      y <- f x ;;
      ys <- comprehension f rest ;;
      ret (y :: ys)
  end.

Definition get_multiple_pairs `{Externals} (pair_addresses : json) : M (list types.PairInfo) :=
  if negb (py_truthy pair_addresses) then ret []
  else
    addresses_param <- py_join "," pair_addresses ;;
    try_except
      (data <- _make_request ("pairs/" +:+ addresses_param) None ;;
       pairs_data <- py_get data "pairs" (JList []) ;;
       match py_iter pairs_data with
       | inr items => comprehension PairInfo_of items
       | inl e => raise e
       end)
      invalid_response_format.

Definition get_rate_limit_info : M types.RateLimitInfo :=
  self <- get_self ;;
  now <- datetime_now ;;
  ret {| types.requests_remaining := rate_limit self;
         types.reset_time := now + 60 * 1000000;
         types.limit := rate_limit self |}.

(** ** server.py *)

(** What a tool handler returns, a [Dict[str, Any]]: the [.dict()] of a
    model, the pairs wrapped under ["pairs"], or a dict literal. *)
Inductive tool_value : Type :=
| TokenResponse_dict (r : types.TokenResponse)
| PairResponse_dict (r : types.PairResponse)
| SearchResult_dict (r : types.SearchResult)
| TrendingResponse_dict (r : types.TrendingResponse)
| pairs_dict (pairs : list types.PairInfo)
| literal_dict (d : Dict)
| RateLimitInfo_dict (r : types.RateLimitInfo).

(** The text of a [TextContent]: [json.dumps(result, indent=2, default=str)]
    is kept as the value it serialises; messages are strings. *)
Inductive text_value : Type :=
| json_dumps (result : tool_value)
| message_text (s : string).

Record TextContent : Type := {
  type_ : string;
  text_ : text_value }.

Record CallToolResult : Type := {
  content : list TextContent;
  isError : bool }.

(** [request.params] of a [CallToolRequest] *)
Record CallToolRequest : Type := {
  params_name : string;
  params_arguments : option Dict }.

(** [args[key]] *)
Definition subscript (args : Dict) (key : string) : M json :=
  match dict_get key args with
  | Some v => ret v
  | None => raise (KeyError key)
  end.

Definition _get_token_info `{Externals} (args : Dict) : M tool_value :=
  token_address <- subscript args "token_address" ;;
  if negb (py_truthy token_address) then raise (ValueError "token_address is required")
  else
    response <- get_token_info token_address ;;
    ret (TokenResponse_dict response).

Definition _get_pair_info `{Externals} (args : Dict) : M tool_value :=
  chain_id <- subscript args "chain_id" ;;
  pair_address <- subscript args "pair_address" ;;
  if negb (py_truthy chain_id) || negb (py_truthy pair_address)
  then raise (ValueError "chain_id and pair_address are required")
  else
    response <- get_pair_info chain_id pair_address ;;
    ret (PairResponse_dict response).

Definition _search_tokens `{Externals} (args : Dict) : M tool_value :=
  query <- subscript args "query" ;;
  let limit := dict_get_default "limit" JNull args in
  if negb (py_truthy query) then raise (ValueError "query is required")
  else
    response <- search query limit ;;
    ret (SearchResult_dict response).

Definition _get_trending_pairs `{Externals} (args : Dict) : M tool_value :=
  let chain_id := dict_get_default "chain_id" JNull args in
  response <- get_trending_pairs chain_id ;;
  ret (TrendingResponse_dict response).

Definition _get_multiple_pairs `{Externals} (args : Dict) : M tool_value :=
  pair_addresses <- subscript args "pair_addresses" ;;
  if negb (py_truthy pair_addresses) then raise (ValueError "pair_addresses is required")
  else
    pairs <- get_multiple_pairs pair_addresses ;;
    ret (pairs_dict pairs).

Definition chain_entry (id name native_currency explorer : string) : json :=
  JDict [("id", JStr id); ("name", JStr name);
         ("native_currency", JStr native_currency); ("explorer", JStr explorer)].

Definition _get_supported_chains (args : Dict) : M tool_value :=
  let chains :=
    [ chain_entry "ethereum" "Ethereum" "ETH" "https://etherscan.io";
      chain_entry "bsc" "BNB Smart Chain" "BNB" "https://bscscan.com";
      chain_entry "polygon" "Polygon" "MATIC" "https://polygonscan.com";
      chain_entry "avalanche" "Avalanche" "AVAX" "https://snowtrace.io";
      chain_entry "arbitrum" "Arbitrum One" "ETH" "https://arbiscan.io";
      chain_entry "optimism" "Optimism" "ETH" "https://optimistic.etherscan.io";
      chain_entry "base" "Base" "ETH" "https://basescan.org";
      chain_entry "fantom" "Fantom" "FTM" "https://ftmscan.com" ] in
  ret (literal_dict [("supported_chains", JList chains)]).

Definition _get_rate_limit_info (args : Dict) : M tool_value :=
  rate_limit <- get_rate_limit_info ;;
  ret (RateLimitInfo_dict rate_limit).

(** The names [list_tools] announces, in order *)
Definition tool_names : list string :=
  [ "get_token_info"; "get_pair_info"; "search_tokens"; "get_trending_pairs";
    "get_multiple_pairs"; "get_supported_chains"; "get_rate_limit_info" ].

(** The routing of [call_tool]: the [if]/[elif] chain on the tool name *)
Definition route `{Externals} (tool_name : string) (arguments : Dict) : M tool_value :=
  if String.eqb tool_name "get_token_info" then _get_token_info arguments
  else if String.eqb tool_name "get_pair_info" then _get_pair_info arguments
  else if String.eqb tool_name "search_tokens" then _search_tokens arguments
  else if String.eqb tool_name "get_trending_pairs" then _get_trending_pairs arguments
  else if String.eqb tool_name "get_multiple_pairs" then _get_multiple_pairs arguments
  else if String.eqb tool_name "get_supported_chains" then _get_supported_chains arguments
  else if String.eqb tool_name "get_rate_limit_info" then _get_rate_limit_info arguments
  else raise (ValueError ("Unknown tool: " +:+ tool_name)).

(** [request.params.arguments or {}] *)
Definition arguments_of (request : CallToolRequest) : Dict :=
  match params_arguments request with
  | Some (kv :: rest) => kv :: rest
  | _ => []
  end.

Definition text_result (result : tool_value) : CallToolResult :=
  {| content := [ {| type_ := "text"; text_ := json_dumps result |} ];
     isError := false |}.

Definition error_result (error_msg : string) : CallToolResult :=
  {| content := [ {| type_ := "text"; text_ := message_text error_msg |} ];
     isError := true |}.

(** The [try] statement of [call_tool], run on the client the handler holds *)
Definition call_tool_try `{Externals} (request : CallToolRequest) : M CallToolResult :=
  try_except
    (let tool_name := params_name request in
     let arguments := arguments_of request in
     result <- route tool_name arguments ;;
     ret (text_result result))
    (fun e =>
       match e with
       | DexScreenerAPIError message status_code =>
           let error_msg := "DexScreener API Error: " +:+ message in
           let error_msg :=
             match status_code with
             | Some code =>
                 if code =? 0 then error_msg
                 else error_msg +:+ " (Status: " +:+ pretty code +:+ ")"
             | None => error_msg
             end in
           Some (ret (error_result error_msg))
       | ValidationError msg =>
           Some (ret (error_result ("Validation Error: " +:+ msg)))
       | _ =>
           Some (ret (error_result ("Unexpected Error: " +:+ exn_str e)))
       end).

Record DexScreenerMCPServer : Type := {
  client : option DexScreenerClient }.

(** [if not self.client: self.client = DexScreenerClient()] *)
Definition client_of (server : DexScreenerMCPServer) : DexScreenerClient :=
  match client server with
  | Some c => c
  | None => DexScreenerClient_default
  end.

(** [call_tool]: the client is created on first use, then the [try]
    statement runs. *)
Definition call_tool `{Externals} (request : CallToolRequest) (polls : nat)
    (server : DexScreenerMCPServer) (w : World)
  : outcome CallToolResult * (DexScreenerMCPServer * World) :=
  let '(r, st) :=
    call_tool_try request polls {| self_ := client_of server; world := w |} in
  (r, ({| client := Some (self_ st) |}, world st)).

(** ** Running the model

    The theorems below hold for every [Externals].  To run the model on
    examples, [strict] reads the field declarations of types.py without any
    coercion: a required field must be present, a field that is present must
    have the declared JSON type, [null] stands for an absent optional field,
    and keys that are not declared are ignored. *)

Module strict.

Definition field_required {A} (k : string) : string + A := inl (k +:+ ": field required").
Definition wrong_type {A} (k expected : string) : string + A :=
  inl (k +:+ ": " +:+ expected +:+ " type expected").

Definition and_then {A B} (x : string + A) (k : A -> string + B) : string + B :=
  match x with
  | inr a => k a
  | inl msg => inl msg
  end.

Definition required (k : string) (d : Dict) : string + json :=
  match dict_get k d with
  | Some v => inr v
  | None => field_required k
  end.

Definition optional {A} (k : string) (d : Dict) (read : json -> string + A)
  : string + option A :=
  match dict_get k d with
  | None | Some JNull => inr None
  | Some v => and_then (read v) (fun a => inr (Some a))
  end.

Definition str (k : string) (v : json) : string + string :=
  match v with JStr s => inr s | _ => wrong_type k "str" end.

Definition int (k : string) (v : json) : string + Z :=
  match v with JInt n => inr n | _ => wrong_type k "integer" end.

Definition float (k : string) (v : json) : string + types.float :=
  match v with
  | JFloat r => inr r
  | JInt n => inr (pretty n +:+ ".0")
  | _ => wrong_type k "float"
  end.

Fixpoint each {A B} (read : A -> string + B) (items : list A) : string + list B :=
  match items with
  | [] => inr []
  | x :: rest =>
      and_then (read x) (fun y => and_then (each read rest) (fun ys => inr (y :: ys)))
  end.

Definition mapping {A} (k : string) (read : json -> string + A) (v : json)
  : string + list (string * A) :=
  match v with
  | JDict d => each (fun kv => and_then (read (snd kv)) (fun a => inr (fst kv, a))) d
  | _ => wrong_type k "dict"
  end.

Definition TokenInfo (k : string) (v : json) : string + types.TokenInfo :=
  match v with
  | JDict d =>
      and_then (and_then (required "address" d) (str "address")) (fun address =>
      and_then (and_then (required "name" d) (str "name")) (fun name =>
      and_then (and_then (required "symbol" d) (str "symbol")) (fun symbol =>
      and_then (optional "decimals" d (int "decimals")) (fun decimals =>
      and_then (optional "logoURI" d (str "logoURI")) (fun logo_uri =>
      inr {| types.address := address; types.name := name; types.symbol := symbol;
             types.decimals := decimals; types.logo_uri := logo_uri |})))))
  | _ => wrong_type k "dict"
  end.

Definition PairInfo (d : Dict) : string + types.PairInfo :=
  and_then (and_then (required "chainId" d) (str "chainId")) (fun chain_id =>
  and_then (and_then (required "dexId" d) (str "dexId")) (fun dex_id =>
  and_then (and_then (required "url" d) (str "url")) (fun url =>
  and_then (and_then (required "pairAddress" d) (str "pairAddress")) (fun pair_address =>
  and_then (and_then (required "baseToken" d) (TokenInfo "baseToken")) (fun base_token =>
  and_then (and_then (required "quoteToken" d) (TokenInfo "quoteToken")) (fun quote_token =>
  and_then (optional "priceNative" d (str "priceNative")) (fun price_native =>
  and_then (optional "priceUsd" d (str "priceUsd")) (fun price_usd =>
  and_then (optional "txns" d (mapping "txns" (mapping "txns" (int "txns")))) (fun txns =>
  and_then (optional "volume" d (mapping "volume" (float "volume"))) (fun volume =>
  and_then (optional "priceChange" d (mapping "priceChange" (float "priceChange")))
    (fun price_change =>
  and_then (optional "liquidity" d (mapping "liquidity" (float "liquidity")))
    (fun liquidity =>
  and_then (optional "fdv" d (float "fdv")) (fun fdv =>
  and_then (optional "marketCap" d (float "marketCap")) (fun market_cap =>
  and_then (optional "pairCreatedAt" d (int "pairCreatedAt")) (fun created_ms =>
  inr {| types.chain_id := chain_id; types.dex_id := dex_id; types.url := url;
         types.pair_address := pair_address;
         types.base_token := base_token; types.quote_token := quote_token;
         types.price_native := price_native; types.price_usd := price_usd;
         types.txns := txns; types.volume := volume;
         types.price_change := price_change; types.liquidity := liquidity;
         types.fdv := fdv; types.market_cap := market_cap;
         types.pair_created_at := option_map (fun ms => ms * 1000) created_ms |}
  ))))))))))))))).

Definition pair_item (v : json) : string + types.PairInfo :=
  match v with
  | JDict d => PairInfo d
  | _ => wrong_type "pairs" "dict"
  end.

(** A [pairs] field with [default_factory=list] *)
Definition pairs (d : Dict) : string + list types.PairInfo :=
  match dict_get "pairs" d with
  | None => inr []
  | Some (JList items) => each pair_item items
  | Some _ => wrong_type "pairs" "list"
  end.

Definition repr (v : json) : string :=
  match v with
  | JList [] => "[]"
  | JDict [] => "{}"
  | JList _ => "[...]"
  | _ => "{...}"
  end.

(** What is refused is a [ValidationError]. *)
Definition refused {A} (x : string + A) : construction_error + A :=
  match x with
  | inr a => inr a
  | inl msg => inl (invalid msg)
  end.

Definition externals : Externals :=
  {| container_repr := repr;
     TokenResponse_validate d :=
       refused (and_then (pairs d) (fun l => inr {| types.TokenResponse_pairs := l |}));
     PairResponse_validate d :=
       refused (and_then (optional "pair" d pair_item) (fun p => inr {| types.pair := p |}));
     SearchResult_validate d :=
       refused (and_then (pairs d) (fun l => inr {| types.SearchResult_pairs := l |}));
     TrendingResponse_validate d :=
       refused (and_then (pairs d) (fun l => inr {| types.TrendingResponse_pairs := l |}));
     PairInfo_validate d := refused (PairInfo d) |}.

End strict.

(** A fresh server, a world at time 0, and a few provider answers *)
Definition fresh_server : DexScreenerMCPServer := {| client := None |}.

Definition world_with (answers : list http_outcome) : World :=
  {| clock := 0; provider := answers; sent := [] |}.

Definition no_pairs : Dict := [("schemaVersion", JStr "1.0.0"); ("pairs", JList [])].

(** A 503 answer whose text is not JSON *)
Definition busy : http_outcome :=
  Responded 503 "Service Unavailable" (inl (not_json "Expecting value" 1 1 0)).
(** A 200 answer with a JSON object; the code reads its text only through
    [response.json()]. *)
Definition ok (body : Dict) : http_outcome := Responded 200 EmptyString (inr (JDict body)).
(** A 200 answer whose body is an opening brace and nothing more: the
    decoder fails at the second character. *)
Definition truncated_body : http_outcome :=
  Responded 200 "{"
    (inl (not_json "Expecting property name enclosed in double quotes" 1 2 1)).
(** A 200 answer whose body is the JSON text [null] *)
Definition ok_null : http_outcome := Responded 200 "null" (inr JNull).

Definition tool_call (name : string) (arguments : Dict) : CallToolRequest :=
  {| params_name := name; params_arguments := Some arguments |}.

(** ** Vocabulary of the properties *)

(** The client after [k] was written at [now], and after [k] was evicted *)
Definition store (cache_key : string) (data : json) (now : Z) (c : DexScreenerClient)
  : DexScreenerClient :=
  set_cache_timestamps (<[cache_key := now]> (_cache_timestamps c))
    (set_cache (<[cache_key := data]> (_cache c)) c).

Definition evict (cache_key : string) (c : DexScreenerClient) : DexScreenerClient :=
  set_cache_timestamps (delete cache_key (_cache_timestamps c))
    (set_cache (delete cache_key (_cache c)) c).

(** Sequences of cache operations, with time passing in between *)
Inductive cache_op : Type :=
| put_op (cache_key : string) (data : json)
| get_op (cache_key : string)
| tick_op (dt : Z).

Definition run_op (op : cache_op) : M unit :=
  match op with
  | put_op cache_key data => _cache_data cache_key data
  | get_op cache_key => _get_cached_data cache_key ;; ret tt
  | tick_op dt => sleep dt
  end.

Fixpoint run_ops (ops : list cache_op) : M unit :=
  match ops with
  | [] => ret tt
  | op :: rest => run_op op ;; run_ops rest
  end.

Definition same_keys (c : DexScreenerClient) : Prop :=
  dom (_cache c) = dom (_cache_timestamps c).

(** The window of the throttler has room at [now] *)
Definition has_room (now : Z) (self : Throttler.t) : bool :=
  Z.of_nat (length (Throttler._task_logs (Throttler.flush now self)))
  <? Throttler.rate_limit self.

(** A throttler as the constructor sets it up: a positive budget and a
    positive polling interval *)
Definition throttler_ok (c : DexScreenerClient) : Prop :=
  0 < Throttler.rate_limit (throttler c) /\ 0 < Throttler.retry_interval (throttler c).

Definition server_ok (server : DexScreenerMCPServer) : Prop :=
  throttler_ok (client_of server).

(** [settles m]: from every state with such a throttler, some number of polls
    is enough for [m] to finish, returning or raising, and more polls do not
    change the outcome. *)
Definition settles {A} (m : M A) : Prop :=
  forall st, throttler_ok (self_ st) ->
    exists (n : nat) (r : outcome A) (st' : State),
      r <> Blocked /\ throttler_ok (self_ st')
      /\ forall polls, (n <= polls)%nat -> m polls st = (r, st').

(** A required argument that is missing, or present but falsy *)
Definition missing_or_falsy (key : string) (args : Dict) : Prop :=
  match dict_get key args with
  | Some v => py_truthy v = false
  | None => True
  end.

(** A call that ended in an error-flagged result without any request
    having been issued *)
Definition rejected_without_request
    (r : outcome CallToolResult * (DexScreenerMCPServer * World)) : Prop :=
  (exists result, fst r = Return result /\ isError result = true)
  /\ sent (snd (snd r)) = [].

(** ** Sample states and requests *)

Definition fresh_state (answers : list http_outcome) : State :=
  {| self_ := DexScreenerClient_default; world := world_with answers |}.

(** A client whose budget of one call per minute is used up at time 5 s,
    holding a 5 s old entry for "tokens/0xabc" *)
Definition spent_budget_state : State :=
  {| self_ :=
       {| rate_limit := 1; cache_ttl := 60; timeout := 30; max_retries := 3;
          throttler := Throttler.set_task_logs [0] (Throttler.init 1 60);
          _cache := {[ "tokens/0xabc" := JDict no_pairs ]};
          _cache_timestamps := {[ "tokens/0xabc" := 0 ]} |};
     world := {| clock := 5000000; provider := []; sent := [] |} |}.

(** A fresh client after one fetch of "tokens/0xabc" that the provider
    answered with 200 and the body [null]; the provider's next answer will
    be a 503. *)
Definition null_entry_state : State :=
  snd (@_make_request strict.externals "tokens/0xabc" None 0%nat
         (fresh_state [ok_null; busy])).

(** The same entry seen 60 s after it was written *)
Definition stale_entry_state : State :=
  {| self_ := self_ spent_budget_state;
     world := {| clock := 60000000; provider := []; sent := [] |} |}.

Definition search_limit_101 : CallToolRequest :=
  tool_call "search_tokens" [("query", JStr "usdc"); ("limit", JInt 101)].

Definition thirty_one_pairs : CallToolRequest :=
  tool_call "get_multiple_pairs"
    [("pair_addresses", JList (repeat (JStr "ethereum:0x1") 31))].

Definition empty_pair_list : CallToolRequest :=
  tool_call "get_multiple_pairs" [("pair_addresses", JList [])].

(** ** Further vocabulary *)

(** [_is_cache_valid] as a function of the state *)
Definition cache_valid_at (cache_key : string) (st : State) : bool :=
  match _cache_timestamps (self_ st) !! cache_key with
  | Some cache_time => clock (world st) - cache_time <? cache_ttl (self_ st) * 1000000
  | None => false
  end.

(** The URL [_make_request] builds for an endpoint *)
Definition url_of (endpoint : string) : string :=
  BASE_URL +:+ "/" +:+ lstrip_slash endpoint.

(** The state once the throttler granted a permit at [now'], and once a GET
    was issued and met the provider's next answer *)
Definition permit_taken (t' : Throttler.t) (now' : Z) (st : State) : State :=
  set_clock now' (set_self (set_throttler t' (self_ st)) st).

Definition request_issued (url : string) (params : option Dict) (st : State) : State :=
  {| self_ := self_ st;
     world := {| clock := clock (world st);
                 provider := tail (provider (world st));
                 sent := sent (world st) ++ [(url, params)] |} |}.

(** What [_make_request] makes of the provider's next answer, in a state
    where the permit is taken: the outcome and the state it leaves *)
Definition answered `{Externals} (cache_key url : string) (params : option Dict)
    (st : State) : outcome json * State :=
  let st' := request_issued url params st in
  match provider (world st) with
  | Responded code txt body :: _ =>
      if (200 <=? code) && (code <=? 299) then
        match body with
        | inr data =>
            (Return data, set_self (store cache_key data (clock (world st')) (self_ st')) st')
        | inl err => (Raise (decode_exn err), st')
        end
      else
        (Raise (DexScreenerAPIError ("HTTP " +:+ pretty code +:+ ": " +:+ txt) (Some code)),
         st')
  | Failed msg :: _ =>
      (Raise (DexScreenerAPIError ("Request failed: " +:+ msg) None), st')
  | [] =>
      (Raise (DexScreenerAPIError "Request failed: All connection attempts failed" None),
       st')
  end.

(** [raises_only P m]: whenever [m] raises, the exception satisfies [P]. *)
Definition raises_only {A} (P : exn -> Prop) (m : M A) : Prop :=
  forall polls st e st', m polls st = (Raise e, st') -> P e.

(** [keeps I m]: [m] leaves a client that satisfies [I] satisfying [I],
    however it ends. *)
Definition keeps {A} (I : DexScreenerClient -> Prop) (m : M A) : Prop :=
  forall polls st, I (self_ st) -> I (self_ (snd (m polls st))).

Definition not_ValidationError (e : exn) : Prop :=
  match e with
  | ValidationError _ => False
  | _ => True
  end.

(** What [__init__] fixes for the life of a client *)
Definition configuration (c : DexScreenerClient) : Z * Z * Z * Z * (Z * Z * Z) :=
  (rate_limit c, cache_ttl c, timeout c, max_retries c,
   (Throttler.rate_limit (throttler c), Throttler.period (throttler c),
    Throttler.retry_interval (throttler c))).

(** A client in good order: the cache dicts share their keys and the
    configuration is the default one *)
Definition in_order (c : DexScreenerClient) : Prop :=
  same_keys c /\ configuration c = configuration DexScreenerClient_default.

(** The servers that tool calls lead to from a fresh one, whatever the world
    looks like at each call *)
Inductive reachable `{Externals} : DexScreenerMCPServer -> Prop :=
| reachable_fresh : reachable fresh_server
| reachable_call (request : CallToolRequest) (polls : nat)
    (server : DexScreenerMCPServer) (w : World) :
    reachable server ->
    reachable (fst (snd (call_tool request polls server w))).

(** ** server.py: the catalogue of [list_tools] *)

Record Tool : Type := {
  name : string;
  description : string;
  inputSchema : json }.

Definition string_property (description : string) : json :=
  JDict [("type", JStr "string"); ("description", JStr description)].

Definition object_schema (properties : Dict) (required : list string) : json :=
  JDict [("type", JStr "object"); ("properties", JDict properties);
         ("required", JList (map JStr required))].

Definition list_tools : list Tool :=
  [ {| name := "get_token_info";
       description := "Get comprehensive token information and trading pairs";
       inputSchema :=
         object_schema
           [("token_address", string_property "Token contract address (e.g., 0x...)")]
           ["token_address"] |};
    {| name := "get_pair_info";
       description := "Get detailed trading pair information";
       inputSchema :=
         object_schema
           [("chain_id",
             string_property "Blockchain identifier (e.g., ethereum, bsc, polygon)");
            ("pair_address", string_property "Trading pair contract address")]
           ["chain_id"; "pair_address"] |};
    {| name := "search_tokens";
       description := "Search for tokens and trading pairs by name, symbol, or address";
       inputSchema :=
         object_schema
           [("query", string_property "Search query (token name, symbol, or address)");
            ("limit",
             JDict [("type", JStr "integer");
                    ("description",
                     JStr "Maximum number of results (optional, default: 20)");
                    ("minimum", JInt 1);
                    ("maximum", JInt 100)])]
           ["query"] |};
    {| name := "get_trending_pairs";
       description :=
         "Get trending/popular trading pairs, optionally filtered by blockchain";
       inputSchema :=
         object_schema
           [("chain_id", string_property "Optional blockchain identifier to filter by")]
           [] |};
    {| name := "get_multiple_pairs";
       description := "Get information for multiple trading pairs in a batch request";
       inputSchema :=
         object_schema
           [("pair_addresses",
             JDict [("type", JStr "array");
                    ("items", JDict [("type", JStr "string")]);
                    ("description",
                     JStr "List of pair addresses in format 'chain:address'");
                    ("minItems", JInt 1);
                    ("maxItems", JInt 30)])]
           ["pair_addresses"] |};
    {| name := "get_supported_chains";
       description := "Get list of supported blockchain networks";
       inputSchema := object_schema [] [] |};
    {| name := "get_rate_limit_info";
       description := "Get current API rate limit status and information";
       inputSchema := object_schema [] [] |} ].

(** The keys a schema lists under "required" *)
Definition required_of (tool : Tool) : list string :=
  match inputSchema tool with
  | JDict schema =>
      match dict_get "required" schema with
      | Some (JList items) =>
          flat_map (fun v => match v with JStr s => [s] | _ => [] end) items
      | _ => []
      end
  | _ => []
  end.

(** The text [call_tool] puts in the result for an exception *)
Definition error_text (e : exn) : string :=
  match e with
  | DexScreenerAPIError message status_code =>
      match status_code with
      | Some code =>
          if code =? 0 then "DexScreener API Error: " +:+ message
          else ("DexScreener API Error: " +:+ message)
               +:+ " (Status: " +:+ pretty code +:+ ")"
      | None => "DexScreener API Error: " +:+ message
      end
  | ValidationError msg => "Validation Error: " +:+ msg
  | _ => "Unexpected Error: " +:+ exn_str e
  end.

Definition head_is_U (s : string) : bool :=
  match s with
  | String "U"%char _ => true
  | _ => false
  end.

(** The last character of a string is a closing parenthesis *)
Fixpoint ends_with_paren (s : string) : bool :=
  match s with
  | EmptyString => false
  | String c s' =>
      match s' with
      | EmptyString => Ascii.eqb c ")"
      | _ => ends_with_paren s'
      end
  end.

(** An exception whose report cannot read "Unexpected Error: Unknown tool:"
    followed by a name of the catalogue: it is reported under another
    heading, or its text does not start with "U", or, for the error of the
    JSON decoder, ends with the place of the error in parentheses. *)
Definition never_unknown (e : exn) : Prop :=
  match e with
  | DexScreenerAPIError _ _ | ValidationError _ | JSONDecodeError _ _ _ _ => True
  | _ => head_is_U (exn_str e) = false
  end.

(** The exceptions inside the [try] of [_make_request] *)
Definition inside_fetch (e : exn) : Prop :=
  match e with
  | RequestError _ | HTTPStatusError _ _ => True
  | _ => never_unknown e
  end.

(** Items in the order of their keys *)
Fixpoint sorted_by_key (l : Dict) : Prop :=
  match l with
  | [] => True
  | kv :: rest =>
      Forall (fun kv' => String.leb (fst kv) (fst kv') = true) rest /\ sorted_by_key rest
  end.

(** The client of [spent_budget_state] half a second before its permit
    returns *)
Definition nearly_reset_state : State :=
  {| self_ := self_ spent_budget_state;
     world := {| clock := 59500000; provider := [ok no_pairs]; sent := [] |} |}.

(** The server a fresh one becomes by one call of get_token_info that is
    answered with an empty list of pairs *)
Definition server_after_one_fetch `{Externals} : DexScreenerMCPServer :=
  fst (snd (call_tool (tool_call "get_token_info" [("token_address", JStr "0xabc")])
              0%nat fresh_server (world_with [ok no_pairs]))).
(** * Properties *)

(** ** The response cache *)

Lemma _cache_data_run k v polls st :
  _cache_data k v polls st
  = (Return tt, set_self (store k v (clock (world st)) (self_ st)) st).
Proof. reflexivity. Qed.

Lemma _is_cache_valid_run k polls st :
  _is_cache_valid k polls st
  = (Return match _cache_timestamps (self_ st) !! k with
            | Some cache_time => clock (world st) - cache_time <? cache_ttl (self_ st) * 1000000
            | None => false
            end, st).
Proof.
  unfold _is_cache_valid, bind, get_self.
  destruct (_cache_timestamps (self_ st) !! k); reflexivity.
Qed.

Lemma _get_cached_data_hit k v t polls st :
  _cache (self_ st) !! k = Some v ->
  _cache_timestamps (self_ st) !! k = Some t ->
  clock (world st) - t < cache_ttl (self_ st) * 1000000 ->
  _get_cached_data k polls st = (Return v, st).
Proof.
  intros Hc Ht Hage. unfold _get_cached_data, bind.
  rewrite _is_cache_valid_run, Ht.
  apply Z.ltb_lt in Hage. rewrite Hage. cbn. rewrite Hc. reflexivity.
Qed.

Lemma _get_cached_data_expired k v t polls st :
  _cache (self_ st) !! k = Some v ->
  _cache_timestamps (self_ st) !! k = Some t ->
  cache_ttl (self_ st) * 1000000 <= clock (world st) - t ->
  _get_cached_data k polls st = (Return JNull, set_self (evict k (self_ st)) st).
Proof.
  intros Hc Ht Hage. unfold _get_cached_data, bind.
  rewrite _is_cache_valid_run, Ht.
  apply Z.ltb_ge in Hage. rewrite Hage. cbn. rewrite Hc.
  unfold cache_delitem, cache_timestamps_delitem, bind. cbn. rewrite Hc. cbn. rewrite Ht. reflexivity.
Qed.

Lemma _get_cached_data_unseen k polls st :
  _cache (self_ st) !! k = None ->
  _cache_timestamps (self_ st) !! k = None ->
  _get_cached_data k polls st = (Return JNull, st).
Proof.
  intros Hc Ht. unfold _get_cached_data, bind.
  rewrite _is_cache_valid_run, Ht. cbn. rewrite Hc. reflexivity.
Qed.

Lemma _get_cached_data_raises k polls st e st' :
  _get_cached_data k polls st = (Raise e, st') -> e = KeyError k.
Proof.
  unfold _get_cached_data, bind at 1. rewrite _is_cache_valid_run.
  destruct (match _cache_timestamps (self_ st) !! k with Some _ => _ | None => _ end).
  - unfold bind, get_self, ret, raise.
    destruct (_cache (self_ st) !! k); cbn; [discriminate | congruence].
  - unfold bind at 1 2, get_self.
    destruct (_cache (self_ st) !! k) eqn:Hc; cbn; [|discriminate].
    cbv beta iota delta [bind cache_delitem cache_timestamps_delitem get_self raise ret].
    rewrite Hc. cbn.
    destruct (_cache_timestamps (self_ st) !! k); cbn; [discriminate | congruence].
Qed.

Lemma same_keys_lookup c k :
  same_keys c -> (_cache c !! k = None <-> _cache_timestamps c !! k = None).
Proof.
  unfold same_keys. intros Hd.
  rewrite <- !not_elem_of_dom, Hd. reflexivity.
Qed.

Lemma same_keys_store c k v now : same_keys c -> same_keys (store k v now c).
Proof.
  unfold same_keys, store. cbn. intros Hd. rewrite !dom_insert_L, Hd. reflexivity.
Qed.

Lemma same_keys_evict c k : same_keys c -> same_keys (evict k c).
Proof.
  unfold same_keys, evict. cbn. intros Hd. rewrite !dom_delete_L, Hd. reflexivity.
Qed.

Lemma _get_cached_data_same_keys k polls st :
  same_keys (self_ st) ->
  exists r st', _get_cached_data k polls st = (Return r, st')
                /\ same_keys (self_ st') /\ world st' = world st.
Proof.
  intros Hinv.
  destruct (_cache (self_ st) !! k) as [v|] eqn:Hc.
  - destruct (_cache_timestamps (self_ st) !! k) as [t|] eqn:Ht.
    + destruct (Z_lt_le_dec (clock (world st) - t) (cache_ttl (self_ st) * 1000000)).
      * exists v, st. rewrite (_get_cached_data_hit k v t) by assumption. auto.
      * exists JNull, (set_self (evict k (self_ st)) st).
        rewrite (_get_cached_data_expired k v t) by assumption.
        split; [reflexivity|]. split; [|reflexivity]. cbn. apply same_keys_evict, Hinv.
    + apply (same_keys_lookup _ k) in Hinv. apply Hinv in Ht. congruence.
  - assert (Ht : _cache_timestamps (self_ st) !! k = None)
      by (apply (same_keys_lookup _ k Hinv), Hc).
    exists JNull, st. rewrite _get_cached_data_unseen by assumption. auto.
Qed.

Lemma run_ops_same_keys ops polls st :
  same_keys (self_ st) ->
  exists st', run_ops ops polls st = (Return tt, st') /\ same_keys (self_ st').
Proof.
  revert st. induction ops as [|op rest IH]; intros st Hinv.
  - exists st. split; [reflexivity | assumption].
  - cbn [run_ops]. unfold bind at 1. destruct op as [k v|k|dt]; cbn [run_op].
    + rewrite _cache_data_run. apply IH. cbn. apply same_keys_store, Hinv.
    + unfold bind at 1.
      destruct (_get_cached_data_same_keys k polls st Hinv) as (r & st1 & -> & Hinv1 & _).
      cbn. apply IH, Hinv1.
    + cbn. apply IH. exact Hinv.
Qed.

(** C9. From a client as [__init__] leaves it, any sequence of [_cache_data]
    and [_get_cached_data] calls, with any amount of time passing in between,
    runs without raising and leaves the two cache dicts with the same keys:
    every cached payload has its timestamp and every timestamp its payload. *)
Theorem cache_dicts_share_their_keys
    (rate_limit cache_ttl timeout max_retries : Z) (w : World)
    (ops : list cache_op) (polls : nat) :
  exists st',
    run_ops ops polls
      {| self_ := DexScreenerClient_init rate_limit cache_ttl timeout max_retries;
         world := w |} = (Return tt, st')
    /\ dom (_cache (self_ st')) = dom (_cache_timestamps (self_ st')).
Proof.
  apply run_ops_same_keys. unfold same_keys. cbn. rewrite !dom_empty_L. reflexivity.
Qed.

(** C5. With a positive TTL, [_cache_data k v] followed at once by
    [_get_cached_data k] returns [v], for every payload [v].  For a key whose
    entry is as old as the TTL or older, [_get_cached_data] returns [None]
    and deletes the key from both dicts.  For a key that was never seen it
    returns [None] too, and changes nothing. *)
Theorem cache_round_trip_and_lazy_eviction
    (k : string) (v : json) (t : Z) (polls : nat) (st : State) :
  (0 < cache_ttl (self_ st) ->
   exists st1,
     _cache_data k v polls st = (Return tt, st1)
     /\ _get_cached_data k polls st1 = (Return v, st1))
  /\ (_cache (self_ st) !! k = Some v ->
      _cache_timestamps (self_ st) !! k = Some t ->
      cache_ttl (self_ st) * 1000000 <= clock (world st) - t ->
      exists st',
        _get_cached_data k polls st = (Return JNull, st')
        /\ _cache (self_ st') = delete k (_cache (self_ st))
        /\ _cache_timestamps (self_ st') = delete k (_cache_timestamps (self_ st))
        /\ _cache (self_ st') !! k = None
        /\ _cache_timestamps (self_ st') !! k = None)
  /\ (_cache (self_ st) !! k = None ->
      _cache_timestamps (self_ st) !! k = None ->
      _get_cached_data k polls st = (Return JNull, st)).
Proof.
  split; [|split].
  - intros Httl. eexists. split; [apply _cache_data_run|].
    apply (_get_cached_data_hit k v (clock (world st))); cbn.
    + apply lookup_insert_eq.
    + apply lookup_insert_eq.
    + lia.
  - intros Hc Ht Hage. eexists. split.
    + apply (_get_cached_data_expired k v t); assumption.
    + cbn. rewrite !lookup_delete_eq. auto.
  - apply _get_cached_data_unseen.
Qed.

(** ** The fetcher: cache first, then permit, then one request *)

Section fetcher.
Context `{Externals}.

Lemma try_except_run {A} (body : M A) handler polls st :
  try_except body handler polls st =
  match body polls st with
  | (Raise e, st') => match handler e with Some h => h polls st' | None => (Raise e, st') end
  | r => r
  end.
Proof. reflexivity. Qed.

(** The body of [_make_request] never lets an httpx exception out. *)
Lemma _make_request_wrapped_raises endpoint params polls st e st' :
  _make_request_wrapped endpoint params polls st = (Raise e, st') ->
  tenacity.retry_if_exception_type e = false.
Proof.
  unfold _make_request_wrapped, bind at 1.
  destruct (_get_cached_data _ polls st) as [[cached| e0 |] st0] eqn:Hget.
  - destruct (is_not_None cached).
    + cbn. discriminate.
    + unfold bind at 1, throttler_enter.
      destruct (Throttler.acquire _ _ _) as [[t' now']|]; [|discriminate].
      rewrite try_except_run.
      unfold bind at 1, client_get.
      destruct (provider (world _)) as [|[code txt body|msg] rest]; cbn.
      * intros [= <- _]. reflexivity.
      * unfold bind at 1, raise_for_status. cbn.
        destruct ((200 <=? code) && (code <=? 299)); cbn.
        -- unfold bind at 1, response_json. cbn. destruct body as [err|data]; cbn.
           ++ destruct err; cbn; intros [= <- _]; reflexivity.
           ++ discriminate.
        -- intros [= <- _]. reflexivity.
      * intros [= <- _]. reflexivity.
  - intros [= <- _]. apply _get_cached_data_raises in Hget. subst e0. reflexivity.
  - discriminate.
Qed.

(** So the decorator never retries: the decorated function is its body. *)
Lemma _make_request_is_one_attempt endpoint params polls st :
  _make_request endpoint params polls st = _make_request_wrapped endpoint params polls st.
Proof.
  unfold _make_request, tenacity.retry. cbn [Nat.sub tenacity.attempts].
  destruct (_make_request_wrapped endpoint params polls st) as [[data|e|] st'] eqn:Hrun;
    try reflexivity.
  rewrite (_make_request_wrapped_raises _ _ _ _ _ _ Hrun). reflexivity.
Qed.

(** C4. When the cache holds an unexpired entry under the key of the request
    and its payload is not [None], [_make_request] returns the cached
    payload and the whole state is as it was: the throttler has logged
    nothing (whatever its window holds, and whatever the number of polls
    allowed), no request was issued and the clock has not moved, so no
    backoff took place. *)
Theorem cache_hit_bypasses_rate_limiter
    (endpoint : string) (params : option Dict) (data : json) (cache_time : Z)
    (polls : nat) (st : State) :
  _cache (self_ st) !! _get_cache_key endpoint params = Some data ->
  _cache_timestamps (self_ st) !! _get_cache_key endpoint params = Some cache_time ->
  clock (world st) - cache_time < cache_ttl (self_ st) * 1000000 ->
  data <> JNull ->
  _make_request endpoint params polls st = (Return data, st).
Proof.
  intros Hc Ht Hage Hdata. rewrite _make_request_is_one_attempt.
  unfold _make_request_wrapped, bind at 1.
  rewrite (_get_cached_data_hit _ data cache_time) by assumption.
  destruct data; [congruence | reflexivity..].
Qed.
End fetcher.

(** ** The throttler grants a permit in the end *)

Lemma flush_logs_incl period now logs t :
  In t (Throttler.flush_logs period now logs) -> In t logs.
Proof.
  induction logs as [|t0 rest IH]; cbn; [tauto|].
  destruct (period <? now - t0); cbn; tauto.
Qed.

Lemma flush_logs_all_old period now logs :
  (forall t, In t logs -> t + period < now) ->
  Throttler.flush_logs period now logs = [].
Proof.
  induction logs as [|t0 rest IH]; cbn; intros Hold; [reflexivity|].
  assert (Hlt : (period <? now - t0) = true) by (apply Z.ltb_lt; specialize (Hold t0); lia).
  rewrite Hlt. apply IH. intros t Ht. apply Hold. tauto.
Qed.

Lemma acquire_room polls now self :
  has_room now self = true ->
  Throttler.acquire polls now self
  = Some (Throttler.set_task_logs
            (Throttler._task_logs (Throttler.flush now self) ++ [now])
            (Throttler.flush now self), now).
Proof.
  unfold has_room. intros Hroom. destruct polls; cbn -[Throttler.flush];
    change (Throttler.rate_limit (Throttler.flush now self)) with (Throttler.rate_limit self);
    rewrite Hroom; reflexivity.
Qed.

Lemma acquire_wait polls now self :
  has_room now self = false ->
  Throttler.acquire (S polls) now self
  = Throttler.acquire polls (now + Throttler.retry_interval self) (Throttler.flush now self).
Proof.
  unfold has_room. intros Hroom. cbn -[Throttler.flush].
  change (Throttler.rate_limit (Throttler.flush now self)) with (Throttler.rate_limit self).
  rewrite Hroom. reflexivity.
Qed.

(** A permit is granted once every logged call has left the window, which
    [n] sleeps bring about. *)
Lemma acquire_within (n : nat) : forall now self,
  0 < Throttler.rate_limit self ->
  0 < Throttler.retry_interval self ->
  (forall t, In t (Throttler._task_logs self) ->
     t + Throttler.period self < now + Z.of_nat n * Throttler.retry_interval self) ->
  exists self' now',
    Throttler.rate_limit self' = Throttler.rate_limit self
    /\ Throttler.retry_interval self' = Throttler.retry_interval self
    /\ forall polls, (n <= polls)%nat -> Throttler.acquire polls now self = Some (self', now').
Proof.
  induction n as [|n IH]; intros now self Hrl Hri Hold.
  - assert (Hroom : has_room now self = true).
    { unfold has_room. cbn. rewrite flush_logs_all_old.
      - apply Z.ltb_lt. cbn. lia.
      - intros t Ht. specialize (Hold t Ht). lia. }
    eexists _, _. split; [|split]; [| |intros polls _; apply acquire_room, Hroom];
      reflexivity.
  - destruct (has_room now self) eqn:Hroom.
    + eexists _, _. split; [|split]; [| |intros polls _; apply acquire_room, Hroom];
        reflexivity.
    + destruct (IH (now + Throttler.retry_interval self) (Throttler.flush now self))
        as (self' & now' & Hrl' & Hri' & Hrun).
      * exact Hrl.
      * exact Hri.
      * cbn. intros t Ht. apply flush_logs_incl in Ht. specialize (Hold t Ht). lia.
      * exists self', now'. split; [exact Hrl'|]. split; [exact Hri'|].
        intros polls Hpolls. destruct polls as [|polls]; [lia|].
        rewrite acquire_wait by exact Hroom. apply Hrun. lia.
Qed.

Lemma enough_sleeps (logs : list Z) (period now retry_interval : Z) :
  0 < retry_interval ->
  exists n : nat, forall t, In t logs -> t + period < now + Z.of_nat n * retry_interval.
Proof.
  intros Hri. induction logs as [|t0 rest [n Hn]].
  - exists 0%nat. intros t [].
  - exists (Nat.max n (Z.to_nat (t0 + period - now + 1))).
    intros t [<-|Ht].
    + nia.
    + specialize (Hn t Ht). nia.
Qed.

Lemma acquire_eventually now self :
  0 < Throttler.rate_limit self ->
  0 < Throttler.retry_interval self ->
  exists (n : nat) self' now',
    Throttler.rate_limit self' = Throttler.rate_limit self
    /\ Throttler.retry_interval self' = Throttler.retry_interval self
    /\ forall polls, (n <= polls)%nat -> Throttler.acquire polls now self = Some (self', now').
Proof.
  intros Hrl Hri.
  destruct (enough_sleeps (Throttler._task_logs self) (Throttler.period self) now
              (Throttler.retry_interval self) Hri) as [n Hn].
  exists n. apply acquire_within; assumption.
Qed.

(** ** Coroutines that finish *)

(** A step that does not look at the polls, does not wait and leaves the
    throttler alone *)
Lemma settles_step {A} (m : M A) :
  (forall st, exists r st',
      r <> Blocked /\ throttler (self_ st') = throttler (self_ st)
      /\ forall polls, m polls st = (r, st')) ->
  settles m.
Proof.
  intros Hstep st Hok. destruct (Hstep st) as (r & st' & Hr & Hthr & Hrun).
  exists 0%nat, r, st'. unfold throttler_ok in *. rewrite Hthr. auto.
Qed.

Ltac one_step :=
  eexists _, _; split; [|split]; cycle 2;
  [intros ?; reflexivity | discriminate | reflexivity].

Lemma settles_ret {A} (a : A) : settles (ret a).
Proof. apply settles_step. intros st. one_step. Qed.

Lemma settles_raise {A} (e : exn) : settles (@raise A e).
Proof. apply settles_step. intros st. one_step. Qed.

Lemma settles_get_self : settles get_self.
Proof. apply settles_step. intros st. one_step. Qed.

Lemma settles_datetime_now : settles datetime_now.
Proof. apply settles_step. intros st. one_step. Qed.

Lemma settles_sleep dt : settles (sleep dt).
Proof. apply settles_step. intros st. one_step. Qed.

Lemma settles_cache_setitem k v : settles (cache_setitem k v).
Proof. apply settles_step. intros st. one_step. Qed.

Lemma settles_cache_timestamps_setitem k t : settles (cache_timestamps_setitem k t).
Proof. apply settles_step. intros st. one_step. Qed.

Lemma settles_cache_delitem k : settles (cache_delitem k).
Proof.
  apply settles_step. intros st. unfold cache_delitem.
  destruct (_cache (self_ st) !! k); one_step.
Qed.

Lemma settles_cache_timestamps_delitem k : settles (cache_timestamps_delitem k).
Proof.
  apply settles_step. intros st. unfold cache_timestamps_delitem.
  destruct (_cache_timestamps (self_ st) !! k); one_step.
Qed.

Lemma settles_client_get url params : settles (client_get url params).
Proof.
  apply settles_step. intros st. unfold client_get.
  destruct (provider (world st)) as [|[code txt body|msg] rest];
    one_step.
Qed.

Lemma settles_throttler_enter : settles throttler_enter.
Proof.
  intros st [Hrl Hri].
  destruct (acquire_eventually (clock (world st)) (throttler (self_ st)) Hrl Hri)
    as (n & t' & now' & Hrl' & Hri' & Hrun).
  exists n, (Return tt), (set_clock now' (set_self (set_throttler t' (self_ st)) st)).
  split; [discriminate|]. split.
  - unfold throttler_ok. cbn. rewrite Hrl', Hri'. auto.
  - intros polls Hpolls. unfold throttler_enter. rewrite (Hrun polls Hpolls). reflexivity.
Qed.

Lemma settles_bind {A B} (m : M A) (k : A -> M B) :
  settles m -> (forall a, settles (k a)) -> settles (bind m k).
Proof.
  intros Hm Hk st Hok.
  destruct (Hm st Hok) as (n1 & r1 & st1 & Hr1 & Hok1 & Hrun1).
  destruct r1 as [a|e|]; [| |congruence].
  - destruct (Hk a st1 Hok1) as (n2 & r2 & st2 & Hr2 & Hok2 & Hrun2).
    exists (Nat.max n1 n2), r2, st2. split; [exact Hr2|]. split; [exact Hok2|].
    intros polls Hpolls. unfold bind. rewrite Hrun1 by lia. apply Hrun2. lia.
  - exists n1, (Raise e), st1. split; [discriminate|]. split; [exact Hok1|].
    intros polls Hpolls. unfold bind. rewrite Hrun1 by lia. reflexivity.
Qed.

Lemma settles_try_except {A} (body : M A) (handler : exn -> option (M A)) :
  settles body -> (forall e h, handler e = Some h -> settles h) ->
  settles (try_except body handler).
Proof.
  intros Hbody Hh st Hok.
  destruct (Hbody st Hok) as (n1 & r1 & st1 & Hr1 & Hok1 & Hrun1).
  destruct r1 as [a|e|]; [| |congruence].
  - exists n1, (Return a), st1. split; [discriminate|]. split; [exact Hok1|].
    intros polls Hpolls. unfold try_except. rewrite Hrun1 by lia. reflexivity.
  - destruct (handler e) as [h|] eqn:He.
    + destruct (Hh e h He st1 Hok1) as (n2 & r2 & st2 & Hr2 & Hok2 & Hrun2).
      exists (Nat.max n1 n2), r2, st2. split; [exact Hr2|]. split; [exact Hok2|].
      intros polls Hpolls. unfold try_except. rewrite Hrun1 by lia. rewrite He.
      apply Hrun2. lia.
    + exists n1, (Raise e), st1. split; [discriminate|]. split; [exact Hok1|].
      intros polls Hpolls. unfold try_except. rewrite Hrun1 by lia. rewrite He. reflexivity.
Qed.

Lemma settles_ext {A} (m m' : M A) :
  (forall polls st, m polls st = m' polls st) -> settles m' -> settles m.
Proof.
  intros Heq Hm st Hok. destruct (Hm st Hok) as (n & r & st' & Hr & Hok' & Hrun).
  exists n, r, st'. split; [exact Hr|]. split; [exact Hok'|].
  intros polls Hpolls. rewrite Heq. apply Hrun, Hpolls.
Qed.

Create HintDb settle discriminated.
#[local] Hint Resolve settles_ret settles_raise settles_get_self settles_datetime_now
  settles_sleep settles_cache_setitem settles_cache_timestamps_setitem
  settles_cache_delitem settles_cache_timestamps_delitem settles_client_get
  settles_throttler_enter : settle.

(** Walk through a definition written with [bind], [try_except], [match],
    [if] and [let]. *)
Ltac settle :=
  repeat first
    [ progress (cbv zeta)
    | apply settles_bind; [|intros ?]
    | solve [auto with settle]
    | match goal with
      | |- settles (match ?x with _ => _ end) => destruct x
      | |- settles (if ?b then _ else _) => destruct b
      end ].

Lemma settles__is_cache_valid k : settles (_is_cache_valid k).
Proof. unfold _is_cache_valid. settle. Qed.

Lemma settles__get_cached_data k : settles (_get_cached_data k).
Proof.
  pose proof (settles__is_cache_valid k). unfold _get_cached_data. settle.
Qed.

Lemma settles__cache_data k v : settles (_cache_data k v).
Proof. unfold _cache_data. settle. Qed.

Section liveness.
Context `{Externals}.

(** Handlers of a [try_except], given by cases on the exception *)
Ltac settle_handler :=
  let e := fresh "e" in
  let h := fresh "h" in
  let He := fresh "He" in
  intros e h He; destruct e; cbn in He; inversion He; subst; clear He; settle.

Ltac settle_all :=
  repeat first
    [ progress settle
    | apply settles_try_except; [|settle_handler] ].

Lemma settles_raise_for_status response : settles (raise_for_status response).
Proof. unfold raise_for_status. settle. Qed.

Lemma settles_response_json response : settles (response_json response).
Proof. unfold response_json. settle. Qed.

Lemma settles__make_request_wrapped endpoint params :
  settles (_make_request_wrapped endpoint params).
Proof.
  pose proof settles__get_cached_data. pose proof settles__cache_data.
  pose proof settles_raise_for_status. pose proof settles_response_json.
  unfold _make_request_wrapped. settle_all.
Qed.

Lemma settles__make_request endpoint params : settles (_make_request endpoint params).
Proof.
  eapply settles_ext; [apply _make_request_is_one_attempt|].
  apply settles__make_request_wrapped.
Qed.

Lemma settles_construct {A} (validated : construction_error + A) :
  settles (construct validated).
Proof. unfold construct. settle. Qed.

Lemma settles_construct_from {A} cls (validate : Dict -> construction_error + A) data :
  settles (construct_from cls validate data).
Proof. pose proof @settles_construct. unfold construct_from. settle. Qed.

Lemma settles_py_get v k default : settles (py_get v k default).
Proof. unfold py_get. settle. Qed.

Lemma settles_invalid_response_format {A} e (h : M A) :
  invalid_response_format e = Some h -> settles h.
Proof. destruct e; cbn; intros [= <-]. settle. Qed.

Lemma settles_get_token_info token_address : settles (get_token_info token_address).
Proof.
  unfold get_token_info. apply settles_try_except; [|apply @settles_invalid_response_format].
  pose proof settles__make_request. pose proof @settles_construct_from. settle.
Qed.

Lemma settles_get_pair_info chain_id pair_address :
  settles (get_pair_info chain_id pair_address).
Proof.
  unfold get_pair_info. apply settles_try_except; [|apply @settles_invalid_response_format].
  pose proof settles__make_request. pose proof @settles_construct_from. settle.
Qed.

Lemma settles_search query limit : settles (search query limit).
Proof.
  unfold search. cbv zeta.
  apply settles_try_except; [|apply @settles_invalid_response_format].
  pose proof settles__make_request. pose proof @settles_construct_from. settle.
Qed.

Lemma settles__make_request_endpoint endpoint : settles (_make_request_endpoint endpoint).
Proof.
  pose proof settles__make_request. unfold _make_request_endpoint. settle.
Qed.

Lemma settles_get_trending_pairs chain_id : settles (get_trending_pairs chain_id).
Proof.
  unfold get_trending_pairs. cbv zeta.
  apply settles_try_except; [|apply @settles_invalid_response_format].
  pose proof settles__make_request_endpoint. pose proof @settles_construct_from. settle.
Qed.

Lemma settles_py_join sep v : settles (py_join sep v).
Proof. unfold py_join. settle. Qed.

Lemma settles_PairInfo_of pair : settles (PairInfo_of pair).
Proof. apply settles_construct_from. Qed.

Lemma settles_comprehension {A B} (f : A -> M B) items :
  (forall x, settles (f x)) -> settles (comprehension f items).
Proof.
  intros Hf. induction items as [|x rest IH]; cbn [comprehension]; settle.
Qed.

Lemma settles_get_multiple_pairs pair_addresses :
  settles (get_multiple_pairs pair_addresses).
Proof.
  pose proof settles__make_request. pose proof settles_py_join. pose proof settles_py_get.
  pose proof (fun items => settles_comprehension PairInfo_of items settles_PairInfo_of).
  unfold get_multiple_pairs.
  destruct (negb (py_truthy pair_addresses)); [settle|].
  apply settles_bind; [auto|intros addresses_param].
  apply settles_try_except; [|apply @settles_invalid_response_format]. settle.
Qed.

Lemma settles_get_rate_limit_info : settles get_rate_limit_info.
Proof. unfold get_rate_limit_info. settle. Qed.

Lemma settles_subscript args key : settles (subscript args key).
Proof. unfold subscript. settle. Qed.

Lemma settles_route tool_name arguments : settles (route tool_name arguments).
Proof.
  pose proof settles_subscript. pose proof settles_get_token_info.
  pose proof settles_get_pair_info. pose proof settles_search.
  pose proof settles_get_trending_pairs. pose proof settles_get_multiple_pairs.
  pose proof settles_get_rate_limit_info.
  unfold route, _get_token_info, _get_pair_info, _search_tokens, _get_trending_pairs,
    _get_multiple_pairs, _get_supported_chains, _get_rate_limit_info.
  settle.
Qed.

Lemma settles_call_tool_try request : settles (call_tool_try request).
Proof.
  pose proof settles_route. unfold call_tool_try. settle_all.
Qed.

End liveness.

(** ** The dispatcher *)

Section dispatcher.
Context `{Externals}.

Lemma call_tool_run request polls server w :
  call_tool request polls server w =
  let st := {| self_ := client_of server; world := w |} in
  match route (params_name request) (arguments_of request) polls st with
  | (Return result, st') =>
      (Return (text_result result), ({| client := Some (self_ st') |}, world st'))
  | (Raise e, st') =>
      (Return (error_result
                 match e with
                 | DexScreenerAPIError message status_code =>
                     match status_code with
                     | Some code =>
                         if code =? 0 then "DexScreener API Error: " +:+ message
                         else ("DexScreener API Error: " +:+ message)
                              +:+ " (Status: " +:+ pretty code +:+ ")"
                     | None => "DexScreener API Error: " +:+ message
                     end
                 | ValidationError msg => "Validation Error: " +:+ msg
                 | _ => "Unexpected Error: " +:+ exn_str e
                 end),
       ({| client := Some (self_ st') |}, world st'))
  | (Blocked, st') => (Blocked, ({| client := Some (self_ st') |}, world st'))
  end.
Proof.
  unfold call_tool, call_tool_try. rewrite try_except_run. cbv zeta. unfold bind at 1.
  destruct (route _ _ polls _) as [[result|e|] st']; try reflexivity.
  destruct e; reflexivity.
Qed.

Lemma route_unknown tool_name arguments :
  ~ In tool_name tool_names ->
  route tool_name arguments = raise (ValueError ("Unknown tool: " +:+ tool_name)).
Proof.
  intros Hnot. unfold route.
  repeat match goal with
         | |- context [String.eqb tool_name ?s] =>
             destruct (String.eqb_spec tool_name s) as [->|_];
             [exfalso; apply Hnot; cbn; tauto|]
         end.
  reflexivity.
Qed.

(** C6. Whatever the request, [call_tool] ends in a [CallToolResult] and
    never in an exception: the result carries the serialised value when the
    routed handler returned, and is flagged [isError] when the handler raised
    anything at all; a name outside the catalogue is such a failure
    ("Unknown tool"); and on a server whose throttler has a positive budget
    the call does finish. *)
Theorem call_tool_contains_every_failure
    (request : CallToolRequest) (server : DexScreenerMCPServer) (w : World) :
  (forall polls,
     match fst (route (params_name request) (arguments_of request) polls
                  {| self_ := client_of server; world := w |}) with
     | Return result =>
         fst (call_tool request polls server w) = Return (text_result result)
     | Raise e =>
         exists error_msg,
           fst (call_tool request polls server w) = Return (error_result error_msg)
     | Blocked => fst (call_tool request polls server w) = Blocked
     end)
  /\ (forall polls e, fst (call_tool request polls server w) <> Raise e)
  /\ (~ In (params_name request) tool_names ->
      forall polls,
        fst (call_tool request polls server w)
        = Return (error_result
                    ("Unexpected Error: Unknown tool: " +:+ params_name request)))
  /\ (server_ok server ->
      exists polls result, fst (call_tool request polls server w) = Return result).
Proof.
  assert (Hnever : forall polls e, fst (call_tool request polls server w) <> Raise e).
  { intros polls e. rewrite call_tool_run. cbv zeta.
    destruct (route _ _ polls _) as [[result|e'|] st']; cbn; discriminate. }
  split; [|split; [exact Hnever|split]].
  - intros polls. rewrite call_tool_run. cbv zeta.
    destruct (route _ _ polls _) as [[result|e|] st']; cbn; eauto.
  - intros Hnot polls. rewrite call_tool_run, (route_unknown _ _ Hnot). reflexivity.
  - intros Hok.
    destruct (settles_call_tool_try request {| self_ := client_of server; world := w |} Hok)
      as (n & r & st' & Hr & _ & Hrun).
    exists n. specialize (Hrun n (Nat.le_refl n)). specialize (Hnever n).
    unfold call_tool in *. rewrite Hrun in *. cbn in *.
    destruct r as [result|e|]; [eauto | destruct (Hnever e); reflexivity | congruence].
Qed.

(** C8. [get_supported_chains], whatever arguments come with it, returns its
    table without touching the client or the world: no request is issued,
    the list is not empty and has an entry whose id is "ethereum". *)
Theorem get_supported_chains_is_static
    (arguments : option Dict) (polls : nat) (server : DexScreenerMCPServer) (w : World) :
  exists chains ethereum,
    call_tool {| params_name := "get_supported_chains"; params_arguments := arguments |}
      polls server w
    = (Return (text_result (literal_dict [("supported_chains", JList chains)])),
       ({| client := Some (client_of server) |}, w))
    /\ chains <> []
    /\ In (JDict ethereum) chains
    /\ dict_get "id" ethereum = Some (JStr "ethereum").
Proof.
  eexists _, _. split; [reflexivity|]. split; [discriminate|]. split; [left; reflexivity|].
  reflexivity.
Qed.

(** C3, as the code has it.  The client's [get_multiple_pairs] answers an
    empty list with an empty list and leaves everything as it was, so no
    request is issued; the tool of the same name refuses an empty list:
    the handler raises "pair_addresses is required" before it reaches the
    client, and the result is flagged as an error, again without a request. *)
Theorem empty_pair_list_short_circuits (polls : nat) :
  (forall st, get_multiple_pairs (JList []) polls st = (Return [], st))
  /\ (forall server w,
        call_tool (tool_call "get_multiple_pairs" [("pair_addresses", JList [])])
          polls server w
        = (Return (error_result "Unexpected Error: pair_addresses is required"),
           ({| client := Some (client_of server) |}, w))).
Proof. split; reflexivity. Qed.

Lemma subscript_run args key polls st :
  subscript args key polls st =
  match dict_get key args with
  | Some v => (Return v, st)
  | None => (Raise (KeyError key), st)
  end.
Proof. unfold subscript. destruct (dict_get key args); reflexivity. Qed.

Lemma call_tool_rejects name arguments polls server w e :
  route name arguments polls {| self_ := client_of server; world := w |}
  = (Raise e, {| self_ := client_of server; world := w |}) ->
  exists error_msg,
    call_tool (tool_call name arguments) polls server w
    = (Return (error_result error_msg), ({| client := Some (client_of server) |}, w)).
Proof.
  intros Hroute. rewrite call_tool_run. cbv zeta.
  assert (Hargs : arguments_of (tool_call name arguments) = arguments)
    by (destruct arguments; reflexivity).
  rewrite Hargs. cbn [params_name tool_call]. rewrite Hroute. eauto.
Qed.

(** C2, as the code has it.  Before any request the handlers check that the
    required arguments are there and truthy, and nothing else: a call that
    lacks one, or has it empty, ends in an error-flagged result with the
    client and the world untouched; a truthy [query] goes to the client's
    [search] together with the [limit] as it came, and a truthy
    [pair_addresses] goes to the client's [get_multiple_pairs], whatever
    its length. *)
Theorem handlers_check_presence_only
    (arguments : Dict) (polls : nat) (server : DexScreenerMCPServer) (w : World) :
  (missing_or_falsy "token_address" arguments ->
   exists error_msg,
     call_tool (tool_call "get_token_info" arguments) polls server w
     = (Return (error_result error_msg), ({| client := Some (client_of server) |}, w)))
  /\ (missing_or_falsy "chain_id" arguments \/ missing_or_falsy "pair_address" arguments ->
      exists error_msg,
        call_tool (tool_call "get_pair_info" arguments) polls server w
        = (Return (error_result error_msg), ({| client := Some (client_of server) |}, w)))
  /\ (missing_or_falsy "query" arguments ->
      exists error_msg,
        call_tool (tool_call "search_tokens" arguments) polls server w
        = (Return (error_result error_msg), ({| client := Some (client_of server) |}, w)))
  /\ (missing_or_falsy "pair_addresses" arguments ->
      exists error_msg,
        call_tool (tool_call "get_multiple_pairs" arguments) polls server w
        = (Return (error_result error_msg), ({| client := Some (client_of server) |}, w)))
  /\ (forall query st,
        dict_get "query" arguments = Some query -> py_truthy query = true ->
        _search_tokens arguments polls st
        = (response <- search query (dict_get_default "limit" JNull arguments) ;;
           ret (SearchResult_dict response)) polls st)
  /\ (forall pair_addresses st,
        dict_get "pair_addresses" arguments = Some pair_addresses ->
        py_truthy pair_addresses = true ->
        _get_multiple_pairs arguments polls st
        = (pairs <- get_multiple_pairs pair_addresses ;; ret (pairs_dict pairs)) polls st).
Proof.
  unfold missing_or_falsy.
  split; [|split; [|split; [|split; [|split]]]].
  - intros Hmiss.
    destruct (dict_get "token_address" arguments) as [v|] eqn:Hget;
      eapply call_tool_rejects; cbn [route String.eqb Ascii.eqb Bool.eqb];
      unfold _get_token_info, bind at 1; rewrite subscript_run, Hget; [rewrite Hmiss|];
      reflexivity.
  - intros Hmiss.
    destruct (dict_get "chain_id" arguments) as [v1|] eqn:Hget1;
      [destruct (dict_get "pair_address" arguments) as [v2|] eqn:Hget2|];
      eapply call_tool_rejects; cbn [route String.eqb Ascii.eqb Bool.eqb];
      unfold _get_pair_info, bind at 1; rewrite subscript_run, Hget1;
      try reflexivity;
      unfold bind at 1; rewrite subscript_run, Hget2; try reflexivity.
    assert (Hor : negb (py_truthy v1) || negb (py_truthy v2) = true).
    { destruct Hmiss as [-> | ->]; [reflexivity | apply orb_true_r]. }
    rewrite Hor. reflexivity.
  - intros Hmiss.
    destruct (dict_get "query" arguments) as [v|] eqn:Hget;
      eapply call_tool_rejects; cbn [route String.eqb Ascii.eqb Bool.eqb];
      unfold _search_tokens, bind at 1; rewrite subscript_run, Hget; [rewrite Hmiss|];
      reflexivity.
  - intros Hmiss.
    destruct (dict_get "pair_addresses" arguments) as [v|] eqn:Hget;
      eapply call_tool_rejects; cbn [route String.eqb Ascii.eqb Bool.eqb];
      unfold _get_multiple_pairs, bind at 1; rewrite subscript_run, Hget; [rewrite Hmiss|];
      reflexivity.
  - intros query st Hget Htrue.
    unfold _search_tokens, bind at 1. rewrite subscript_run, Hget, Htrue. reflexivity.
  - intros pair_addresses st Hget Htrue.
    unfold _get_multiple_pairs, bind at 1. rewrite subscript_run, Hget, Htrue. reflexivity.
Qed.

End dispatcher.

(** ** Payloads of the wrong shape, and the fetch that gives up *)

Section decoding.
Context `{Externals}.

Lemma join_items_strings i addresses : join_items i (map JStr addresses) = inr addresses.
Proof.
  revert i. induction addresses as [|a rest IH]; intros i; cbn; [reflexivity|].
  rewrite IH. reflexivity.
Qed.

Lemma py_join_strings sep addresses polls st :
  py_join sep (JList (map JStr addresses)) polls st
  = (Return (String.concat sep addresses), st).
Proof. unfold py_join. cbn. rewrite join_items_strings. reflexivity. Qed.

Lemma nonempty_list_truthy (addresses : list string) :
  addresses <> [] -> negb (py_truthy (JList (map JStr addresses))) = false.
Proof. destruct addresses; [congruence | reflexivity]. Qed.

(** C10. For a non-empty list of addresses, when the fetch yields a JSON
    object without a "pairs" key, [get_multiple_pairs] returns the empty
    list. *)
Theorem missing_pairs_key_means_no_pairs
    (addresses : list string) (data : Dict) (polls : nat) (st st' : State) :
  addresses <> [] ->
  _make_request ("pairs/" +:+ String.concat "," addresses) None polls st
  = (Return (JDict data), st') ->
  dict_get "pairs" data = None ->
  get_multiple_pairs (JList (map JStr addresses)) polls st = (Return [], st').
Proof.
  intros Hne Hfetch Hkey. unfold get_multiple_pairs.
  rewrite (nonempty_list_truthy _ Hne). unfold bind at 1. rewrite py_join_strings. rewrite try_except_run.
  unfold bind at 1. rewrite Hfetch. unfold bind at 1, py_get, ret, dict_get_default.
  rewrite Hkey. reflexivity.
Qed.

(** What the operations do with a payload pydantic rejects *)
Lemma get_token_info_invalid token_address data msg polls st st' :
  _make_request ("tokens/" +:+ py_str token_address) None polls st
  = (Return (JDict data), st') ->
  TokenResponse_validate data = inl (invalid msg) ->
  get_token_info token_address polls st
  = (Raise (DexScreenerAPIError ("Invalid response format: " +:+ msg) None), st').
Proof.
  intros Hfetch Hbad. unfold get_token_info. rewrite try_except_run.
  unfold bind at 1. rewrite Hfetch. cbn [construct_from]. rewrite Hbad. reflexivity.
Qed.

Lemma get_multiple_pairs_invalid addresses data pair rest msg polls st st' :
  addresses <> [] ->
  _make_request ("pairs/" +:+ String.concat "," addresses) None polls st
  = (Return (JDict data), st') ->
  dict_get "pairs" data = Some (JList (JDict pair :: rest)) ->
  PairInfo_validate pair = inl (invalid msg) ->
  get_multiple_pairs (JList (map JStr addresses)) polls st
  = (Raise (DexScreenerAPIError ("Invalid response format: " +:+ msg) None), st').
Proof.
  intros Hne Hfetch Hkey Hbad. unfold get_multiple_pairs.
  rewrite (nonempty_list_truthy _ Hne). unfold bind at 1. rewrite py_join_strings. rewrite try_except_run.
  unfold bind at 1. rewrite Hfetch. unfold bind at 1, py_get, ret, dict_get_default.
  rewrite Hkey.
  cbn [py_iter comprehension]. unfold bind at 1, PairInfo_of. cbn [construct_from].
  rewrite Hbad. reflexivity.
Qed.

(** C1, at the failing input.  The provider answers 503 twice and would then
    answer 200.  [_make_request] issues one request, raises
    [DexScreenerAPIError] for the first 503 and neither waits nor calls
    again: the two later answers are still to come.  It is so on every
    input: the decorated function does what its body does once. *)
Theorem make_request_stops_at_the_first_failure :
  (exists st',
     _make_request "tokens/0xabc" None 0%nat (fresh_state [busy; busy; ok no_pairs])
     = (Raise (DexScreenerAPIError "HTTP 503: Service Unavailable" (Some 503)), st')
     /\ sent (world st') = [("https://api.dexscreener.com/latest/dex/tokens/0xabc", None)]
     /\ provider (world st') = [busy; ok no_pairs]
     /\ clock (world st') = clock (world (fresh_state [busy; busy; ok no_pairs])))
  /\ (forall endpoint params polls st,
        _make_request endpoint params polls st
        = _make_request_wrapped endpoint params polls st).
Proof.
  split; [|apply _make_request_is_one_attempt].
  eexists. split; [vm_compute; reflexivity|]. repeat split.
Qed.

(** C7, at the failing input.  The provider answers with "pairs": null, or
    with a string where a pair object belongs.  [get_multiple_pairs] lets
    the [TypeError] of the iteration out instead of raising the error it
    has for payloads of the wrong shape, and the tool reports an unexpected
    error. *)
Theorem wrong_typed_pairs_escape_as_TypeError :
  (exists st',
     get_multiple_pairs (JList [JStr "ethereum:0x1"]) 0%nat (fresh_state [ok [("pairs", JNull)]])
     = (Raise (TypeError "'NoneType' object is not iterable"), st'))
  /\ (exists msg st',
        get_multiple_pairs (JList [JStr "ethereum:0x1"]) 0%nat
          (fresh_state [ok [("pairs", JList [JStr "ethereum:0x1"])]])
        = (Raise (TypeError msg), st'))
  /\ fst (call_tool (tool_call "get_multiple_pairs"
                       [("pair_addresses", JList [JStr "ethereum:0x1"])])
            0%nat fresh_server (world_with [ok [("pairs", JNull)]]))
     = Return (error_result "Unexpected Error: 'NoneType' object is not iterable").
Proof.
  split; [|split].
  - eexists. vm_compute. reflexivity.
  - eexists _, _. vm_compute. reflexivity.
  - vm_compute. reflexivity.
Qed.

End decoding.

(** ** Instances and counterexamples *)

(** C4 at a client with no permit left *)
Lemma cache_hit_with_the_budget_spent :
  Throttler.available (clock (world spent_budget_state))
    (throttler (self_ spent_budget_state)) = 0
  /\ @_make_request strict.externals "tokens/0xabc" None 0%nat spent_budget_state
     = (Return (JDict no_pairs), spent_budget_state).
Proof.
  split; [reflexivity|].
  apply (@cache_hit_bypasses_rate_limiter strict.externals "tokens/0xabc" None
           (JDict no_pairs) 0);
    [reflexivity | reflexivity | cbn; lia | discriminate].
Defined.

(** C4, counterexample: the provider answered 200 with the body [null], so
    the cache holds an unexpired entry whose payload is [None].  The next
    call for the same key does not stop at the cache: it takes a second
    permit and issues a second request. *)
Lemma cached_null_is_fetched_again :
  _cache (self_ null_entry_state) !! @_get_cache_key strict.externals "tokens/0xabc" None
  = Some JNull
  /\ cache_valid_at (@_get_cache_key strict.externals "tokens/0xabc" None) null_entry_state
     = true
  /\ (forall polls,
        @_make_request strict.externals "tokens/0xabc" None polls null_entry_state
        <> (Return JNull, null_entry_state))
  /\ Throttler._task_logs (throttler (self_ null_entry_state)) = [0]
  /\ Throttler._task_logs
       (throttler (self_ (snd (@_make_request strict.externals "tokens/0xabc" None 0%nat
                                 null_entry_state)))) = [0; 0]
  /\ sent (world null_entry_state)
     = [("https://api.dexscreener.com/latest/dex/tokens/0xabc", None)]
  /\ sent (world (snd (@_make_request strict.externals "tokens/0xabc" None 0%nat
                         null_entry_state)))
     = [("https://api.dexscreener.com/latest/dex/tokens/0xabc", None);
        ("https://api.dexscreener.com/latest/dex/tokens/0xabc", None)].
Proof.
  split; [vm_compute; reflexivity|]. split; [vm_compute; reflexivity|]. split.
  - intros polls Hrun. apply (f_equal (fun r => length (sent (world (snd r))))) in Hrun.
    destruct polls; vm_compute in Hrun; discriminate.
  - repeat split; vm_compute; reflexivity.
Qed.

(** C5 on the key of the repository's cache test, and on a stale entry *)
Lemma cache_round_trip_on_a_test_key :
  (exists st1,
     _cache_data "test_key" (JDict [("test", JStr "data")]) 0%nat (fresh_state [])
     = (Return tt, st1)
     /\ _get_cached_data "test_key" 0%nat st1
        = (Return (JDict [("test", JStr "data")]), st1))
  /\ (exists st',
        _get_cached_data "tokens/0xabc" 0%nat stale_entry_state = (Return JNull, st')
        /\ _cache (self_ st') !! "tokens/0xabc" = None
        /\ _cache_timestamps (self_ st') !! "tokens/0xabc" = None)
  /\ _get_cached_data "test_key" 0%nat (fresh_state []) = (Return JNull, fresh_state []).
Proof.
  split; [|split].
  - destruct (cache_round_trip_and_lazy_eviction "test_key" (JDict [("test", JStr "data")])
                0 0 (fresh_state [])) as (Hput & _ & _).
    apply Hput. cbn. lia.
  - destruct (cache_round_trip_and_lazy_eviction "tokens/0xabc" (JDict no_pairs) 0 0
                stale_entry_state) as (_ & Hexpired & _).
    destruct Hexpired as (st' & Hrun & _ & _ & Hc & Ht);
      [reflexivity | reflexivity | cbn; lia |].
    exists st'. auto.
  - destruct (cache_round_trip_and_lazy_eviction "test_key" JNull 0 0 (fresh_state []))
      as (_ & _ & Hunseen).
    apply Hunseen; reflexivity.
Defined.

(** C6 for a name outside the catalogue, on a fresh server *)
Lemma unknown_tool_is_an_error_result :
  fst (@call_tool strict.externals (tool_call "get_price_history" []) 0%nat fresh_server
         (world_with []))
  = Return (error_result "Unexpected Error: Unknown tool: get_price_history")
  /\ exists polls result,
       fst (@call_tool strict.externals (tool_call "get_price_history" []) polls
              fresh_server (world_with [])) = Return result.
Proof.
  destruct (@call_tool_contains_every_failure strict.externals
              (tool_call "get_price_history" []) fresh_server (world_with []))
    as (_ & _ & Hunknown & Hfinishes).
  split.
  - apply Hunknown. cbn. intuition discriminate.
  - apply Hfinishes. unfold server_ok, throttler_ok. cbn. lia.
Defined.

(** C2, as the code has it: calls that lack a required argument or have it
    empty, then a limit of 101 and a list of 31 addresses *)
Lemma presence_checks_at_sample_calls :
  (exists error_msg,
     @call_tool strict.externals (tool_call "get_token_info" []) 0%nat fresh_server
       (world_with [ok no_pairs])
     = (Return (error_result error_msg),
        ({| client := Some DexScreenerClient_default |}, world_with [ok no_pairs])))
  /\ (exists error_msg,
        @call_tool strict.externals
          (tool_call "get_pair_info"
             [("chain_id", JStr "ethereum"); ("pair_address", JStr EmptyString)])
          0%nat fresh_server (world_with [ok no_pairs])
        = (Return (error_result error_msg),
           ({| client := Some DexScreenerClient_default |}, world_with [ok no_pairs])))
  /\ (exists error_msg,
        @call_tool strict.externals
          (tool_call "search_tokens" [("query", JStr EmptyString); ("limit", JInt 101)])
          0%nat fresh_server (world_with [ok no_pairs])
        = (Return (error_result error_msg),
           ({| client := Some DexScreenerClient_default |}, world_with [ok no_pairs])))
  /\ (exists error_msg,
        @call_tool strict.externals
          (tool_call "get_multiple_pairs" [("pair_addresses", JList [])])
          0%nat fresh_server (world_with [ok no_pairs])
        = (Return (error_result error_msg),
           ({| client := Some DexScreenerClient_default |}, world_with [ok no_pairs])))
  /\ @_search_tokens strict.externals [("query", JStr "usdc"); ("limit", JInt 101)] 0%nat
       (fresh_state [ok no_pairs])
     = (response <- @search strict.externals (JStr "usdc") (JInt 101) ;;
        ret (SearchResult_dict response)) 0%nat (fresh_state [ok no_pairs])
  /\ @_get_multiple_pairs strict.externals
       [("pair_addresses", JList (repeat (JStr "ethereum:0x1") 31))] 0%nat
       (fresh_state [ok no_pairs])
     = (pairs <- @get_multiple_pairs strict.externals
                   (JList (repeat (JStr "ethereum:0x1") 31)) ;;
        ret (pairs_dict pairs)) 0%nat (fresh_state [ok no_pairs]).
Proof.
  split; [|split; [|split; [|split; [|split]]]].
  - destruct (@handlers_check_presence_only strict.externals [] 0 fresh_server
                (world_with [ok no_pairs])) as (Htoken & _).
    apply Htoken. exact I.
  - destruct (@handlers_check_presence_only strict.externals
                [("chain_id", JStr "ethereum"); ("pair_address", JStr EmptyString)]
                0 fresh_server (world_with [ok no_pairs])) as (_ & Hpair & _).
    apply Hpair. right. reflexivity.
  - destruct (@handlers_check_presence_only strict.externals
                [("query", JStr EmptyString); ("limit", JInt 101)] 0 fresh_server
                (world_with [ok no_pairs])) as (_ & _ & Hquery & _).
    apply Hquery. reflexivity.
  - destruct (@handlers_check_presence_only strict.externals
                [("pair_addresses", JList [])] 0 fresh_server
                (world_with [ok no_pairs])) as (_ & _ & _ & Hlist & _).
    apply Hlist. reflexivity.
  - destruct (@handlers_check_presence_only strict.externals
                [("query", JStr "usdc"); ("limit", JInt 101)] 0 fresh_server
                (world_with [ok no_pairs])) as (_ & _ & _ & _ & Hlimit & _).
    apply (Hlimit (JStr "usdc")); reflexivity.
  - destruct (@handlers_check_presence_only strict.externals
                [("pair_addresses", JList (repeat (JStr "ethereum:0x1") 31))] 0
                fresh_server (world_with [ok no_pairs])) as (_ & _ & _ & _ & _ & Hlength).
    apply (Hlength (JList (repeat (JStr "ethereum:0x1") 31))); reflexivity.
Defined.

(** C10 at two addresses and a payload that only has a schema version *)
Lemma two_addresses_and_no_pairs_key :
  exists st',
    @get_multiple_pairs strict.externals (JList [JStr "ethereum:0x1"; JStr "bsc:0x2"]) 0%nat
      (fresh_state [ok [("schemaVersion", JStr "1.0.0")]])
    = (Return [], st').
Proof.
  eexists.
  apply (@missing_pairs_key_means_no_pairs strict.externals ["ethereum:0x1"; "bsc:0x2"]
           [("schemaVersion", JStr "1.0.0")]).
  - discriminate.
  - vm_compute. reflexivity.
  - reflexivity.
Defined.

(** C2, counterexample: with [limit] 101, and with 31 addresses, the call is
    not rejected; it issues a request, with the limit among its params, and
    returns the provider's data. *)
Lemma out_of_bounds_calls_reach_the_provider :
  (~ rejected_without_request
       (@call_tool strict.externals search_limit_101 0%nat fresh_server
          (world_with [ok no_pairs]))
   /\ fst (@call_tool strict.externals search_limit_101 0%nat fresh_server
             (world_with [ok no_pairs]))
      = Return (text_result (SearchResult_dict {| types.SearchResult_pairs := [] |}))
   /\ sent (snd (snd (@call_tool strict.externals search_limit_101 0%nat fresh_server
                        (world_with [ok no_pairs]))))
      = [("https://api.dexscreener.com/latest/dex/search",
          Some [("q", JStr "usdc"); ("limit", JStr "101")])])
  /\ (~ rejected_without_request
          (@call_tool strict.externals thirty_one_pairs 0%nat fresh_server
             (world_with [ok no_pairs]))
      /\ fst (@call_tool strict.externals thirty_one_pairs 0%nat fresh_server
                (world_with [ok no_pairs]))
         = Return (text_result (pairs_dict []))
      /\ length (sent (snd (snd (@call_tool strict.externals thirty_one_pairs 0%nat
                                   fresh_server (world_with [ok no_pairs])))))
         = 1%nat).
Proof.
  split; (split; [intros [_ Hsent]; vm_compute in Hsent; discriminate|]);
    split; vm_compute; reflexivity.
Qed.

(** C3, counterexample: the tool call with an empty list does not return an
    empty result; its result is flagged as an error. *)
Lemma empty_pair_list_is_refused_by_the_tool :
  ~ exists result,
      fst (@call_tool strict.externals empty_pair_list 0%nat fresh_server (world_with []))
      = Return result
      /\ isError result = false.
Proof.
  intros (result & Hrun & Hflag). vm_compute in Hrun. injection Hrun as <-. discriminate.
Qed.

(** * Further properties *)

(** ** The cache, key by key *)

Lemma _get_cached_data_run k polls st :
  _get_cached_data k polls st =
  if cache_valid_at k st then
    match _cache (self_ st) !! k with
    | Some data => (Return data, st)
    | None => (Raise (KeyError k), st)
    end
  else
    match _cache (self_ st) !! k with
    | Some _ =>
        match _cache_timestamps (self_ st) !! k with
        | Some _ => (Return JNull, set_self (evict k (self_ st)) st)
        | None =>
            (Raise (KeyError k),
             set_self (set_cache (delete k (_cache (self_ st))) (self_ st)) st)
        end
    | None => (Return JNull, st)
    end.
Proof.
  unfold _get_cached_data, bind at 1. rewrite _is_cache_valid_run.
  fold (cache_valid_at k st). destruct (cache_valid_at k st).
  - unfold bind, get_self. destruct (_cache (self_ st) !! k); reflexivity.
  - unfold bind at 1 2, get_self.
    destruct (_cache (self_ st) !! k) eqn:Hc; [|reflexivity].
    cbv beta iota delta [bind cache_delitem cache_timestamps_delitem get_self raise ret].
    rewrite Hc. cbn.
    destruct (_cache_timestamps (self_ st) !! k); reflexivity.
Qed.

(** X1. A cache operation on one key leaves every other key alone, in both
    dicts: writing [k], and looking [k] up (which may evict it), do not change
    what the dicts hold under [k']. *)
Theorem cache_operations_leave_other_keys
    (k k' : string) (v : json) (polls : nat) (st : State) :
  k <> k' ->
  (_cache (self_ (snd (_cache_data k v polls st))) !! k' = _cache (self_ st) !! k'
   /\ _cache_timestamps (self_ (snd (_cache_data k v polls st))) !! k'
      = _cache_timestamps (self_ st) !! k')
  /\ (_cache (self_ (snd (_get_cached_data k polls st))) !! k' = _cache (self_ st) !! k'
      /\ _cache_timestamps (self_ (snd (_get_cached_data k polls st))) !! k'
         = _cache_timestamps (self_ st) !! k').
Proof.
  intros Hne. split.
  - rewrite _cache_data_run. cbn. rewrite !lookup_insert_ne by exact Hne. auto.
  - rewrite _get_cached_data_run.
    destruct (cache_valid_at k st), (_cache (self_ st) !! k),
      (_cache_timestamps (self_ st) !! k); cbn;
      rewrite ?lookup_delete_ne by exact Hne; auto.
Qed.

(** X2. An entry is served for exactly the TTL: written at some time and
    looked up [dt] microseconds later, it is returned when [dt] is below the
    TTL and is evicted, with [None] returned, from the TTL on.  With a TTL of
    zero or less an entry is never served. *)
Theorem entry_is_served_while_younger_than_ttl
    (k : string) (v : json) (dt : Z) (polls : nat) (st : State) :
  exists st',
    (_cache_data k v ;; sleep dt ;; _get_cached_data k) polls st
    = (Return (if dt <? cache_ttl (self_ st) * 1000000 then v else JNull), st')
    /\ _cache (self_ st') !! k
       = (if dt <? cache_ttl (self_ st) * 1000000 then Some v else None)
    /\ _cache_timestamps (self_ st') !! k
       = (if dt <? cache_ttl (self_ st) * 1000000 then Some (clock (world st)) else None).
Proof.
  unfold bind at 1. rewrite _cache_data_run. unfold bind at 1, sleep.
  rewrite _get_cached_data_run. unfold cache_valid_at. cbn.
  rewrite !lookup_insert_eq.
  replace (clock (world st) + dt - clock (world st)) with dt by lia.
  destruct (dt <? cache_ttl (self_ st) * 1000000); eexists; (split; [reflexivity|]); cbn.
  - rewrite !lookup_insert_eq. auto.
  - rewrite !lookup_delete_eq. auto.
Qed.

(** ** One fetch *)

Section one_fetch.
Context `{Externals}.

(** [_make_request] in closed form: the cache is looked up; when that yields
    [None] a permit is awaited, then one request is issued and its answer
    decides. *)
Lemma _make_request_run endpoint params polls st :
  _make_request endpoint params polls st =
  match _get_cached_data (_get_cache_key endpoint params) polls st with
  | (Return cached_data, st0) =>
      if is_not_None cached_data then (Return cached_data, st0)
      else
        match Throttler.acquire polls (clock (world st0)) (throttler (self_ st0)) with
        | Some (t', now') =>
            answered (_get_cache_key endpoint params) (url_of endpoint) params
              (permit_taken t' now' st0)
        | None => (Blocked, st0)
        end
  | (Raise e, st0) => (Raise e, st0)
  | (Blocked, st0) => (Blocked, st0)
  end.
Proof.
  rewrite _make_request_is_one_attempt. unfold _make_request_wrapped, bind at 1.
  destruct (_get_cached_data _ polls st) as [[cached_data|e|] st0]; try reflexivity.
  destruct (is_not_None cached_data); [reflexivity|].
  unfold bind at 1, throttler_enter.
  destruct (Throttler.acquire _ _ _) as [[t' now']|]; [|reflexivity].
  fold (permit_taken t' now' st0). fold (url_of endpoint).
  rewrite try_except_run. unfold bind at 1, client_get, answered, request_issued.
  destruct (provider (world (permit_taken t' now' st0))) as [|[code txt body|msg] rest];
    try reflexivity.
  unfold bind at 1, raise_for_status. cbn [status_code text json_body].
  destruct ((200 <=? code) && (code <=? 299)); [|reflexivity].
  unfold bind at 1, response_json. cbn [json_body].
  destruct body as [[msg lineno colno pos|encoding what|what]|data]; reflexivity.
Qed.

End one_fetch.

Lemma lookup_miss k polls st :
  same_keys (self_ st) ->
  cache_valid_at k st = false ->
  exists st0,
    _get_cached_data k polls st = (Return JNull, st0)
    /\ world st0 = world st
    /\ throttler (self_ st0) = throttler (self_ st)
    /\ cache_ttl (self_ st0) = cache_ttl (self_ st)
    /\ (self_ st0 = self_ st \/ self_ st0 = evict k (self_ st))
    /\ _cache (self_ st0) !! k = None
    /\ _cache_timestamps (self_ st0) !! k = None
    /\ same_keys (self_ st0).
Proof.
  intros Hinv Hmiss. rewrite _get_cached_data_run, Hmiss.
  destruct (_cache (self_ st) !! k) as [old|] eqn:Hc.
  - destruct (_cache_timestamps (self_ st) !! k) as [t|] eqn:Ht.
    + eexists. split; [reflexivity|]. cbn. rewrite !lookup_delete_eq.
      repeat split; auto. apply same_keys_evict, Hinv.
    + apply (same_keys_lookup _ k Hinv) in Ht. congruence.
  - exists st. pose proof (proj1 (same_keys_lookup _ k Hinv) Hc). repeat split; auto.
Qed.

(** An unexpired entry is handed out as it is, [None] included. *)
Lemma lookup_valid k polls st :
  same_keys (self_ st) ->
  cache_valid_at k st = true ->
  exists data,
    _cache (self_ st) !! k = Some data
    /\ _get_cached_data k polls st = (Return data, st).
Proof.
  intros Hinv Hvalid. rewrite _get_cached_data_run, Hvalid.
  destruct (_cache (self_ st) !! k) as [data|] eqn:Hc; [eauto|].
  unfold cache_valid_at in Hvalid.
  apply (same_keys_lookup _ _ Hinv) in Hc. rewrite Hc in Hvalid. discriminate.
Qed.

Section fetch_outcomes.
Context `{Externals}.

(** What a fetch leaves behind once the permit is taken and the request
    answered *)
Lemma answered_leaves cache_key url params st :
  world (snd (answered cache_key url params st)) = world (request_issued url params st)
  /\ throttler (self_ (snd (answered cache_key url params st))) = throttler (self_ st)
  /\ match fst (answered cache_key url params st) with
     | Return data =>
         self_ (snd (answered cache_key url params st))
         = store cache_key data (clock (world st)) (self_ st)
     | _ => self_ (snd (answered cache_key url params st)) = self_ st
     end.
Proof.
  unfold answered.
  destruct (provider (world st)) as [|[code txt body|msg] rest]; cbn; auto.
  destruct ((200 <=? code) && (code <=? 299)); cbn; auto.
  destruct body; cbn; auto.
Qed.

Lemma answered_not_blocked cache_key url params st :
  fst (answered cache_key url params st) <> Blocked.
Proof.
  unfold answered.
  destruct (provider (world st)) as [|[code txt body|msg] rest]; cbn; try discriminate.
  destruct ((200 <=? code) && (code <=? 299)); cbn; try discriminate.
  destruct body; cbn; discriminate.
Qed.


(** A fetch on a miss with room in the window *)
Lemma _make_request_miss endpoint params polls st :
  same_keys (self_ st) ->
  cache_valid_at (_get_cache_key endpoint params) st = false ->
  has_room (clock (world st)) (throttler (self_ st)) = true ->
  exists st0,
    (self_ st0 = self_ st \/ self_ st0 = evict (_get_cache_key endpoint params) (self_ st))
    /\ world st0 = world st
    /\ _make_request endpoint params polls st
       = answered (_get_cache_key endpoint params) (url_of endpoint) params
           (permit_taken
              (Throttler.set_task_logs
                 (Throttler._task_logs
                    (Throttler.flush (clock (world st)) (throttler (self_ st)))
                  ++ [clock (world st)])
                 (Throttler.flush (clock (world st)) (throttler (self_ st))))
              (clock (world st)) st0).
Proof.
  intros Hinv Hmiss Hroom.
  destruct (lookup_miss _ polls st Hinv Hmiss)
    as (st0 & Hrun & Hw & Hthr & _ & Hself & _ & _ & _).
  exists st0. split; [exact Hself|]. split; [exact Hw|].
  rewrite _make_request_run, Hrun. cbn [is_not_None].
  rewrite Hw, Hthr, acquire_room by exact Hroom. reflexivity.
Qed.

(** X3. A miss costs one permit and one request, whatever comes back: when
    the cache has no valid entry for the request and the window has room,
    [_make_request] finishes without waiting, the throttler has logged this
    one call, one GET for the URL of the endpoint was issued with the params,
    and one answer of the provider is used up, whether the call returned or
    raised. *)
Theorem miss_takes_one_permit_and_one_request
    (endpoint : string) (params : option Dict) (polls : nat) (st : State) :
  same_keys (self_ st) ->
  cache_valid_at (_get_cache_key endpoint params) st = false ->
  has_room (clock (world st)) (throttler (self_ st)) = true ->
  exists r st',
    _make_request endpoint params polls st = (r, st')
    /\ r <> Blocked
    /\ Throttler._task_logs (throttler (self_ st'))
       = (Throttler._task_logs (Throttler.flush (clock (world st)) (throttler (self_ st)))
          ++ [clock (world st)])%list
    /\ sent (world st') = (sent (world st) ++ [(url_of endpoint, params)])%list
    /\ provider (world st') = tail (provider (world st))
    /\ clock (world st') = clock (world st).
Proof.
  intros Hinv Hmiss Hroom.
  destruct (_make_request_miss endpoint params polls st Hinv Hmiss Hroom)
    as (st0 & _ & Hw & Hrun).
  rewrite Hrun.
  match goal with |- context [answered ?k ?u ?p ?s] =>
    pose proof (answered_leaves k u p s) as (Hworld & Hthr & _);
    pose proof (answered_not_blocked k u p s) as Hnb;
    destruct (answered k u p s) as [r st'] end.
  cbn [fst snd] in *. exists r, st'. split; [reflexivity|]. split; [exact Hnb|].
  rewrite Hthr, Hworld. cbn. rewrite Hw. auto.
Qed.

(** X4. A fetch that succeeds is cached.  On a miss (no entry, or a stale
    one) with room in the window and a 2xx answer whose body is JSON,
    [_make_request] returns the decoded body, stores it under the key with
    the current time, and issues the one request; while the TTL is positive
    and the body is not [null], the same call made again in that state is
    answered from the cache: same payload, state unchanged, so no further
    request and no further permit. *)
Theorem successful_fetch_is_cached
    (endpoint : string) (params : option Dict) (code : Z) (txt : string)
    (data : json) (rest : list http_outcome) (polls : nat) (st : State) :
  same_keys (self_ st) ->
  cache_valid_at (_get_cache_key endpoint params) st = false ->
  has_room (clock (world st)) (throttler (self_ st)) = true ->
  provider (world st) = Responded code txt (inr data) :: rest ->
  200 <= code <= 299 ->
  0 < cache_ttl (self_ st) ->
  exists st1,
    _make_request endpoint params polls st = (Return data, st1)
    /\ sent (world st1) = (sent (world st) ++ [(url_of endpoint, params)])%list
    /\ provider (world st1) = rest
    /\ _cache (self_ st1) !! _get_cache_key endpoint params = Some data
    /\ _cache_timestamps (self_ st1) !! _get_cache_key endpoint params
       = Some (clock (world st))
    /\ (data <> JNull ->
        forall polls', _make_request endpoint params polls' st1 = (Return data, st1)).
Proof.
  intros Hinv Hmiss Hroom Hanswer Hcode Httl.
  destruct (_make_request_miss endpoint params polls st Hinv Hmiss Hroom)
    as (st0 & Hself & Hw & Hrun).
  assert (Hok : (200 <=? code) && (code <=? 299) = true)
    by (apply andb_true_iff; split; apply Z.leb_le; lia).
  assert (Httl0 : cache_ttl (self_ st0) = cache_ttl (self_ st))
    by (destruct Hself as [-> | ->]; reflexivity).
  rewrite Hrun. unfold answered. cbn [permit_taken set_clock set_self world provider].
  rewrite Hw, Hanswer, Hok. eexists. split; [reflexivity|]. cbn -[_make_request].
  rewrite Hw, Hanswer, !lookup_insert_eq. repeat split.
  intros Hdata polls'. rewrite _make_request_run, _get_cached_data_run.
  unfold cache_valid_at. cbn. rewrite !lookup_insert_eq.
  replace (clock (world st) - clock (world st) <? cache_ttl (self_ st0) * 1000000)
    with true by (symmetry; apply Z.ltb_lt; lia).
  destruct data; [congruence | reflexivity..].
Qed.

(** X5. A fetch that fails writes nothing.  When [_make_request] raises, the
    two cache dicts are as they were, or have lost the key of the request (a
    stale entry is evicted by the lookup and is not kept as a fallback).
    Nothing is stored under the key afterwards, with one exception: an
    unexpired entry whose payload is [None] does not stop the fetch, and it
    is still there when the fetch has failed. *)
Theorem failed_fetch_writes_nothing
    (endpoint : string) (params : option Dict) (polls : nat) (st st' : State) (e : exn) :
  same_keys (self_ st) ->
  _make_request endpoint params polls st = (Raise e, st') ->
  ((_cache (self_ st') = _cache (self_ st)
    /\ _cache_timestamps (self_ st') = _cache_timestamps (self_ st))
   \/ (_cache (self_ st') = delete (_get_cache_key endpoint params) (_cache (self_ st))
       /\ _cache_timestamps (self_ st')
          = delete (_get_cache_key endpoint params) (_cache_timestamps (self_ st))))
  /\ (cache_valid_at (_get_cache_key endpoint params) st = false ->
      _cache (self_ st') !! _get_cache_key endpoint params = None
      /\ _cache_timestamps (self_ st') !! _get_cache_key endpoint params = None)
  /\ (cache_valid_at (_get_cache_key endpoint params) st = true ->
      _cache (self_ st) !! _get_cache_key endpoint params = Some JNull
      /\ _cache (self_ st') = _cache (self_ st)
      /\ _cache_timestamps (self_ st') = _cache_timestamps (self_ st))
  /\ (forall data,
        _cache (self_ st') !! _get_cache_key endpoint params = Some data -> data = JNull).
Proof.
  intros Hinv. rewrite _make_request_run.
  destruct (cache_valid_at (_get_cache_key endpoint params) st) eqn:Hvalid.
  - destruct (lookup_valid _ polls st Hinv Hvalid) as (cached & Hc & ->).
    destruct cached; cbn [is_not_None]; try discriminate.
    destruct (Throttler.acquire _ _ _) as [[t' now']|]; [|discriminate].
    match goal with |- context [answered ?k ?u ?p ?s] =>
      pose proof (answered_leaves k u p s) as (_ & _ & Hkeep);
      destruct (answered k u p s) as [r st1] end.
    cbn [fst snd] in *. intros [= -> ->]. rewrite Hkeep. cbn.
    split; [auto|]. split; [discriminate|]. split; [auto|].
    intros data. rewrite Hc. congruence.
  - destruct (lookup_miss _ polls st Hinv Hvalid)
      as (st0 & -> & _ & _ & _ & Hself & Hc0 & Ht0 & _).
    cbn [is_not_None].
    destruct (Throttler.acquire _ _ _) as [[t' now']|]; [|discriminate].
    match goal with |- context [answered ?k ?u ?p ?s] =>
      pose proof (answered_leaves k u p s) as (_ & _ & Hkeep);
      destruct (answered k u p s) as [r st1] end.
    cbn [fst snd] in *. intros [= -> ->]. rewrite Hkeep. cbn.
    split; [destruct Hself as [-> | ->]; cbn; auto|].
    split; [auto|]. split; [discriminate|].
    intros data. rewrite Hc0. discriminate.
Qed.


End fetch_outcomes.

(** ** Which exceptions come out, and what a coroutine keeps *)

Lemma raises_only_ret {A} P (a : A) : raises_only P (ret a).
Proof. intros polls st e st'. discriminate. Qed.

Lemma raises_only_raise {A} (P : exn -> Prop) e : P e -> raises_only P (@raise A e).
Proof. intros He polls st e' st' [= <- _]. exact He. Qed.

Lemma raises_only_bind {A B} P (m : M A) (k : A -> M B) :
  raises_only P m -> (forall a, raises_only P (k a)) -> raises_only P (bind m k).
Proof.
  intros Hm Hk polls st e st'. unfold bind.
  destruct (m polls st) as [[a|e0|] st0] eqn:Hrun.
  - apply Hk.
  - intros [= <- _]. eapply Hm, Hrun.
  - discriminate.
Qed.

Lemma raises_only_try_except {A} P Q (body : M A) handler :
  raises_only Q body ->
  (forall e, Q e ->
     match handler e with
     | Some h => raises_only P h
     | None => P e
     end) ->
  raises_only P (try_except body handler).
Proof.
  intros Hbody Hh polls st e st'. rewrite try_except_run.
  destruct (body polls st) as [[a|e0|] st0] eqn:Hrun; try discriminate.
  specialize (Hh e0 (Hbody _ _ _ _ Hrun)).
  destruct (handler e0) as [h|].
  - apply Hh.
  - intros [= <- _]. exact Hh.
Qed.

Lemma raises_only_weaken {A} (P Q : exn -> Prop) (m : M A) :
  (forall e, P e -> Q e) -> raises_only P m -> raises_only Q m.
Proof. intros HPQ Hm polls st e st' Hrun. eapply HPQ, Hm, Hrun. Qed.

Lemma raises_only_ext {A} P (m m' : M A) :
  (forall polls st, m polls st = m' polls st) -> raises_only P m' -> raises_only P m.
Proof. intros Heq Hm polls st e st'. rewrite Heq. apply Hm. Qed.

(** Steps that never raise *)
Lemma raises_only_step {A} P (m : M A) :
  (forall polls st, exists a st', m polls st = (Return a, st')
                               \/ m polls st = (Blocked, st')) ->
  raises_only P m.
Proof.
  intros Hstep polls st e st'. destruct (Hstep polls st) as (a & st0 & [-> | ->]);
    discriminate.
Qed.

Lemma raises_only_get_self P : raises_only P get_self.
Proof. intros polls st e st'. discriminate. Qed.

Lemma raises_only_datetime_now P : raises_only P datetime_now.
Proof. intros polls st e st'. discriminate. Qed.

Lemma raises_only_throttler_enter P : raises_only P throttler_enter.
Proof.
  intros polls st e st'. unfold throttler_enter.
  destruct (Throttler.acquire _ _ _) as [[t' now']|]; discriminate.
Qed.

Lemma raises_only__cache_data P k v : raises_only P (_cache_data k v).
Proof. intros polls st e st'. rewrite _cache_data_run. discriminate. Qed.

Lemma keeps_ret {A} I (a : A) : keeps I (ret a).
Proof. intros polls st HI. exact HI. Qed.

Lemma keeps_raise {A} I e : keeps I (@raise A e).
Proof. intros polls st HI. exact HI. Qed.

Lemma keeps_bind {A B} I (m : M A) (k : A -> M B) :
  keeps I m -> (forall a, keeps I (k a)) -> keeps I (bind m k).
Proof.
  intros Hm Hk polls st HI. specialize (Hm polls st HI). unfold bind.
  destruct (m polls st) as [[a|e|] st0]; cbn in *; auto. apply Hk, Hm.
Qed.

Lemma keeps_try_except {A} I (body : M A) handler :
  keeps I body -> (forall e h, handler e = Some h -> keeps I h) ->
  keeps I (try_except body handler).
Proof.
  intros Hbody Hh polls st HI. specialize (Hbody polls st HI). rewrite try_except_run.
  destruct (body polls st) as [[a|e|] st0]; cbn in *; auto.
  destruct (handler e) as [h|] eqn:He; cbn; auto. eapply Hh; eauto.
Qed.

Lemma keeps_ext {A} I (m m' : M A) :
  (forall polls st, m polls st = m' polls st) -> keeps I m' -> keeps I m.
Proof. intros Heq Hm polls st. rewrite Heq. apply Hm. Qed.

(** Steps that leave the client object as it is *)
Lemma keeps_get_self I : keeps I get_self.
Proof. intros polls st HI. exact HI. Qed.

Lemma keeps_datetime_now I : keeps I datetime_now.
Proof. intros polls st HI. exact HI. Qed.

Lemma keeps_sleep I dt : keeps I (sleep dt).
Proof. intros polls st HI. exact HI. Qed.

Lemma keeps_client_get I url params : keeps I (client_get url params).
Proof.
  intros polls st HI. unfold client_get.
  destruct (provider (world st)) as [|[code txt body|msg] rest]; exact HI.
Qed.

Lemma acquire_configuration polls : forall now self self' now',
  Throttler.acquire polls now self = Some (self', now') ->
  Throttler.rate_limit self' = Throttler.rate_limit self
  /\ Throttler.period self' = Throttler.period self
  /\ Throttler.retry_interval self' = Throttler.retry_interval self.
Proof.
  induction polls as [|polls IH]; intros now self self' now';
    destruct (has_room now self) eqn:Hroom.
  - rewrite acquire_room by exact Hroom. intros [= <- _]. auto.
  - unfold has_room in Hroom. cbn -[Throttler.flush].
    change (Throttler.rate_limit (Throttler.flush now self))
      with (Throttler.rate_limit self). rewrite Hroom. discriminate.
  - rewrite acquire_room by exact Hroom. intros [= <- _]. auto.
  - rewrite acquire_wait by exact Hroom. intros Hrun. apply IH in Hrun. exact Hrun.
Qed.

Lemma keeps_in_order_throttler_enter : keeps in_order throttler_enter.
Proof.
  intros polls st [Hkeys Hconf]. unfold throttler_enter.
  destruct (Throttler.acquire _ _ _) as [[t' now']|] eqn:Hrun; [|split; assumption].
  apply acquire_configuration in Hrun as (Hrl & Hp & Hri).
  split; [exact Hkeys|]. unfold configuration in *. cbn. rewrite Hrl, Hp, Hri. exact Hconf.
Qed.

Lemma keeps_in_order__cache_data k v : keeps in_order (_cache_data k v).
Proof.
  intros polls st [Hkeys Hconf]. rewrite _cache_data_run. cbn.
  split; [apply same_keys_store, Hkeys | exact Hconf].
Qed.

Lemma keeps_in_order__get_cached_data k : keeps in_order (_get_cached_data k).
Proof.
  intros polls st [Hkeys Hconf].
  destruct (_get_cached_data_same_keys k polls st Hkeys) as (r & st' & Hrun & Hkeys' & _).
  rewrite Hrun. cbn. split; [exact Hkeys'|].
  rewrite _get_cached_data_run in Hrun.
  destruct (cache_valid_at k st), (_cache (self_ st) !! k),
    (_cache_timestamps (self_ st) !! k); injection Hrun as _ <-; exact Hconf.
Qed.

Create HintDb raises discriminated.
#[local] Hint Resolve raises_only_get_self raises_only_datetime_now
  raises_only_throttler_enter raises_only__cache_data : raises.

Ltac raises :=
  repeat first
    [ progress (cbv zeta)
    | solve [auto with raises]
    | apply raises_only_bind; [|intros ?]
    | apply raises_only_ret
    | apply raises_only_raise; solve [exact I | reflexivity]
    | match goal with
      | |- raises_only _ (match ?x with _ => _ end) => destruct x
      | |- raises_only _ (if ?b then _ else _) => destruct b
      end ].

Lemma join_items_raises i items e :
  join_items i items = inl e -> exists msg, e = TypeError msg.
Proof.
  revert i. induction items as [|v rest IH]; intros i; cbn; [discriminate|].
  destruct v; try (intros [= <-]; eauto).
  destruct (join_items (S i) rest) eqn:Hrest; [|discriminate].
  intros [= <-]. eapply IH, Hrest.
Qed.

Section no_validation_error.
Context `{Externals}.

(** The clause the operations end with catches every [ValidationError]. *)
Lemma invalid_response_format_catches {A} (body : M A) :
  raises_only not_ValidationError (try_except body invalid_response_format).
Proof.
  apply (raises_only_try_except _ (fun _ => True)).
  - intros polls st e st' _. exact I.
  - intros e _. destruct e; cbn; try exact I. apply raises_only_raise. exact I.
Qed.

Lemma py_join_raises sep v : raises_only not_ValidationError (py_join sep v).
Proof.
  unfold py_join. destruct (py_iter v) as [e|items]; [raises|].
  destruct (join_items 0 items) as [e|ss] eqn:Hjoin; [|raises].
  apply join_items_raises in Hjoin as [msg ->]. raises.
Qed.

Lemma get_multiple_pairs_raises pair_addresses :
  raises_only not_ValidationError (get_multiple_pairs pair_addresses).
Proof.
  unfold get_multiple_pairs. destruct (negb (py_truthy pair_addresses)); [raises|].
  apply raises_only_bind; [apply py_join_raises|intros addresses_param].
  apply invalid_response_format_catches.
Qed.

Lemma route_raises tool_name arguments :
  raises_only not_ValidationError (route tool_name arguments).
Proof.
  pose proof (fun A (body : M A) => invalid_response_format_catches body) as Hcatch.
  pose proof get_multiple_pairs_raises.
  unfold route, _get_token_info, _get_pair_info, _search_tokens, _get_trending_pairs,
    _get_multiple_pairs, _get_supported_chains, _get_rate_limit_info, subscript,
    get_token_info, get_pair_info, search, get_trending_pairs, get_rate_limit_info.
  raises.
Qed.

(** X7. No [ValidationError] leaves the client or a tool handler.  Each of
    the five fetching operations turns the [ValidationError] of pydantic into
    [DexScreenerAPIError], so none of them raises the [ValidationError] their
    docstrings announce, and no handler does: the [except ValidationError]
    clause of [call_tool] is never entered, and no result text starts with
    "Validation Error: ". *)
Theorem no_ValidationError_leaves_the_client
    (polls : nat) (st st' : State) (msg : string) :
  (forall token_address,
     get_token_info token_address polls st <> (Raise (ValidationError msg), st'))
  /\ (forall chain_id pair_address,
        get_pair_info chain_id pair_address polls st <> (Raise (ValidationError msg), st'))
  /\ (forall query limit,
        search query limit polls st <> (Raise (ValidationError msg), st'))
  /\ (forall chain_id,
        get_trending_pairs chain_id polls st <> (Raise (ValidationError msg), st'))
  /\ (forall pair_addresses,
        get_multiple_pairs pair_addresses polls st <> (Raise (ValidationError msg), st'))
  /\ (forall tool_name arguments,
        route tool_name arguments polls st <> (Raise (ValidationError msg), st'))
  /\ (forall request server w,
        fst (call_tool request polls server w)
        <> Return (error_result ("Validation Error: " +:+ msg))).
Proof.
  repeat split; intros.
  - intros Hrun. apply (invalid_response_format_catches _ _ _ _ _ Hrun).
  - intros Hrun. apply (invalid_response_format_catches _ _ _ _ _ Hrun).
  - intros Hrun. apply (invalid_response_format_catches _ _ _ _ _ Hrun).
  - intros Hrun. apply (invalid_response_format_catches _ _ _ _ _ Hrun).
  - intros Hrun. apply (get_multiple_pairs_raises _ _ _ _ _ Hrun).
  - intros Hrun. apply (route_raises _ _ _ _ _ _ Hrun).
  - rewrite call_tool_run. cbv zeta.
    destruct (route _ _ polls _) as [[result|e|] st0] eqn:Hrun; cbn; try discriminate.
    pose proof (route_raises _ _ _ _ _ _ Hrun) as Hnot.
    destruct e as [key|m|m|m|c t|m|m|l|message sc|m ln cn p|enc m|m|m|errno m];
      try discriminate; try contradiction.
    destruct sc as [code|]; [destruct (code =? 0)|]; discriminate.
Qed.

End no_validation_error.

(** ** What tool calls keep *)

Create HintDb keep discriminated.
#[local] Hint Resolve keeps_get_self keeps_datetime_now keeps_sleep keeps_client_get
  keeps_in_order_throttler_enter keeps_in_order__cache_data
  keeps_in_order__get_cached_data : keep.

Ltac keep_handler :=
  let e := fresh "e" in
  let h := fresh "h" in
  let He := fresh "He" in
  intros e h He; destruct e; cbn in He; inversion He; subst; clear He.

Ltac keep :=
  repeat first
    [ progress (cbv zeta)
    | solve [auto with keep]
    | apply keeps_bind; [|intros ?]
    | apply keeps_ret
    | apply keeps_raise
    | apply keeps_try_except; [|keep_handler]
    | match goal with
      | |- keeps _ (match ?x with _ => _ end) => destruct x
      | |- keeps _ (if ?b then _ else _) => destruct b
      end ].

Section tool_calls_keep.
Context `{Externals}.

Lemma keeps_in_order__make_request endpoint params :
  keeps in_order (_make_request endpoint params).
Proof.
  eapply keeps_ext; [apply _make_request_is_one_attempt|].
  unfold _make_request_wrapped, raise_for_status, response_json. keep.
Qed.

Lemma keeps_in_order_comprehension {A B} (f : A -> M B) items :
  (forall x, keeps in_order (f x)) -> keeps in_order (comprehension f items).
Proof.
  intros Hf. induction items as [|x rest IH]; cbn [comprehension]; keep.
Qed.

Lemma keeps_in_order_route tool_name arguments :
  keeps in_order (route tool_name arguments).
Proof.
  pose proof keeps_in_order__make_request.
  assert (Hpairs : forall items, keeps in_order (comprehension PairInfo_of items)).
  { intros items. apply keeps_in_order_comprehension. intros pair.
    unfold PairInfo_of, construct_from, construct. keep. }
  unfold route, _get_token_info, _get_pair_info, _search_tokens, _get_trending_pairs,
    _get_multiple_pairs, _get_supported_chains, _get_rate_limit_info, subscript,
    get_token_info, get_pair_info, search, get_trending_pairs, get_multiple_pairs,
    get_rate_limit_info, _make_request_endpoint, py_join, py_get, construct_from,
    construct.
  keep.
Qed.

Lemma keeps_in_order_call_tool_try request : keeps in_order (call_tool_try request).
Proof.
  pose proof keeps_in_order_route. unfold call_tool_try. keep.
Qed.

Lemma call_tool_never_raises request polls server w e :
  fst (call_tool request polls server w) <> Raise e.
Proof.
  rewrite call_tool_run. cbv zeta.
  destruct (route _ _ polls _) as [[result|e'|] st']; cbn; discriminate.
Qed.

Lemma reachable_in_order server : reachable server -> in_order (client_of server).
Proof.
  intros Hreach. induction Hreach as [|request polls server w _ IH].
  - split; [|reflexivity]. unfold same_keys. cbn. rewrite !dom_empty_L. reflexivity.
  - pose proof (keeps_in_order_call_tool_try request polls
                  {| self_ := client_of server; world := w |} IH) as Hkeep.
    unfold call_tool.
    destruct (call_tool_try request polls _) as [r st']. exact Hkeep.
Qed.

(** X8. Tool calls keep the server in good order.  On every server that
    tool calls lead to from a fresh one, whatever the requests, the worlds
    they meet and their outcomes, the client exists only as the handler
    created it: its cache dicts share their keys and its configuration is
    the default one (300 calls per 60 s, TTL 60 s); hence on such a server
    every further call ends in a result. *)
Theorem reachable_servers_are_in_order (server : DexScreenerMCPServer) :
  reachable server ->
  in_order (client_of server)
  /\ server_ok server
  /\ forall request w,
       exists polls result, fst (call_tool request polls server w) = Return result.
Proof.
  intros Hreach.
  pose proof (reachable_in_order server Hreach) as Horder.
  assert (Hok : server_ok server).
  { destruct Horder as [_ Hconf]. unfold server_ok, throttler_ok.
    injection Hconf as _ _ _ _ Hrl _ Hri. rewrite Hrl, Hri. cbn. lia. }
  split; [exact Horder|]. split; [exact Hok|].
  intros request w.
  destruct (settles_call_tool_try request {| self_ := client_of server; world := w |} Hok)
    as (n & r & st' & Hr & _ & Hrun).
  exists n. specialize (Hrun n (Nat.le_refl n)).
  pose proof (call_tool_never_raises request n server w) as Hnever.
  unfold call_tool in *. rewrite Hrun in *. cbn in *.
  destruct r as [result|e|]; [eauto | destruct (Hnever e); reflexivity | congruence].
Qed.

End tool_calls_keep.

(** ** The budget is respected *)

Lemma flush_logs_later period t1 t2 logs :
  t1 <= t2 ->
  Throttler.flush_logs period t2 (Throttler.flush_logs period t1 logs)
  = Throttler.flush_logs period t2 logs.
Proof.
  intros Hle. induction logs as [|t0 rest IH]; [reflexivity|].
  cbn [Throttler.flush_logs]. destruct (period <? t1 - t0) eqn:Hold1.
  - assert (Hold2 : (period <? t2 - t0) = true)
      by (apply Z.ltb_lt; apply Z.ltb_lt in Hold1; lia).
    rewrite Hold2. exact IH.
  - reflexivity.
Qed.

Lemma flush_later t1 t2 self :
  t1 <= t2 -> Throttler.flush t2 (Throttler.flush t1 self) = Throttler.flush t2 self.
Proof.
  intros Hle. unfold Throttler.flush, Throttler.set_task_logs. cbn.
  rewrite flush_logs_later by exact Hle. reflexivity.
Qed.

(** When a permit is granted, the window had room at that time. *)
Lemma acquire_grant polls : forall now self self' now',
  0 <= Throttler.retry_interval self ->
  Throttler.acquire polls now self = Some (self', now') ->
  now <= now'
  /\ has_room now' self = true
  /\ self' = Throttler.set_task_logs
               (Throttler._task_logs (Throttler.flush now' self) ++ [now'])
               (Throttler.flush now' self).
Proof.
  induction polls as [|polls IH]; intros now self self' now' Hri;
    destruct (has_room now self) eqn:Hroom.
  - rewrite acquire_room by exact Hroom. intros [= <- <-]. split; [lia|]. auto.
  - unfold has_room in Hroom. cbn -[Throttler.flush].
    change (Throttler.rate_limit (Throttler.flush now self))
      with (Throttler.rate_limit self). rewrite Hroom. discriminate.
  - rewrite acquire_room by exact Hroom. intros [= <- <-]. split; [lia|]. auto.
  - rewrite acquire_wait by exact Hroom. intros Hrun.
    apply IH in Hrun as (Hle & Hroom' & Hself'); [|exact Hri].
    assert (Hnow : now <= now') by (cbn in Hle; lia).
    unfold has_room in Hroom'. rewrite flush_later in Hroom', Hself' by exact Hnow.
    split; [exact Hnow|]. split; [exact Hroom'|exact Hself'].
Qed.

Section budget.
Context `{Externals}.

(** X9. The budget holds for every request that goes out.  When
    [_make_request] gets past the throttler on a miss, the throttler's log
    holds at most [rate_limit] calls, this one included; and if the window
    was full when the call came, the request goes out only after the oldest
    call of the window is more than a period old. *)
Theorem request_waits_for_the_budget
    (endpoint : string) (params : option Dict) (polls : nat) (st st' : State)
    (r : outcome json) :
  same_keys (self_ st) ->
  cache_valid_at (_get_cache_key endpoint params) st = false ->
  0 <= Throttler.retry_interval (throttler (self_ st)) ->
  _make_request endpoint params polls st = (r, st') ->
  r <> Blocked ->
  Z.of_nat (length (Throttler._task_logs (throttler (self_ st'))))
  <= Throttler.rate_limit (throttler (self_ st))
  /\ clock (world st) <= clock (world st')
  /\ (has_room (clock (world st)) (throttler (self_ st)) = false ->
      exists oldest rest,
        Throttler._task_logs (Throttler.flush (clock (world st)) (throttler (self_ st)))
        = oldest :: rest
        /\ Throttler.period (throttler (self_ st)) < clock (world st') - oldest).
Proof.
  intros Hinv Hmiss Hri. rewrite _make_request_run.
  destruct (lookup_miss _ polls st Hinv Hmiss) as (st0 & -> & Hw & Hthr & _).
  cbn [is_not_None]. rewrite Hw, Hthr.
  destruct (Throttler.acquire _ _ _) as [[t' now']|] eqn:Hacq;
    [|intros [= <- _] Hnb; congruence].
  apply acquire_grant in Hacq as (Hle & Hroom' & ->); [|exact Hri].
  match goal with |- context [answered ?k ?u ?p ?s] =>
    pose proof (answered_leaves k u p s) as (Hworld & Hthr' & _);
    destruct (answered k u p s) as [r1 st1] end.
  cbn [fst snd] in *. intros [= -> ->] _. rewrite Hworld, Hthr'. cbn.
  unfold has_room in Hroom'. apply Z.ltb_lt in Hroom'. cbn in Hroom'.
  rewrite length_app. cbn. split; [lia|]. split; [exact Hle|].
  unfold has_room. cbn. intros Hfull. apply Z.ltb_ge in Hfull.
  rewrite <- (flush_logs_later _ _ _ _ Hle) in Hroom'.
  destruct (Throttler.flush_logs _ (clock (world st)) _) as [|oldest rest];
    [cbn in *; lia|].
  exists oldest, rest. split; [reflexivity|].
  cbn [Throttler.flush_logs] in Hroom'.
  destruct (Throttler.period (throttler (self_ st)) <? now' - oldest) eqn:Hold.
  - apply Z.ltb_lt in Hold. exact Hold.
  - lia.
Qed.

End budget.

(** ** From the provider's answer to the tool result *)

Section tool_results.
Context `{Externals}.

Lemma answered_raise_passes {A} cache_key url params st e st' :
  answered cache_key url params st = (Raise e, st') ->
  @invalid_response_format A e = None.
Proof.
  unfold answered.
  destruct (provider (world st)) as [|[code txt body|msg] rest];
    try (intros [= <- _]; reflexivity).
  destruct ((200 <=? code) && (code <=? 299)); [|intros [= <- _]; reflexivity].
  destruct body as [err|data]; [|discriminate].
  intros [= <- _]. destruct err; reflexivity.
Qed.

(** Building a model touches neither the client nor the world. *)
Lemma construct_from_stateless {A} cls (validate : Dict -> construction_error + A)
    data polls st :
  snd (construct_from cls validate data polls st) = st
  /\ fst (construct_from cls validate data polls st) <> Blocked.
Proof.
  unfold construct_from, construct.
  destruct data; try (split; [reflexivity | discriminate]).
  destruct (validate fields); split; try reflexivity; discriminate.
Qed.

Lemma invalid_response_format_stateless {A} e polls st :
  snd (match @invalid_response_format A e with
       | Some h => h polls st
       | None => (Raise e, st)
       end) = st
  /\ fst (match @invalid_response_format A e with
          | Some h => h polls st
          | None => (Raise e, st)
          end) <> Blocked.
Proof. destruct e; cbn; split; try reflexivity; discriminate. Qed.

(** An operation that fetches and then builds a model, on a miss with room:
    it ends in the state the fetch leaves, and what the fetch raises it
    raises. *)
Lemma fetch_and_construct_run {A} endpoint params cls
    (validate : Dict -> construction_error + A) polls st :
  same_keys (self_ st) ->
  cache_valid_at (_get_cache_key endpoint params) st = false ->
  has_room (clock (world st)) (throttler (self_ st)) = true ->
  exists st1 r,
    world st1 = world st
    /\ try_except
         (data <- _make_request endpoint params ;; construct_from cls validate data)
         invalid_response_format polls st
       = (r, snd (answered (_get_cache_key endpoint params) (url_of endpoint) params st1))
    /\ r <> Blocked
    /\ forall e,
         fst (answered (_get_cache_key endpoint params) (url_of endpoint) params st1)
         = Raise e ->
         r = Raise e.
Proof.
  intros Hinv Hmiss Hroom. rewrite try_except_run. unfold bind at 1.
  destruct (_make_request_miss endpoint params polls st Hinv Hmiss Hroom)
    as (st0 & _ & Hw & Hrun).
  rewrite Hrun.
  match type of Hrun with _ = answered _ _ _ ?s =>
    assert (Hworld1 : world s = world st)
      by (cbn; rewrite Hw; destruct (world st); reflexivity);
    exists s
  end.
  match goal with |- context [answered ?k ?u ?p ?s] =>
    pose proof (answered_not_blocked k u p s) as Hnb;
    destruct (answered k u p s) as [[data|e|] st2] eqn:Hanswered end;
    cbn [fst snd] in *; [| |congruence].
  - destruct (construct_from_stateless cls validate data polls st2) as [Hstate Hnb'].
    destruct (construct_from cls validate data polls st2) as [[model|e|] st3];
      cbn [fst snd] in *; subst st3; [| |congruence].
    + eexists. split; [exact Hworld1|].
      split; [reflexivity|]. split; [discriminate|]. discriminate.
    + destruct (@invalid_response_format_stateless A e polls st2) as [Hstate Hnb''].
      destruct (match invalid_response_format e with
                | Some h => h polls st2
                | None => (Raise e, st2)
                end) as [r st3]; cbn [fst snd] in *; subst st3.
      exists r. split; [exact Hworld1|].
      split; [reflexivity|]. split; [exact Hnb''|]. discriminate.
  - rewrite (answered_raise_passes _ _ _ _ _ _ Hanswered).
    exists (Raise e). split; [exact Hworld1|].
    split; [reflexivity|]. split; [discriminate|]. intros e' [= <-]. reflexivity.
Qed.

(** [get_token_info] as a tool, on a miss with room, in terms of the answer *)
Lemma get_token_info_tool_miss arguments token_address polls server w :
  dict_get "token_address" arguments = Some token_address ->
  py_truthy token_address = true ->
  same_keys (client_of server) ->
  cache_valid_at ("tokens/" +:+ py_str token_address)
    {| self_ := client_of server; world := w |} = false ->
  has_room (clock w) (throttler (client_of server)) = true ->
  exists st1 r,
    world st1 = w
    /\ route "get_token_info" arguments polls {| self_ := client_of server; world := w |}
       = (r, snd (answered ("tokens/" +:+ py_str token_address)
                    (url_of ("tokens/" +:+ py_str token_address)) None st1))
    /\ forall e,
         fst (answered ("tokens/" +:+ py_str token_address)
                (url_of ("tokens/" +:+ py_str token_address)) None st1) = Raise e ->
         r = Raise e.
Proof.
  intros Hget Htruthy Hinv Hmiss Hroom.
  destruct (fetch_and_construct_run ("tokens/" +:+ py_str token_address) None
              "TokenResponse" TokenResponse_validate polls
              {| self_ := client_of server; world := w |} Hinv Hmiss Hroom)
    as (st1 & r & Hw & Hrun & _ & Hraise).
  change (_get_cache_key ("tokens/" +:+ py_str token_address) None)
    with ("tokens/" +:+ py_str token_address) in Hrun, Hraise.
  fold (get_token_info token_address) in Hrun.
  cbn [route String.eqb Ascii.eqb Bool.eqb]. unfold _get_token_info, bind at 1.
  rewrite subscript_run, Hget, Htruthy. cbn [negb]. unfold bind at 1. rewrite Hrun.
  destruct r as [response|e|].
  - eexists st1, _. split; [exact Hw|]. split; [reflexivity|].
    intros e He. specialize (Hraise e He). discriminate.
  - exists st1, (Raise e). split; [exact Hw|]. split; [reflexivity|].
    intros e' He. specialize (Hraise e' He). congruence.
  - exists st1, Blocked. split; [exact Hw|]. split; [reflexivity|].
    intros e He. specialize (Hraise e He). discriminate.
Qed.

Lemma append_assoc (s1 s2 s3 : string) : (s1 +:+ s2) +:+ s3 = s1 +:+ (s2 +:+ s3).
Proof.
  induction s1 as [|c s1 IH]; [reflexivity|].
  change (String c ((s1 +:+ s2) +:+ s3) = String c (s1 +:+ (s2 +:+ s3))).
  f_equal. exact IH.
Qed.

Lemma call_tool_world request polls server w :
  snd (snd (call_tool request polls server w))
  = world (snd (route (params_name request) (arguments_of request) polls
                  {| self_ := client_of server; world := w |})).
Proof.
  rewrite call_tool_run. cbv zeta. destruct (route _ _ polls _) as [[result|e|] st'];
    reflexivity.
Qed.

(** X10. What the provider did wrong is what the tool reports.  For a
    [get_token_info] call with a truthy address, on a miss with room in the
    window: an answer outside 2xx is reported as "DexScreener API Error:
    HTTP <code>: <text> (Status: <code>)", a transport failure as
    "DexScreener API Error: Request failed: <reason>" without a status, and a
    2xx answer whose body is not JSON as "Unexpected Error: " followed by
    the text of the exception with which [response.json()] failed on that
    body; each result is flagged and each call issued exactly one request,
    to the token's URL. *)
Theorem provider_failures_reach_the_tool_result
    (arguments : Dict) (token_address : json) (polls : nat)
    (server : DexScreenerMCPServer) (w : World) :
  dict_get "token_address" arguments = Some token_address ->
  py_truthy token_address = true ->
  same_keys (client_of server) ->
  cache_valid_at ("tokens/" +:+ py_str token_address)
    {| self_ := client_of server; world := w |} = false ->
  has_room (clock w) (throttler (client_of server)) = true ->
  sent (snd (snd (call_tool (tool_call "get_token_info" arguments) polls server w)))
  = (sent w ++ [("https://api.dexscreener.com/latest/dex/tokens/" +:+ py_str token_address,
                 None)])%list
  /\ (forall code txt body rest,
        provider w = Responded code txt body :: rest ->
        ~ 200 <= code <= 299 -> code <> 0 ->
        fst (call_tool (tool_call "get_token_info" arguments) polls server w)
        = Return (error_result
                    ("DexScreener API Error: HTTP " +:+ pretty code +:+ ": " +:+ txt
                     +:+ " (Status: " +:+ pretty code +:+ ")")))
  /\ (forall msg rest,
        provider w = Failed msg :: rest ->
        fst (call_tool (tool_call "get_token_info" arguments) polls server w)
        = Return (error_result ("DexScreener API Error: Request failed: " +:+ msg)))
  /\ (forall code txt err rest,
        provider w = Responded code txt (inl err) :: rest ->
        200 <= code <= 299 ->
        fst (call_tool (tool_call "get_token_info" arguments) polls server w)
        = Return (error_result ("Unexpected Error: " +:+ exn_str (decode_exn err)))).
Proof.
  intros Hget Htruthy Hinv Hmiss Hroom.
  destruct (get_token_info_tool_miss arguments token_address polls server w
              Hget Htruthy Hinv Hmiss Hroom) as (st1 & r & Hw & Hroute & Hraise).
  assert (Hargs : arguments_of (tool_call "get_token_info" arguments) = arguments)
    by (destruct arguments; reflexivity).
  rewrite call_tool_world, call_tool_run. cbv zeta. rewrite Hargs.
  cbn [params_name tool_call]. rewrite Hroute. clear Hroute.
  pose proof (answered_leaves ("tokens/" +:+ py_str token_address)
                (url_of ("tokens/" +:+ py_str token_address)) None st1)
    as (Hworld & _ & _).
  split; [|split; [|split]].
  - cbn [snd]. rewrite Hworld. cbn. rewrite Hw. reflexivity.
  - intros code txt body rest Hanswer Hcode Hzero.
    assert (Hbad : (200 <=? code) && (code <=? 299) = false).
    { apply andb_false_iff. destruct (Z_le_dec 200 code) as [Hlo|Hlo].
      - right. apply Z.leb_gt. lia.
      - left. apply Z.leb_gt. lia. }
    rewrite (Hraise (DexScreenerAPIError ("HTTP " +:+ pretty code +:+ ": " +:+ txt)
                       (Some code)))
      by (unfold answered; rewrite Hw, Hanswer, Hbad; reflexivity).
    cbn. apply Z.eqb_neq in Hzero. rewrite Hzero.
    rewrite !append_assoc. reflexivity.
  - intros msg rest Hanswer.
    rewrite (Hraise (DexScreenerAPIError ("Request failed: " +:+ msg) None))
      by (unfold answered; rewrite Hw, Hanswer; reflexivity).
    reflexivity.
  - intros code txt err rest Hanswer Hcode.
    assert (Hok : (200 <=? code) && (code <=? 299) = true)
      by (apply andb_true_iff; split; apply Z.leb_le; lia).
    rewrite (Hraise (decode_exn err))
      by (unfold answered; rewrite Hw, Hanswer, Hok; reflexivity).
    destruct err; reflexivity.
Qed.

(** X11. [get_rate_limit_info] reports the configuration, not the usage.
    Whatever the throttler has logged and whatever the arguments, the tool
    answers with the configured [rate_limit] both as the limit and as the
    requests remaining, and with a reset one minute from now; it takes no
    permit and sends nothing.  On a server that tool calls lead to from a
    fresh one, however many permits those calls took, it says 300 of 300. *)
Theorem rate_limit_info_ignores_usage
    (arguments : option Dict) (polls : nat) (server : DexScreenerMCPServer) (w : World) :
  call_tool {| params_name := "get_rate_limit_info"; params_arguments := arguments |}
    polls server w
  = (Return (text_result
               (RateLimitInfo_dict
                  {| types.requests_remaining := rate_limit (client_of server);
                     types.reset_time := clock w + 60 * 1000000;
                     types.limit := rate_limit (client_of server) |})),
     ({| client := Some (client_of server) |}, w))
  /\ (reachable server ->
      fst (call_tool
             {| params_name := "get_rate_limit_info"; params_arguments := arguments |}
             polls server w)
      = Return (text_result
                  (RateLimitInfo_dict
                     {| types.requests_remaining := 300;
                        types.reset_time := clock w + 60 * 1000000;
                        types.limit := 300 |}))).
Proof.
  assert (Hrun :
            call_tool
              {| params_name := "get_rate_limit_info"; params_arguments := arguments |}
              polls server w
            = (Return (text_result
                         (RateLimitInfo_dict
                            {| types.requests_remaining := rate_limit (client_of server);
                               types.reset_time := clock w + 60 * 1000000;
                               types.limit := rate_limit (client_of server) |})),
               ({| client := Some (client_of server) |}, w)))
    by reflexivity.
  split; [exact Hrun|].
  intros Hreach. rewrite Hrun. cbn [fst].
  destruct (reachable_in_order server Hreach) as [_ Hconf].
  injection Hconf as Hlimit _ _ _ _ _ _. rewrite Hlimit. reflexivity.
Qed.

End tool_results.

(** ** One request for many pairs *)

Section batch.
Context `{Externals}.

Lemma comprehension_stateless items polls st :
  exists r, comprehension PairInfo_of items polls st = (r, st) /\ r <> Blocked.
Proof.
  induction items as [|pair rest (r & IH & Hr)];
    [eexists; split; [reflexivity | discriminate]|].
  cbn [comprehension]. unfold bind at 1.
  destruct (construct_from_stateless "PairInfo" PairInfo_validate pair polls st)
    as [Hstate Hnb].
  fold (PairInfo_of pair) in Hstate, Hnb.
  destruct (PairInfo_of pair polls st) as [[p|e|] st1]; cbn [fst snd] in *; subst;
    [|eexists; split; [reflexivity | discriminate] | congruence].
  unfold bind at 1. rewrite IH.
  destruct r as [ps|e|]; [| |congruence]; eexists; (split; [reflexivity | discriminate]).
Qed.

(** Reading the pairs out of a payload touches neither the client nor the
    world. *)
Lemma pairs_of_payload_stateless data polls st :
  exists r,
    (pairs_data <- py_get data "pairs" (JList []) ;;
     match py_iter pairs_data with
     | inr items => comprehension PairInfo_of items
     | inl e => raise e
     end) polls st = (r, st)
    /\ r <> Blocked.
Proof.
  unfold bind at 1, py_get.
  destruct data; try (eexists; split; [reflexivity | discriminate]).
  cbn [ret]. destruct (py_iter _) as [e|items];
    [eexists; split; [reflexivity | discriminate]|].
  apply comprehension_stateless.
Qed.

(** X12. Many pairs, one request.  For a non-empty list of addresses, on a
    miss with room in the window, [get_multiple_pairs] issues exactly one
    GET, whose URL carries all the addresses joined by commas, whatever the
    provider answers and whether decoding succeeds or not. *)
Theorem many_pairs_take_one_request
    (addresses : list string) (polls : nat) (st : State) :
  addresses <> [] ->
  same_keys (self_ st) ->
  cache_valid_at ("pairs/" +:+ String.concat "," addresses) st = false ->
  has_room (clock (world st)) (throttler (self_ st)) = true ->
  exists r st',
    get_multiple_pairs (JList (map JStr addresses)) polls st = (r, st')
    /\ r <> Blocked
    /\ sent (world st')
       = (sent (world st)
          ++ [("https://api.dexscreener.com/latest/dex/pairs/"
               +:+ String.concat "," addresses, None)])%list.
Proof.
  intros Hne Hinv Hmiss Hroom. unfold get_multiple_pairs.
  rewrite (nonempty_list_truthy _ Hne). unfold bind at 1. rewrite py_join_strings.
  rewrite try_except_run. unfold bind at 1.
  destruct (_make_request_miss ("pairs/" +:+ String.concat "," addresses) None polls st
              Hinv Hmiss Hroom) as (st0 & _ & Hw & Hrun).
  rewrite Hrun.
  match goal with |- context [answered ?k ?u ?p ?s] =>
    pose proof (answered_leaves k u p s) as (Hworld & _ & _);
    pose proof (answered_not_blocked k u p s) as Hnb;
    destruct (answered k u p s) as [[data|e|] st1] eqn:Hanswered end;
    cbn [fst snd] in *.
  - destruct (pairs_of_payload_stateless data polls st1) as (r & -> & Hnb').
    destruct r as [ps|e|]; [| |congruence].
    + eexists _, _. split; [reflexivity|]. split; [discriminate|].
      rewrite Hworld. cbn. rewrite Hw. reflexivity.
    + destruct (@invalid_response_format_stateless (list types.PairInfo) e polls st1)
        as [Hstate Hnotblocked].
      destruct (match invalid_response_format e with
                | Some h => h polls st1
                | None => (Raise e, st1)
                end) as [r st2]. cbn in Hstate, Hnotblocked. subst st2.
      exists r, st1. split; [reflexivity|]. split; [exact Hnotblocked|].
      rewrite Hworld. cbn. rewrite Hw. reflexivity.
  - rewrite (answered_raise_passes _ _ _ _ _ _ Hanswered).
    eexists _, _. split; [reflexivity|]. split; [discriminate|].
    rewrite Hworld. cbn. rewrite Hw. reflexivity.
  - congruence.
Qed.

End batch.

(** ** The catalogue and the dispatcher *)

Lemma join_items_never_unknown i items e :
  join_items i items = inl e -> never_unknown e.
Proof.
  revert i. induction items as [|v rest IH]; intros i; cbn; [discriminate|].
  destruct v; try (intros [= <-]; reflexivity).
  destruct (join_items (S i) rest) eqn:Hrest; [|discriminate].
  intros [= <-]. eapply IH, Hrest.
Qed.

Section catalogue.
Context `{Externals}.

Lemma call_tool_result request polls server w :
  fst (call_tool request polls server w) =
  match fst (route (params_name request) (arguments_of request) polls
               {| self_ := client_of server; world := w |}) with
  | Return result => Return (text_result result)
  | Raise e => Return (error_result (error_text e))
  | Blocked => Blocked
  end.
Proof.
  rewrite call_tool_run. cbv zeta. destruct (route _ _ polls _) as [[result|e|] st'];
    reflexivity.
Qed.

Lemma decode_exn_never_unknown err : never_unknown (decode_exn err).
Proof. destruct err; reflexivity. Qed.

Lemma _make_request_never_unknown endpoint params :
  raises_only never_unknown (_make_request endpoint params).
Proof.
  eapply raises_only_ext; [apply _make_request_is_one_attempt|].
  unfold _make_request_wrapped. apply raises_only_bind.
  - intros polls st e st' Hrun. apply _get_cached_data_raises in Hrun as ->. reflexivity.
  - intros cached_data. destruct (is_not_None cached_data); [raises|].
    apply raises_only_bind; [raises|intros _]. cbv zeta.
    apply (raises_only_try_except _ inside_fetch).
    + apply raises_only_bind.
      * intros polls st e st'. unfold client_get.
        destruct (provider (world st)) as [|[code txt body|msg] rest];
          [intros [= <- _]; exact I | discriminate | intros [= <- _]; exact I].
      * intros response. unfold raise_for_status, response_json.
        apply raises_only_bind; [raises|intros _].
        apply raises_only_bind; [|intros data; raises].
        destruct (json_body response) as [err|data]; [|raises].
        apply raises_only_raise. pose proof (decode_exn_never_unknown err) as Herr.
        destruct err; exact Herr.
    + intros e He. destruct e; cbn in *; try exact He; apply raises_only_raise; exact I.
Qed.

Lemma catches_never_unknown {A} (body : M A) :
  raises_only never_unknown body ->
  raises_only never_unknown (try_except body invalid_response_format).
Proof.
  intros Hbody. apply (raises_only_try_except _ never_unknown); [exact Hbody|].
  intros e He. destruct e; cbn in *; try exact He. apply raises_only_raise. exact I.
Qed.

Lemma construct_from_never_unknown {A} cls (validate : Dict -> construction_error + A)
    data :
  raises_only never_unknown (construct_from cls validate data).
Proof.
  unfold construct_from, construct.
  destruct data; try (apply raises_only_raise; reflexivity).
  destruct (validate fields) as [err|model]; [|raises].
  apply raises_only_raise. destruct err; reflexivity.
Qed.

Lemma comprehension_never_unknown items :
  raises_only never_unknown (comprehension PairInfo_of items).
Proof.
  induction items as [|pair rest IH]; cbn [comprehension]; [raises|].
  apply raises_only_bind; [|intros p; raises].
  apply construct_from_never_unknown.
Qed.

Lemma handlers_never_unknown tool_name arguments :
  In tool_name tool_names ->
  raises_only never_unknown (route tool_name arguments).
Proof.
  pose proof _make_request_never_unknown as Hfetch.
  pose proof comprehension_never_unknown as Hpairs.
  pose proof @construct_from_never_unknown as Hconstruct.
  intros Hin. cbn in Hin.
  repeat (destruct Hin as [<- | Hin]); [..|contradiction];
    cbn [route String.eqb Ascii.eqb Bool.eqb];
    unfold _get_token_info, _get_pair_info, _search_tokens, _get_trending_pairs,
      _get_multiple_pairs, _get_supported_chains, _get_rate_limit_info, subscript,
      get_token_info, get_pair_info, search, get_trending_pairs, get_multiple_pairs,
      get_rate_limit_info.
  - raises; apply catches_never_unknown; raises.
  - raises; apply catches_never_unknown; raises.
  - raises; apply catches_never_unknown; raises.
  - raises; apply catches_never_unknown; unfold _make_request_endpoint; raises.
  - raises.
    + unfold py_join.
      match goal with |- context [py_iter ?v] => destruct (py_iter v) as [e|items] end;
        [raises|].
      destruct (join_items 0 items) as [e|ss] eqn:Hjoin; [|raises].
      apply raises_only_raise. eapply join_items_never_unknown, Hjoin.
    + apply catches_never_unknown.
      apply raises_only_bind; [apply Hfetch|intros data].
      apply raises_only_bind; [unfold py_get; raises|intros pairs_data].
      destruct (py_iter pairs_data) as [e|items] eqn:Hiter; [|apply Hpairs].
      apply raises_only_raise.
      destruct pairs_data; cbn in Hiter; inversion Hiter; reflexivity.
  - raises.
  - raises.
Qed.

End catalogue.

Lemma append_nonempty (s1 s2 : string) : s2 <> EmptyString -> s1 +:+ s2 <> EmptyString.
Proof. destruct s1; [intros Hne; exact Hne | discriminate]. Qed.

Lemma ends_with_paren_nonempty s : ends_with_paren s = true -> s <> EmptyString.
Proof. destruct s; [discriminate | discriminate]. Qed.

Lemma ends_with_paren_app s1 s2 :
  ends_with_paren s2 = true -> ends_with_paren (s1 +:+ s2) = true.
Proof.
  intros Hend. induction s1 as [|c s1 IH]; [exact Hend|].
  change (ends_with_paren (String c (s1 +:+ s2)) = true).
  pose proof (append_nonempty s1 s2 (ends_with_paren_nonempty _ Hend)) as Hne.
  cbn [ends_with_paren]. destruct (s1 +:+ s2); [congruence | exact IH].
Qed.

(** The text of a [JSONDecodeError] ends with the place of the error. *)
Lemma JSONDecodeError_text msg lineno colno pos :
  ends_with_paren (exn_str (JSONDecodeError msg lineno colno pos)) = true.
Proof. cbn [exn_str]. repeat apply ends_with_paren_app. reflexivity. Qed.

Lemma never_unknown_text e tool_name :
  In tool_name tool_names ->
  never_unknown e -> error_text e <> "Unexpected Error: Unknown tool: " +:+ tool_name.
Proof.
  intros Hin He Heq.
  destruct e as [key|m|m|m|c t|m|m|l|message sc|m ln cn p|enc m|m|m|errno m];
    try (match type of Heq with
         | error_text ?e = _ =>
             change ("Unexpected Error: " +:+ exn_str e
                     = "Unexpected Error: " +:+ ("Unknown tool: " +:+ tool_name)) in Heq;
             apply String.app_inj in Heq; apply (f_equal head_is_U) in Heq;
             change (head_is_U (exn_str e) = true) in Heq;
             change (head_is_U (exn_str e) = false) in He; congruence
         end).
  - apply (f_equal head_is_U) in Heq. change (false = true) in Heq. discriminate Heq.
  - revert Heq. unfold error_text.
    destruct sc as [code|]; [destruct (code =? 0)|]; intros Heq;
      apply (f_equal head_is_U) in Heq; change (false = true) in Heq; discriminate Heq.
  - change ("Unexpected Error: " +:+ exn_str (JSONDecodeError m ln cn p)
            = "Unexpected Error: " +:+ ("Unknown tool: " +:+ tool_name)) in Heq.
    apply String.app_inj in Heq. apply (f_equal ends_with_paren) in Heq.
    rewrite JSONDecodeError_text in Heq. cbn in Hin.
    repeat (destruct Hin as [<- | Hin]); try contradiction; discriminate Heq.
Qed.

Section catalogue_and_dispatch.
Context `{Externals}.

(** X13. The catalogue and the dispatcher agree.  [call_tool] answers
    "Unknown tool" exactly for the names [list_tools] does not announce:
    a listed name is routed to its handler and never reported as unknown,
    whatever the handler does, and any other name is. *)
Theorem unknown_tool_iff_not_listed
    (request : CallToolRequest) (polls : nat) (server : DexScreenerMCPServer) (w : World) :
  fst (call_tool request polls server w)
  = Return (error_result ("Unexpected Error: Unknown tool: " +:+ params_name request))
  <-> ~ In (params_name request) (map name list_tools).
Proof.
  change (map name list_tools) with tool_names. rewrite call_tool_result. split.
  - intros Heq Hin.
    destruct (route _ _ polls _) as [[result|e|] st'] eqn:Hrun; cbn in Heq;
      try discriminate.
    pose proof (handlers_never_unknown _ _ Hin _ _ _ _ Hrun) as He.
    injection Heq as Heq. exact (never_unknown_text _ _ Hin He Heq).
  - intros Hnot. rewrite (route_unknown _ _ Hnot). reflexivity.
Qed.

(** X14. What a schema requires, the handler insists on.  For every tool
    of the catalogue and every key its schema lists as required, a call
    whose arguments lack the key ends in an error-flagged result, with no
    request issued and the client as it was. *)
Theorem required_keys_are_enforced
    (tool : Tool) (key : string) (arguments : Dict) (polls : nat)
    (server : DexScreenerMCPServer) (w : World) :
  In tool list_tools ->
  In key (required_of tool) ->
  dict_get key arguments = None ->
  exists error_msg,
    call_tool (tool_call (name tool) arguments) polls server w
    = (Return (error_result error_msg), ({| client := Some (client_of server) |}, w)).
Proof.
  intros Htool Hkey Hmissing. cbn in Htool.
  repeat (destruct Htool as [<- | Htool]); [..|contradiction]; cbn in Hkey;
    repeat (destruct Hkey as [<- | Hkey]); try contradiction; cbn [name].
  - eapply call_tool_rejects. cbn [route String.eqb Ascii.eqb Bool.eqb].
    unfold _get_token_info, bind at 1. rewrite subscript_run, Hmissing. reflexivity.
  - eapply call_tool_rejects. cbn [route String.eqb Ascii.eqb Bool.eqb].
    unfold _get_pair_info, bind at 1. rewrite subscript_run, Hmissing. reflexivity.
  - destruct (dict_get "chain_id" arguments) as [chain_id|] eqn:Hchain;
      eapply call_tool_rejects; cbn [route String.eqb Ascii.eqb Bool.eqb];
      unfold _get_pair_info, bind at 1; rewrite subscript_run, Hchain; [|reflexivity].
    unfold bind at 1. rewrite subscript_run, Hmissing. reflexivity.
  - eapply call_tool_rejects. cbn [route String.eqb Ascii.eqb Bool.eqb].
    unfold _search_tokens, bind at 1. rewrite subscript_run, Hmissing. reflexivity.
  - eapply call_tool_rejects. cbn [route String.eqb Ascii.eqb Bool.eqb].
    unfold _get_multiple_pairs, bind at 1. rewrite subscript_run, Hmissing. reflexivity.
Qed.

End catalogue_and_dispatch.

(** ** The cache key and the order of the params *)

Lemma leb_trans (s1 s2 s3 : string) :
  String.leb s1 s2 = true -> String.leb s2 s3 = true -> String.leb s1 s3 = true.
Proof.
  intros H12 H23. apply Is_true_true. apply Is_true_true in H12, H23.
  exact (transitivity (R := String.le) H12 H23).
Qed.

Lemma insert_item_perm kv l : insert_item kv l ≡ₚ kv :: l.
Proof.
  induction l as [|kv' rest IH]; [reflexivity|]. cbn [insert_item].
  destruct (String.leb (fst kv) (fst kv')); [reflexivity|].
  rewrite IH. apply perm_swap.
Qed.

Lemma insert_item_sorted kv l : sorted_by_key l -> sorted_by_key (insert_item kv l).
Proof.
  induction l as [|kv' rest IH]; intros Hsorted.
  - cbn. auto.
  - cbn [insert_item]. destruct Hsorted as [Hall Hrest].
    destruct (String.leb (fst kv) (fst kv')) eqn:Hle.
    + cbn [sorted_by_key]. split; [|split; assumption].
      constructor; [exact Hle|].
      eapply Forall_impl; [exact Hall|]. intros kv'' Hle'. cbn in Hle'.
      exact (leb_trans _ _ _ Hle Hle').
    + cbn [sorted_by_key]. split; [|apply IH, Hrest].
      assert (Hge : String.leb (fst kv') (fst kv) = true).
      { destruct (String.leb_total (fst kv) (fst kv')) as [Habs|Hge]; [congruence|exact Hge]. }
      apply Forall_forall. intros kv'' Hin.
      rewrite insert_item_perm in Hin. apply elem_of_cons in Hin as [->|Hin]; [exact Hge|].
      rewrite Forall_forall in Hall. apply Hall, Hin.
Qed.

Lemma sorted_items_perm params : sorted_items params ≡ₚ params.
Proof.
  induction params as [|kv rest IH]; [reflexivity|].
  cbn. rewrite insert_item_perm, IH. reflexivity.
Qed.

Lemma sorted_items_sorted params : sorted_by_key (sorted_items params).
Proof.
  induction params as [|kv rest IH]; [exact I|]. cbn. apply insert_item_sorted, IH.
Qed.

Lemma same_key_same_item (l : Dict) kv kv' :
  NoDup (map fst l) -> In kv l -> In kv' l -> fst kv = fst kv' -> kv = kv'.
Proof.
  induction l as [|x rest IH]; intros Hnodup Hin Hin' Hkey; [destruct Hin|].
  cbn in Hnodup. apply NoDup_cons in Hnodup as [Hfresh Hnodup].
  destruct Hin as [<-|Hin], Hin' as [<-|Hin']; auto.
  - exfalso. apply Hfresh. rewrite Hkey. apply list_elem_of_In, in_map, Hin'.
  - exfalso. apply Hfresh. rewrite <- Hkey. apply list_elem_of_In, in_map, Hin.
Qed.

Lemma sorted_by_key_unique (l1 l2 : Dict) :
  NoDup (map fst l1) -> l1 ≡ₚ l2 -> sorted_by_key l1 -> sorted_by_key l2 -> l1 = l2.
Proof.
  revert l2. induction l1 as [|a l1 IH]; intros l2 Hnodup Hperm Hs1 Hs2.
  - apply Permutation_nil in Hperm. congruence.
  - destruct l2 as [|b l2]; [symmetry in Hperm; apply Permutation_nil in Hperm; congruence|].
    destruct Hs1 as [Hall1 Hs1], Hs2 as [Hall2 Hs2].
    assert (Hab : a = b).
    { assert (Hb : b ∈ a :: l1) by (rewrite Hperm; left).
      assert (Ha : a ∈ b :: l2) by (rewrite <- Hperm; left).
      apply elem_of_cons in Hb as [Hb|Hb]; [congruence|].
      apply elem_of_cons in Ha as [Ha|Ha]; [exact Ha|].
      rewrite Forall_forall in Hall1, Hall2.
      pose proof (Hall1 b Hb) as Hle1. pose proof (Hall2 a Ha) as Hle2.
      apply (same_key_same_item (a :: l1));
        [exact Hnodup | left; reflexivity | right; apply list_elem_of_In, Hb |].
      apply String.leb_antisym; assumption. }
    subst b. f_equal. apply Permutation_cons_inv in Hperm.
    cbn in Hnodup. apply NoDup_cons in Hnodup as [_ Hnodup].
    apply IH; assumption.
Qed.

Section cache_key.
Context `{Externals}.

(** X15. The cache key does not depend on the order of the params.  Two
    params dicts with the same items, keys distinct as in any dict, give the
    same key for an endpoint, in whatever order the items were inserted. *)
Theorem cache_key_ignores_param_order
    (endpoint : string) (params params' : Dict) :
  NoDup (map fst params) ->
  params ≡ₚ params' ->
  _get_cache_key endpoint (Some params) = _get_cache_key endpoint (Some params').
Proof.
  intros Hnodup Hperm.
  assert (Hsorted : sorted_items params = sorted_items params').
  { apply sorted_by_key_unique.
    - rewrite sorted_items_perm. exact Hnodup.
    - rewrite !sorted_items_perm. exact Hperm.
    - apply sorted_items_sorted.
    - apply sorted_items_sorted. }
  unfold _get_cache_key.
  destruct params as [|kv rest], params' as [|kv' rest'].
  - reflexivity.
  - apply Permutation_nil in Hperm. discriminate.
  - symmetry in Hperm. apply Permutation_nil in Hperm. discriminate.
  - rewrite Hsorted. reflexivity.
Qed.

End cache_key.

(** ** The request each operation sends *)

Section request_shapes.
Context `{Externals}.

(** An operation that fetches and then builds a model *)
Lemma fetch_and_construct {A} endpoint params cls
    (validate : Dict -> construction_error + A) polls st :
  same_keys (self_ st) ->
  cache_valid_at (_get_cache_key endpoint params) st = false ->
  has_room (clock (world st)) (throttler (self_ st)) = true ->
  exists r st',
    try_except
      (data <- _make_request endpoint params ;; construct_from cls validate data)
      invalid_response_format polls st = (r, st')
    /\ r <> Blocked
    /\ sent (world st') = (sent (world st) ++ [(url_of endpoint, params)])%list.
Proof.
  intros Hinv Hmiss Hroom.
  destruct (fetch_and_construct_run endpoint params cls validate polls st Hinv Hmiss Hroom)
    as (st1 & r & Hw & Hrun & Hnb & _).
  eexists _, _. split; [exact Hrun|]. split; [exact Hnb|].
  destruct (answered_leaves (_get_cache_key endpoint params) (url_of endpoint) params st1)
    as (Hworld & _ & _).
  rewrite Hworld. cbn. rewrite Hw. reflexivity.
Qed.

(** X16. What each typed operation asks the provider.  On a miss with room
    in the window each of them issues exactly one GET, whatever the answer:
    [get_token_info] for ".../tokens/<address>", [get_pair_info] for
    ".../pairs/<chain>/<pair>", both without params, and [search] for
    ".../search" with the query under "q" and, only when a limit is given, the
    limit under "limit" as a string. *)
Theorem operations_send_one_request (polls : nat) (st : State) :
  same_keys (self_ st) ->
  has_room (clock (world st)) (throttler (self_ st)) = true ->
  (forall token_address,
     cache_valid_at ("tokens/" +:+ py_str token_address) st = false ->
     exists r st',
       get_token_info token_address polls st = (r, st')
       /\ r <> Blocked
       /\ sent (world st')
          = (sent (world st)
             ++ [("https://api.dexscreener.com/latest/dex/tokens/" +:+ py_str token_address,
                  None)])%list)
  /\ (forall chain_id pair_address,
        cache_valid_at ("pairs/" +:+ py_str chain_id +:+ "/" +:+ py_str pair_address) st
        = false ->
        exists r st',
          get_pair_info chain_id pair_address polls st = (r, st')
          /\ r <> Blocked
          /\ sent (world st')
             = (sent (world st)
                ++ [("https://api.dexscreener.com/latest/dex/pairs/" +:+ py_str chain_id
                     +:+ "/" +:+ py_str pair_address, None)])%list)
  /\ (forall query,
        cache_valid_at (_get_cache_key "search" (Some [("q", query)])) st = false ->
        exists r st',
          search query JNull polls st = (r, st')
          /\ r <> Blocked
          /\ sent (world st')
             = (sent (world st)
                ++ [("https://api.dexscreener.com/latest/dex/search",
                     Some [("q", query)])])%list)
  /\ (forall query limit,
        limit <> JNull ->
        cache_valid_at
          (_get_cache_key "search" (Some [("q", query); ("limit", JStr (py_str limit))])) st
        = false ->
        exists r st',
          search query limit polls st = (r, st')
          /\ r <> Blocked
          /\ sent (world st')
             = (sent (world st)
                ++ [("https://api.dexscreener.com/latest/dex/search",
                     Some [("q", query); ("limit", JStr (py_str limit))])])%list).
Proof.
  intros Hinv Hroom. split; [|split; [|split]].
  - intros token_address Hmiss.
    exact (fetch_and_construct ("tokens/" +:+ py_str token_address) None
             "TokenResponse" TokenResponse_validate polls st Hinv Hmiss Hroom).
  - intros chain_id pair_address Hmiss.
    exact (fetch_and_construct
             ("pairs/" +:+ py_str chain_id +:+ "/" +:+ py_str pair_address) None
             "PairResponse" PairResponse_validate polls st Hinv Hmiss Hroom).
  - intros query Hmiss.
    exact (fetch_and_construct "search" (Some [("q", query)])
             "SearchResult" SearchResult_validate polls st Hinv Hmiss Hroom).
  - intros query limit Hlimit Hmiss.
    pose proof (fetch_and_construct "search"
                  (Some [("q", query); ("limit", JStr (py_str limit))])
                  "SearchResult" SearchResult_validate polls st Hinv Hmiss Hroom) as Hrun.
    unfold search. destruct limit; try exact Hrun. congruence.
Qed.

(** X17. Where [get_trending_pairs] goes.  Its argument is the endpoint
    itself.  A missing or empty chain id asks for ".../tokens"; a non-empty
    string asks for that string under the base URL, leading slashes dropped; a
    non-zero number costs a permit of the throttler and then fails on
    [endpoint.lstrip] with nothing sent. *)
Theorem trending_pairs_endpoint (polls : nat) (st : State) :
  same_keys (self_ st) ->
  has_room (clock (world st)) (throttler (self_ st)) = true ->
  (forall chain_id,
     py_truthy chain_id = false ->
     cache_valid_at "tokens" st = false ->
     exists r st',
       get_trending_pairs chain_id polls st = (r, st')
       /\ r <> Blocked
       /\ sent (world st')
          = (sent (world st)
             ++ [("https://api.dexscreener.com/latest/dex/tokens", None)])%list)
  /\ (forall chain,
        chain <> EmptyString ->
        cache_valid_at chain st = false ->
        exists r st',
          get_trending_pairs (JStr chain) polls st = (r, st')
          /\ r <> Blocked
          /\ sent (world st')
             = (sent (world st)
                ++ [("https://api.dexscreener.com/latest/dex/" +:+ lstrip_slash chain,
                     None)])%list)
  /\ (forall n,
        n <> 0 ->
        exists st',
          get_trending_pairs (JInt n) polls st
          = (Raise (AttributeError "'int' object has no attribute 'lstrip'"), st')
          /\ sent (world st') = sent (world st)
          /\ Throttler._task_logs (throttler (self_ st'))
             = (Throttler._task_logs
                  (Throttler.flush (clock (world st)) (throttler (self_ st)))
                ++ [clock (world st)])%list).
Proof.
  intros Hinv Hroom. split; [|split].
  - intros chain_id Hfalsy Hmiss. unfold get_trending_pairs. rewrite Hfalsy.
    exact (fetch_and_construct "tokens" None "TrendingResponse" TrendingResponse_validate
             polls st Hinv Hmiss Hroom).
  - intros chain Hchain Hmiss. unfold get_trending_pairs.
    assert (Htruthy : py_truthy (JStr chain) = true)
      by (destruct chain; [congruence | reflexivity]).
    rewrite Htruthy.
    exact (fetch_and_construct chain None "TrendingResponse" TrendingResponse_validate
             polls st Hinv Hmiss Hroom).
  - intros n Hn. unfold get_trending_pairs.
    assert (Htruthy : py_truthy (JInt n) = true)
      by (cbn; destruct (Z.eqb_spec n 0); [contradiction | reflexivity]).
    rewrite Htruthy, try_except_run.
    unfold _make_request_endpoint, bind at 1, bind at 1, throttler_enter.
    rewrite acquire_room by exact Hroom.
    eexists. split; [reflexivity|]. split; reflexivity.
Qed.

(** X18. A fetch never waits for ever.  On a client whose throttler has a
    positive budget and a positive polling interval, some number of polls is
    enough for [_make_request] to finish, returning or raising, and allowing
    more polls does not change what it does. *)
Theorem fetch_always_finishes
    (endpoint : string) (params : option Dict) (st : State) :
  throttler_ok (self_ st) ->
  exists (n : nat) r st',
    r <> Blocked
    /\ forall polls, (n <= polls)%nat -> _make_request endpoint params polls st = (r, st').
Proof.
  intros Hok.
  destruct (settles__make_request endpoint params st Hok) as (n & r & st' & Hr & _ & Hrun).
  exists n, r, st'. auto.
Qed.

End request_shapes.

(** ** Instances of the further properties *)

(** X1 on the client of [spent_budget_state]: writing or reading another key
    leaves the entry for "tokens/0xabc" in place. *)
Lemma other_entries_survive_a_write :
  "tokens/0xdef" <> "tokens/0xabc"
  /\ _cache (self_ (snd (_cache_data "tokens/0xdef" JNull 0%nat spent_budget_state)))
     !! "tokens/0xabc" = Some (JDict no_pairs)
  /\ _cache_timestamps (self_ (snd (_get_cached_data "tokens/0xdef" 0%nat spent_budget_state)))
     !! "tokens/0xabc" = Some 0.
Proof.
  split; [discriminate|].
  destruct (cache_operations_leave_other_keys "tokens/0xdef" "tokens/0xabc" JNull 0
              spent_budget_state) as ((Hwrite & _) & (_ & Hread)); [discriminate|].
  split.
  - rewrite Hwrite. reflexivity.
  - rewrite Hread. reflexivity.
Defined.

(** X3 for the first request of a fresh client *)
Lemma first_request_of_a_fresh_client :
  exists r st',
    @_make_request strict.externals "tokens/0xabc" None 0%nat (fresh_state [busy]) = (r, st')
    /\ Throttler._task_logs (throttler (self_ st')) = [0]
    /\ sent (world st') = [("https://api.dexscreener.com/latest/dex/tokens/0xabc", None)]
    /\ provider (world st') = [].
Proof.
  destruct (@miss_takes_one_permit_and_one_request strict.externals "tokens/0xabc" None 0
              (fresh_state [busy]))
    as (r & st' & Hrun & _ & Hlogs & Hsent & Hprovider & _);
    [reflexivity | reflexivity | reflexivity |].
  exists r, st'. exact (conj Hrun (conj Hlogs (conj Hsent Hprovider))).
Defined.

(** X4 for a 200 answer to a fresh client *)
Lemma a_good_answer_is_served_again :
  exists st1,
    @_make_request strict.externals "tokens/0xabc" None 0%nat (fresh_state [ok no_pairs])
    = (Return (JDict no_pairs), st1)
    /\ provider (world st1) = []
    /\ forall polls',
         @_make_request strict.externals "tokens/0xabc" None polls' st1
         = (Return (JDict no_pairs), st1).
Proof.
  destruct (@successful_fetch_is_cached strict.externals "tokens/0xabc" None 200 EmptyString
              (JDict no_pairs) [] 0 (fresh_state [ok no_pairs]))
    as (st1 & Hrun & _ & Hprovider & _ & _ & Hagain);
    [reflexivity | reflexivity | reflexivity | reflexivity | lia | reflexivity |].
  exists st1. split; [exact Hrun|]. split; [exact Hprovider|].
  apply Hagain. discriminate.
Defined.

(** X5 for a 503 answer to a fresh client, and to a client that holds an
    unexpired [None] under the key *)
Lemma a_503_leaves_the_cache_empty :
  fst (@_make_request strict.externals "tokens/0xabc" None 0%nat (fresh_state [busy]))
  = Raise (DexScreenerAPIError "HTTP 503: Service Unavailable" (Some 503))
  /\ _cache (self_ (snd (@_make_request strict.externals "tokens/0xabc" None 0%nat
                           (fresh_state [busy])))) !! "tokens/0xabc" = None
  /\ fst (@_make_request strict.externals "tokens/0xabc" None 0%nat null_entry_state)
     = Raise (DexScreenerAPIError "HTTP 503: Service Unavailable" (Some 503))
  /\ _cache (self_ null_entry_state) !! "tokens/0xabc" = Some JNull
  /\ _cache (self_ (snd (@_make_request strict.externals "tokens/0xabc" None 0%nat
                           null_entry_state)))
     = _cache (self_ null_entry_state).
Proof.
  split; [vm_compute; reflexivity|].
  split; [|split; [vm_compute; reflexivity|]]; cycle 1.
  { destruct (@failed_fetch_writes_nothing strict.externals "tokens/0xabc" None 0
                null_entry_state
                (snd (@_make_request strict.externals "tokens/0xabc" None 0%nat
                        null_entry_state))
                (DexScreenerAPIError "HTTP 503: Service Unavailable" (Some 503)))
      as (_ & _ & Hvalid & _);
      [unfold same_keys; vm_compute; reflexivity | vm_compute; reflexivity |].
    destruct Hvalid as (Hentry & Hcache & _); [vm_compute; reflexivity|].
    exact (conj Hentry Hcache). }
  destruct (@failed_fetch_writes_nothing strict.externals "tokens/0xabc" None 0
              (fresh_state [busy])
              (snd (@_make_request strict.externals "tokens/0xabc" None 0%nat
                      (fresh_state [busy])))
              (DexScreenerAPIError "HTTP 503: Service Unavailable" (Some 503)))
    as (_ & Hmiss & _); [reflexivity | vm_compute; reflexivity |].
  apply Hmiss. reflexivity.
Defined.


(** X8 for the server left by one fetch on a fresh one *)
Lemma the_server_after_one_call_is_in_order :
  in_order (client_of (@server_after_one_fetch strict.externals))
  /\ forall request w,
       exists polls result,
         fst (@call_tool strict.externals request polls
                (@server_after_one_fetch strict.externals) w)
         = Return result.
Proof.
  destruct (@reachable_servers_are_in_order strict.externals
              (@server_after_one_fetch strict.externals))
    as (Horder & _ & Hfinishes).
  - apply reachable_call. apply reachable_fresh.
  - exact (conj Horder Hfinishes).
Defined.

(** X9 for a client whose one permit of the minute was taken at time 0 and
    that asks again at 59.5 s: the request goes out after the minute is over. *)
Lemma a_spent_budget_is_waited_out :
  has_room (clock (world nearly_reset_state)) (throttler (self_ nearly_reset_state)) = false
  /\ fst (@_make_request strict.externals "tokens/0xdef" None 100%nat nearly_reset_state)
     <> Blocked
  /\ 60 * 1000000
     < clock (world (snd (@_make_request strict.externals "tokens/0xdef" None 100%nat
                            nearly_reset_state))).
Proof.
  split; [reflexivity|].
  assert (Hfinished :
            fst (@_make_request strict.externals "tokens/0xdef" None 100%nat
                   nearly_reset_state) <> Blocked)
    by (vm_compute; discriminate).
  split; [exact Hfinished|].
  destruct (@request_waits_for_the_budget strict.externals "tokens/0xdef" None 100
              nearly_reset_state
              (snd (@_make_request strict.externals "tokens/0xdef" None 100%nat
                      nearly_reset_state))
              (fst (@_make_request strict.externals "tokens/0xdef" None 100%nat
                      nearly_reset_state)))
    as (_ & _ & Hwait);
    [reflexivity | reflexivity | cbn; lia | apply surjective_pairing | exact Hfinished |].
  destruct (Hwait eq_refl) as (oldest & rest & Hlogs & Hlater).
  injection Hlogs as <- _.
  change (60 * 1000000 < clock (world (snd (@_make_request strict.externals "tokens/0xdef"
                                             None 100%nat nearly_reset_state))) - 0)
    in Hlater.
  lia.
Defined.

(** X10 for a 503 answer, and for a 200 answer whose body breaks off after
    an opening brace, to the first call of a fresh server *)
Lemma a_503_is_reported_with_its_status :
  sent (snd (snd (@call_tool strict.externals
                    (tool_call "get_token_info" [("token_address", JStr "0xabc")])
                    0%nat fresh_server (world_with [busy]))))
  = [("https://api.dexscreener.com/latest/dex/tokens/0xabc", None)]
  /\ fst (@call_tool strict.externals
            (tool_call "get_token_info" [("token_address", JStr "0xabc")])
            0%nat fresh_server (world_with [busy]))
     = Return (error_result
                 "DexScreener API Error: HTTP 503: Service Unavailable (Status: 503)")
  /\ fst (@call_tool strict.externals
            (tool_call "get_token_info" [("token_address", JStr "0xabc")])
            0%nat fresh_server (world_with [truncated_body]))
     = Return (error_result
                 ("Unexpected Error: "
                  +:+ "Expecting property name enclosed in double quotes"
                  +:+ ": line 1 column 2 (char 1)")).
Proof.
  destruct (@provider_failures_reach_the_tool_result strict.externals
              [("token_address", JStr "0xabc")] (JStr "0xabc") 0 fresh_server
              (world_with [busy]))
    as (Hsent & Hstatus & _);
    [reflexivity | reflexivity | reflexivity | reflexivity | reflexivity |].
  destruct (@provider_failures_reach_the_tool_result strict.externals
              [("token_address", JStr "0xabc")] (JStr "0xabc") 0 fresh_server
              (world_with [truncated_body]))
    as (_ & _ & _ & Hdecode);
    [reflexivity | reflexivity | reflexivity | reflexivity | reflexivity |].
  split; [exact Hsent|]. split.
  - apply (Hstatus 503 "Service Unavailable" (inl (not_json "Expecting value" 1 1 0)) []);
      [reflexivity | lia | lia].
  - apply (Hdecode 200 "{" (not_json "Expecting property name enclosed in double quotes"
                             1 2 1) []); [reflexivity | lia].
Defined.

(** X11 for the server left by one fetch, which took a permit *)
Lemma a_permit_taken_and_300_remaining :
  Throttler._task_logs (throttler (client_of (@server_after_one_fetch strict.externals)))
  = [0]
  /\ fst (@call_tool strict.externals (tool_call "get_rate_limit_info" []) 0%nat
            (@server_after_one_fetch strict.externals) (world_with []))
     = Return (text_result
                 (RateLimitInfo_dict
                    {| types.requests_remaining := 300;
                       types.reset_time := 60 * 1000000;
                       types.limit := 300 |})).
Proof.
  split; [vm_compute; reflexivity|].
  apply (proj2 (@rate_limit_info_ignores_usage strict.externals (Some []) 0
                  (@server_after_one_fetch strict.externals) (world_with []))).
  apply reachable_call. apply reachable_fresh.
Defined.

(** X12 for two addresses asked of a fresh client *)
Lemma two_pairs_take_one_request :
  exists r st',
    @get_multiple_pairs strict.externals (JList [JStr "ethereum:0x1"; JStr "bsc:0x2"]) 0%nat
      (fresh_state [ok no_pairs]) = (r, st')
    /\ sent (world st')
       = [("https://api.dexscreener.com/latest/dex/pairs/ethereum:0x1,bsc:0x2", None)].
Proof.
  destruct (@many_pairs_take_one_request strict.externals ["ethereum:0x1"; "bsc:0x2"] 0
              (fresh_state [ok no_pairs]))
    as (r & st' & Hrun & _ & Hsent);
    [discriminate | reflexivity | reflexivity | reflexivity |].
  exists r, st'. exact (conj Hrun Hsent).
Defined.

(** X13 for a name outside the catalogue and for one inside it *)
Lemma get_price_history_is_not_listed :
  fst (@call_tool strict.externals (tool_call "get_price_history" []) 0%nat fresh_server
         (world_with []))
  = Return (error_result "Unexpected Error: Unknown tool: get_price_history")
  /\ fst (@call_tool strict.externals (tool_call "get_supported_chains" []) 0%nat
            fresh_server (world_with []))
     <> Return (error_result "Unexpected Error: Unknown tool: get_supported_chains").
Proof.
  split.
  - apply (proj2 (@unknown_tool_iff_not_listed strict.externals
                    (tool_call "get_price_history" []) 0 fresh_server (world_with []))).
    cbn. intuition discriminate.
  - intros Hunknown.
    apply (proj1 (@unknown_tool_iff_not_listed strict.externals
                    (tool_call "get_supported_chains" []) 0 fresh_server (world_with [])));
      [exact Hunknown|].
    cbn. tauto.
Defined.

(** X14 for a call of get_pair_info without its pair address *)
Lemma pair_address_is_required :
  exists error_msg,
    @call_tool strict.externals
      (tool_call "get_pair_info" [("chain_id", JStr "ethereum")]) 0%nat fresh_server
      (world_with [ok no_pairs])
    = (Return (error_result error_msg),
       ({| client := Some DexScreenerClient_default |}, world_with [ok no_pairs])).
Proof.
  apply (@required_keys_are_enforced strict.externals
           (nth 1 list_tools
              {| name := EmptyString; description := EmptyString; inputSchema := JNull |})
           "pair_address" [("chain_id", JStr "ethereum")] 0 fresh_server
           (world_with [ok no_pairs])).
  - right. left. reflexivity.
  - right. left. reflexivity.
  - reflexivity.
Defined.

(** X15 on the params of the repository's cache-key test *)
Lemma limit_and_q_in_either_order :
  @_get_cache_key strict.externals "search" (Some [("q", JStr "usdc"); ("limit", JStr "10")])
  = @_get_cache_key strict.externals "search"
      (Some [("limit", JStr "10"); ("q", JStr "usdc")]).
Proof.
  apply (@cache_key_ignores_param_order strict.externals).
  - cbn. apply NoDup_cons. split; [|apply NoDup_singleton].
    rewrite list_elem_of_singleton. discriminate.
  - apply Permutation_swap.
Defined.

(** X16 for the search of the repository's test, with a limit of 10 *)
Lemma search_with_a_limit_of_ten :
  exists r st',
    @search strict.externals (JStr "usdc") (JInt 10) 0%nat (fresh_state [ok no_pairs])
    = (r, st')
    /\ sent (world st')
       = [("https://api.dexscreener.com/latest/dex/search",
           Some [("q", JStr "usdc"); ("limit", JStr "10")])].
Proof.
  destruct (@operations_send_one_request strict.externals 0 (fresh_state [ok no_pairs]))
    as (_ & _ & _ & Hsearch); [reflexivity | reflexivity |].
  destruct (Hsearch (JStr "usdc") (JInt 10)) as (r & st' & Hrun & _ & Hsent);
    [discriminate | reflexivity |].
  exists r, st'. exact (conj Hrun Hsent).
Defined.

(** X17 for a fresh client: no chain id, and the number 5 as chain id *)
Lemma trending_without_a_chain_asks_for_tokens :
  (exists r st',
     @get_trending_pairs strict.externals JNull 0%nat (fresh_state [ok no_pairs]) = (r, st')
     /\ sent (world st') = [("https://api.dexscreener.com/latest/dex/tokens", None)])
  /\ (exists st',
        @get_trending_pairs strict.externals (JInt 5) 0%nat (fresh_state [ok no_pairs])
        = (Raise (AttributeError "'int' object has no attribute 'lstrip'"), st')
        /\ sent (world st') = []
        /\ Throttler._task_logs (throttler (self_ st')) = [0]).
Proof.
  destruct (@trending_pairs_endpoint strict.externals 0 (fresh_state [ok no_pairs]))
    as (Hnone & _ & Hnumber); [reflexivity | reflexivity |].
  split.
  - destruct (Hnone JNull) as (r & st' & Hrun & _ & Hsent); [reflexivity | reflexivity |].
    exists r, st'. exact (conj Hrun Hsent).
  - destruct (Hnumber 5) as (st' & Hrun & Hsent & Hlogs); [lia|].
    exists st'. exact (conj Hrun (conj Hsent Hlogs)).
Defined.

(** X18 for the client whose budget is spent *)
Lemma a_request_behind_a_spent_budget_finishes :
  exists (n : nat) r st',
    r <> Blocked
    /\ forall polls, (n <= polls)%nat ->
         @_make_request strict.externals "tokens/0xdef" None polls spent_budget_state
         = (r, st').
Proof.
  apply (@fetch_always_finishes strict.externals "tokens/0xdef" None spent_budget_state).
  unfold throttler_ok. cbn. lia.
Defined.
